(** * KYC verification pipeline: a shallow embedding and its properties

    The development follows the four service modules of the platform:

    - [app/services/document_service.py]     (module [DocumentService])
    - [app/services/face_service.py]         (module [FaceService])
    - [app/services/liveness_service.py]     (module [LivenessService])
    - [app/services/verification_service.py] (module [VerificationService])

    Python [float] values are IEEE-754 binary64 numbers; they are modelled
    by Rocq's primitive floats, whose operations obey the same standard
    (round to nearest, ties to even; comparisons with NaN are false).
    Python dictionaries with a fixed set of keys are records, dictionaries
    built key by key are [gmap]s, and [try]/[except] blocks are written
    with a small exception monad.  OpenCV, NumPy's reductions, [re] and
    the file system are interfaces (type classes); small instances of them
    are given to run the services on concrete inputs.

    The first part of the file holds the definitions, one module per
    source file; the second part holds the properties, one module of facts
    per service. *)

From Stdlib Require Import Floats ZArith Lia.
From stdpp Require Import base option list strings gmap.

Set Warnings "-inexact-float".
Local Open Scope Z_scope.

Module PyFloat.

Abbreviation float := PrimFloat.float.

(** [min(a, b)] and [max(a, b)] of the Python builtins: the first
    argument is kept unless the second one compares strictly smaller
    (resp. larger).  With a NaN operand the comparison is false. *)
Definition py_min (a b : float) : float := if (b <? a)%float then b else a.
Definition py_max (a b : float) : float := if (a <? b)%float then b else a.

(** [>=] is [<=] with its operands swapped. *)
Definition geb (a b : float) : bool := (b <=? a)%float.

(** Conversion of a Python [int] to [float]; exact below [2^53]. *)
Definition of_Z (z : Z) : float :=
  if (z <? 0)%Z then (- PrimFloat.of_uint63 (Uint63.of_Z (- z)))%float
  else PrimFloat.of_uint63 (Uint63.of_Z z).

(** The order of the specification floats, seen through [SFcompare]. *)
Definition cmp (x y : float) : option comparison :=
  SFcompare (Prim2SF x) (Prim2SF y).

(** [max(lo, min(hi, x))] *)
Definition clamp (lo hi x : float) : float := py_max lo (py_min hi x).

End PyFloat.

(** ** Exceptions

    A Python call either returns a value or raises; [Raise msg] carries
    the text [str(e)] of the exception, which is all that the handlers of
    the services look at. *)

Module Exc.

Inductive exc (A : Type) : Type :=
| Return (a : A)
| Raise (msg : string).
Arguments Return {A} a.
Arguments Raise {A} msg.

#[export] Instance exc_ret : MRet exc := fun A a => Return a.
#[export] Instance exc_bind : MBind exc := fun A B f m =>
  match m with
  | Return a => f a
  | Raise msg => Raise msg
  end.

(** [try: body  except Exception as e: handler(str(e))] *)
Definition try_except {A} (body : exc A) (handler : string -> exc A) : exc A :=
  match body with
  | Return a => Return a
  | Raise msg => handler msg
  end.

(** A list comprehension, or a [for] loop that appends one result per
    element: the first element that raises aborts the whole loop. *)
Fixpoint for_each {A B} (f : A -> exc B) (l : list A) : exc (list B) :=
  match l with
  | [] => Return []
  | a :: l' => b ← f a; bs ← for_each f l'; Return (b :: bs)
  end.

Definition returns {A} (m : exc A) : Prop := exists a, m = Return a.

End Exc.

(** ** [app/services/document_service.py] *)

Module DocumentService.
Import PyFloat Exc.

Definition Path := string.

(** The [document_type] strings of the service. *)
Inductive DocType := passport | national_id | drivers_license | unknown.

#[export] Instance DocType_eq_dec : EqDecision DocType.
Proof. solve_decision. Defined.

(** The [doc_region] dictionary built by [_detect_document_type]. *)
Record Region := { region_width : Z; region_height : Z; aspect_ratio : float }.

(** The dictionary returned by [process_document].  The success path
    sets [raw_text] and [region], the handler sets [error]. *)
Record ProcessedDocument := {
  document_type : DocType;
  document_valid : bool;
  confidence : float;
  extracted_data : gmap string string;
  raw_text : option string;
  region : option Region;
  error : option string
}.

(** The regular expressions of the two parsers. *)
Inductive Pattern :=
| PassportNumber       (* r'([A-Z]\d{8})' *)
| Surname              (* r'SURNAME:\s*([^\n\r]+)', re.IGNORECASE *)
| GivenNames           (* r'GIVEN NAMES:\s*([^\n\r]+)', re.IGNORECASE *)
| DayMonthYear         (* r'(\d{1,2}\s+[A-Z]{3}\s+\d{4})' *)
| IdNumber             (* r'ID[\s:]*([A-Z0-9\-]+)', re.IGNORECASE *)
| Name                 (* r'NAME[\s:]*([^\n\r]+)', re.IGNORECASE *)
| Birth                (* r'(?:DOB|BIRTH)[\s:]*([^\n\r]+)', re.IGNORECASE *).

(** Images are OpenCV arrays.  The service itself only looks at their
    shape; the pixels go through OpenCV, whose calls may raise
    [cv2.error]. *)
Class OpenCV := {
  ndarray : Type;
  shape : ndarray -> Z * Z;                        (* (height, width) *)
  cv2_imread : Path -> option ndarray;             (* [None]: not decodable *)
  cv2_cvtColor_BGR2GRAY : ndarray -> exc ndarray;
  cv2_bilateralFilter : ndarray -> exc ndarray;
  cv2_convertScaleAbs : ndarray -> exc ndarray;
  cv2_adaptiveThreshold : ndarray -> exc ndarray
}.

(** The text builtins that depend on Unicode tables, and module [re]:
    [re_search p s] is [group(1)] of the leftmost match of [p] in [s], and
    [re_match_passport_number s] tells whether
    [re.match(r'^[A-Z]\d{8}$', s)] finds a match. *)
Class Text := {
  str_strip : string -> string;
  str_upper : string -> string;
  re_search : Pattern -> string -> option string;
  re_match_passport_number : string -> bool
}.

(** [sub in s] on strings. *)
Fixpoint str_in (sub s : string) : bool :=
  String.prefix sub s ||
  match s with
  | EmptyString => false
  | String _ s' => str_in sub s'
  end.

(** [s.split(sep)] for a one-character separator. *)
Fixpoint str_split (sep : Ascii.ascii) (s : string) : list string :=
  match s with
  | EmptyString => [EmptyString]
  | String c s' =>
      if Ascii.eqb c sep then EmptyString :: str_split sep s'
      else match str_split sep s' with
           | [] => [String c EmptyString]
           | w :: ws => String c w :: ws
           end
  end.

Definition newline : Ascii.ascii := Ascii.ascii_of_nat 10.

(** The text [_extract_text_with_ocr] returns: the OCR call is a
    placeholder in the source and the sample below is its result for
    every image. *)
Definition sample_text : string :=
"
            UNITED STATES OF AMERICA
            PASSPORT

            TYPE: P
            CODE: USA
            PASSPORT NO: P123456789
            SURNAME: DOE
            GIVEN NAMES: JOHN MICHAEL
            NATIONALITY: UNITED STATES OF AMERICA
            DATE OF BIRTH: 15 JAN 1990
            SEX: M
            PLACE OF BIRTH: NEW YORK
            DATE OF ISSUE: 01 JAN 2020
            DATE OF EXPIRATION: 01 JAN 2030
            AUTHORITY: DEPARTMENT OF STATE
            ENDORSEMENTS: NONE
            ".

(** [a / b] on Python integers raises [ZeroDivisionError] for a zero
    divisor; otherwise it is the correctly rounded quotient, which for
    operands below [2^53] is the binary64 division of the two converted
    integers. *)
Definition true_div (a b : Z) : exc float :=
  if (b =? 0)%Z then Raise "division by zero"
  else Return (of_Z a / of_Z b)%float.

(** The [if]/[elif] chain of [_detect_document_type]. *)
Definition classify_ratio (aspect_ratio : float) : DocType :=
  if (1.4 <=? aspect_ratio)%float && (aspect_ratio <=? 1.7)%float then passport
  else if (0.6 <=? aspect_ratio)%float && (aspect_ratio <=? 0.8)%float then national_id
  else if (1.5 <=? aspect_ratio)%float && (aspect_ratio <=? 1.8)%float then drivers_license
  else unknown.

Definition required_fields (doc_type : DocType) : list string :=
  match doc_type with
  | passport => ["passport_number"; "full_name"; "date_of_birth"]
  | national_id | drivers_license => ["id_number"; "full_name"; "date_of_birth"]
  | unknown => []
  end.

(** [field in data and data[field]]: present with a non-empty value. *)
Definition present (data : gmap string string) (field : string) : bool :=
  match data !! field with
  | Some v => negb (String.eqb v "")
  | None => false
  end.

(** [sum(1 for field in required_fields if field in data and data[field])] *)
Definition present_fields (data : gmap string string) (fields : list string) : Z :=
  fold_left (fun n field => if present data field then n + 1 else n) fields 0.

(** [present_fields / len(required_fields) if required_fields else 0] *)
Definition field_completeness (data : gmap string string) (doc_type : DocType)
  : float :=
  match required_fields doc_type with
  | [] => 0
  | fields => (of_Z (present_fields data fields) / of_Z (Z.of_nat (length fields)))%float
  end.

Section Service.
Context {cv : OpenCV} {txt : Text}.

Definition _preprocess_image (image : ndarray) : exc ndarray :=
  gray ← cv2_cvtColor_BGR2GRAY image;
  filtered ← cv2_bilateralFilter gray;
  enhanced ← cv2_convertScaleAbs filtered;
  cv2_adaptiveThreshold enhanced.

Definition _detect_document_type (image : ndarray) : exc (DocType * Region) :=
  let '(height, width) := shape image in
  aspect_ratio ← true_div width height;
  Return (classify_ratio aspect_ratio,
          {| region_width := width; region_height := height;
             aspect_ratio := aspect_ratio |}).

Definition _extract_text_with_ocr (image : ndarray) : string := sample_text.

(** One iteration of the loop of [_parse_passport_data]. *)
Definition parse_passport_line (data : gmap string string) (line : string)
  : gmap string string :=
  let line := str_upper (str_strip line) in
  if str_in "PASSPORT NO:" line || str_in "PASS NO:" line then
    match re_search PassportNumber line with
    | Some g => <["passport_number" := g]> data
    | None => data
    end
  else if str_in "SURNAME:" line then
    match re_search Surname line with
    | Some g => <["surname" := str_strip g]> data
    | None => data
    end
  else if str_in "GIVEN NAMES:" line then
    match re_search GivenNames line with
    | Some g => <["given_names" := str_strip g]> data
    | None => data
    end
  else if str_in "DATE OF BIRTH:" line || str_in "DOB:" line then
    match re_search DayMonthYear line with
    | Some g => <["date_of_birth" := g]> data
    | None => data
    end
  else if str_in "DATE OF EXPIRATION:" line || str_in "EXP:" line then
    match re_search DayMonthYear line with
    | Some g => <["expiration_date" := g]> data
    | None => data
    end
  else data.

Definition _parse_passport_data (text : string) : gmap string string :=
  let lines := str_split newline (str_strip text) in
  let data := fold_left parse_passport_line lines ∅ in
  match data !! "surname", data !! "given_names" with
  | Some surname, Some given_names =>
      <["full_name" := given_names +:+ " " +:+ surname]> data
  | _, _ => data
  end.

(** One iteration of the loop of [_parse_id_card_data]. *)
Definition parse_id_card_line (data : gmap string string) (line : string)
  : gmap string string :=
  let line := str_strip line in
  let data :=
    match re_search IdNumber line, data !! "id_number" with
    | Some g, None => <["id_number" := g]> data
    | _, _ => data
    end in
  let data :=
    match re_search Name line with
    | Some g => <["full_name" := str_strip g]> data
    | None => data
    end in
  match re_search Birth line with
  | Some g => <["date_of_birth" := str_strip g]> data
  | None => data
  end.

Definition _parse_id_card_data (text : string) : gmap string string :=
  fold_left parse_id_card_line (str_split newline (str_strip text)) ∅.

(** The parsers raise nothing on strings, so the [except] branch of the
    source (which returns [{}]) is never entered. *)
Definition _parse_document_data (text : string) (doc_type : DocType)
  : gmap string string :=
  match doc_type with
  | passport => _parse_passport_data text
  | national_id | drivers_license => _parse_id_card_data text
  | unknown => ∅
  end.

Definition format_score (data : gmap string string) : float :=
  let format_score := 0%float in
  let format_score :=
    match data !! "passport_number" with
    | Some v => if re_match_passport_number v
                then (format_score + 0.3)%float else format_score
    | None => format_score
    end in
  match data !! "id_number" with
  | Some v => if (6 <=? Z.of_nat (String.length v))%Z
              then (format_score + 0.3)%float else format_score
  | None => format_score
  end.

Definition _validate_document_data (data : gmap string string) (doc_type : DocType)
  : bool * float :=
  let confidence :=
    (field_completeness data doc_type * 0.7 + format_score data * 0.3)%float in
  let is_valid := geb confidence 0.5 in
  (is_valid, confidence).

(** The body of the [try] block of [process_document]. *)
Definition process_document_body (image_path : Path) : exc ProcessedDocument :=
  image ← match cv2_imread image_path with
          | Some image => Return image
          | None => Raise ("Could not read image: " +:+ image_path)
          end;
  processed_image ← _preprocess_image image;
  '(doc_type, doc_region) ← _detect_document_type processed_image;
  let extracted_text := _extract_text_with_ocr processed_image in
  let parsed_data := _parse_document_data extracted_text doc_type in
  let '(is_valid, confidence) := _validate_document_data parsed_data doc_type in
  Return {| document_type := doc_type;
            document_valid := is_valid;
            confidence := confidence;
            extracted_data := parsed_data;
            raw_text := Some extracted_text;
            region := Some doc_region;
            error := None |}.

Definition process_document (image_path : Path) : exc ProcessedDocument :=
  try_except (process_document_body image_path)
    (fun msg => Return {| document_type := unknown;
                          document_valid := false;
                          confidence := 0;
                          extracted_data := ∅;
                          raw_text := None;
                          region := None;
                          error := Some msg |}).

(** *** The validity formula, in the words of the specification *)

(** The identifier a document type is known by, and its format check. *)
Definition primary_identifier (doc_type : DocType) : string :=
  match doc_type with
  | passport => "passport_number"
  | _ => "id_number"
  end.

Definition identifier_format_ok (doc_type : DocType) (v : string) : bool :=
  match doc_type with
  | passport => re_match_passport_number v
  | _ => (6 <=? Z.of_nat (String.length v))%Z
  end.

(** The score awarded for the format check of the primary identifier. *)
Definition identifier_format_score (data : gmap string string) (doc_type : DocType)
  : float :=
  match data !! primary_identifier doc_type with
  | Some v => if identifier_format_ok doc_type v then 0.3 else 0
  | None => 0
  end.

(** The fraction of the required fields that are present and non-empty. *)
Definition required_fraction (data : gmap string string) (doc_type : DocType)
  : float :=
  (of_Z (Z.of_nat (length (filter (fun f => present data f = true)
                                  (required_fields doc_type))))
   / of_Z (Z.of_nat (length (required_fields doc_type))))%float.

Definition spec_confidence (data : gmap string string) (doc_type : DocType)
  : float :=
  (0.7 * required_fraction data doc_type
   + 0.3 * identifier_format_score data doc_type)%float.

End Service.

Definition recognized (doc_type : DocType) : Prop := doc_type <> unknown.

(** The closed interval test [lo <= x <= hi]. *)
Definition in_band (lo hi x : float) : bool := (lo <=? x)%float && (x <=? hi)%float.

(** An OpenCV whose images are their shape alone, whose files decode to
    the shape written in [files], and whose filters keep the shape. *)
Definition shape_cv (files : gmap Path (Z * Z)) : OpenCV :=
  {| ndarray := Z * Z;
     shape := fun image => image;
     cv2_imread := fun image_path => files !! image_path;
     cv2_cvtColor_BGR2GRAY := Return;
     cv2_bilateralFilter := Return;
     cv2_convertScaleAbs := Return;
     cv2_adaptiveThreshold := Return |}.

(** *** The text library on ASCII text

    An instance of [Text] for strings of ASCII characters, written to
    run the parsers on [sample_text].  Characters are compared by code;
    [\s] and [strip] use the white space of Python below code 256. *)

Definition code (c : Ascii.ascii) : nat := Ascii.nat_of_ascii c.

Definition is_space (c : Ascii.ascii) : bool :=
  ((9 <=? code c) && (code c <=? 13) || (28 <=? code c) && (code c <=? 32)
   || (code c =? 133) || (code c =? 160))%nat.

Definition is_digit (c : Ascii.ascii) : bool := ((48 <=? code c) && (code c <=? 57))%nat.
Definition is_upper (c : Ascii.ascii) : bool := ((65 <=? code c) && (code c <=? 90))%nat.
Definition is_lower (c : Ascii.ascii) : bool := ((97 <=? code c) && (code c <=? 122))%nat.
Definition is_line_break (c : Ascii.ascii) : bool := ((code c =? 10) || (code c =? 13))%nat.

Definition upper_char (c : Ascii.ascii) : Ascii.ascii :=
  if is_lower c then Ascii.ascii_of_nat (code c - 32) else c.

Fixpoint ascii_upper (s : string) : string :=
  match s with
  | EmptyString => EmptyString
  | String c s' => String (upper_char c) (ascii_upper s')
  end.

Fixpoint lstrip (s : string) : string :=
  match s with
  | EmptyString => EmptyString
  | String c s' => if is_space c then lstrip s' else s
  end.

Fixpoint rstrip (s : string) : string :=
  match s with
  | EmptyString => EmptyString
  | String c s' =>
      match rstrip s' with
      | EmptyString => if is_space c then EmptyString else String c EmptyString
      | rest => String c rest
      end
  end.

Definition ascii_strip (s : string) : string := rstrip (lstrip s).

(** The longest prefix made of characters of a class. *)
Fixpoint take_while (cls : Ascii.ascii -> bool) (s : string) : string :=
  match s with
  | EmptyString => EmptyString
  | String c s' => if cls c then String c (take_while cls s') else EmptyString
  end.

Fixpoint drop_while (cls : Ascii.ascii -> bool) (s : string) : string :=
  match s with
  | EmptyString => EmptyString
  | String c s' => if cls c then drop_while cls s' else s
  end.

(** A literal at the start of [s], letters compared without case; the
    result is what follows it. *)
Fixpoint skip_literal (lit s : string) : option string :=
  match lit, s with
  | EmptyString, _ => Some s
  | String a lit', String c s' =>
      if Ascii.eqb (upper_char a) (upper_char c) then skip_literal lit' s' else None
  | String _ _, EmptyString => None
  end.

(** [R*(G+)] at the start of [s] for two character classes: the run is
    greedy and gives characters back when the group would be empty. *)
Fixpoint run_group (run grp : Ascii.ascii -> bool) (s : string) : option string :=
  match s with
  | EmptyString => None
  | String c s' =>
      if run c then
        match run_group run grp s' with
        | Some g => Some g
        | None => if grp c then Some (take_while grp s) else None
        end
      else if grp c then Some (take_while grp s) else None
  end.

(** The leftmost position at which [at_start] succeeds. *)
Fixpoint leftmost (at_start : string -> option string) (s : string) : option string :=
  match at_start s with
  | Some g => Some g
  | None =>
      match s with
      | EmptyString => None
      | String _ s' => leftmost at_start s'
      end
  end.

Definition all_digits (s : string) : bool :=
  String.eqb (take_while is_digit s) s.

(** [[A-Z]\d{8}] at the start of [s]. *)
Definition passport_number_at (s : string) : option string :=
  match s with
  | String c s' =>
      let digits := String.substring 0 8 s' in
      if is_upper c && (String.length digits =? 8)%nat && all_digits digits
      then Some (String c digits) else None
  | EmptyString => None
  end.

(** [\s+] at the start of [s]: what follows the white space. *)
Definition spaces_then (s : string) : option string :=
  match s with
  | String c _ => if is_space c then Some (drop_while is_space s) else None
  | EmptyString => None
  end.

(** [\d{1,2}\s+[A-Z]{3}\s+\d{4}] at the start of [s]. *)
Definition day_month_year_at (s : string) : option string :=
  let day := String.substring 0 2 (take_while is_digit s) in
  if (String.length day =? 0)%nat then None
  else
    let after_day := String.substring (String.length day)
                                      (String.length s - String.length day) s in
    match spaces_then after_day with
    | None => None
    | Some from_month =>
        let month := String.substring 0 3 from_month in
        if (String.length month =? 3)%nat && String.eqb (take_while is_upper month) month
        then
          let after_month := String.substring 3 (String.length from_month - 3) from_month in
          match spaces_then after_month with
          | None => None
          | Some from_year =>
              let year := String.substring 0 4 from_year in
              if (String.length year =? 4)%nat && all_digits year
              then Some (String.substring 0
                           (String.length s - String.length from_year + 4) s)
              else None
          end
        else None
    end.

Definition not_line_break (c : Ascii.ascii) : bool := negb (is_line_break c).
Definition space_or_colon (c : Ascii.ascii) : bool := is_space c || (code c =? 58)%nat.
Definition id_char (c : Ascii.ascii) : bool :=
  is_upper c || is_lower c || is_digit c || (code c =? 45)%nat.

Definition labelled (label : string) (run grp : Ascii.ascii -> bool) (s : string)
  : option string :=
  match skip_literal label s with
  | Some rest => run_group run grp rest
  | None => None
  end.

Definition ascii_re_search (p : Pattern) (s : string) : option string :=
  match p with
  | PassportNumber => leftmost passport_number_at s
  | Surname => leftmost (labelled "SURNAME:" is_space not_line_break) s
  | GivenNames => leftmost (labelled "GIVEN NAMES:" is_space not_line_break) s
  | DayMonthYear => leftmost day_month_year_at s
  | IdNumber => leftmost (labelled "ID" space_or_colon id_char) s
  | Name => leftmost (labelled "NAME" space_or_colon not_line_break) s
  | Birth =>
      leftmost (fun s =>
                  match labelled "DOB" space_or_colon not_line_break s with
                  | Some g => Some g
                  | None => labelled "BIRTH" space_or_colon not_line_break s
                  end) s
  end.

(** [re.match(r'^[A-Z]\d{8}$', s)]: [$] also matches before a final
    line feed. *)
Definition ascii_re_match_passport_number (s : string) : bool :=
  match passport_number_at s with
  | Some g =>
      let rest := String.substring 9 (String.length s - 9) s in
      String.eqb rest "" || String.eqb rest (String newline EmptyString)
  | None => false
  end.

Definition ascii_text : Text :=
  {| str_strip := ascii_strip;
     str_upper := ascii_upper;
     re_search := ascii_re_search;
     re_match_passport_number := ascii_re_match_passport_number |}.

End DocumentService.

(** ** [app/services/face_service.py] *)

Module FaceService.
Import PyFloat Exc.

(** The dictionary returned by [extract_face_from_document] and
    [extract_face_from_selfie]; [embedding] is [None] when no face was
    found.  (The keys [bbox] and [frame_count] are never read.) *)
Record FaceExtraction := {
  face_detected : bool;
  confidence : float;
  embedding : option (list float);
  error : option string
}.

(** The order in which NumPy accumulates a sum of binary64 numbers is
    an implementation choice (BLAS kernel for [np.dot], pairwise blocks
    for [np.add.reduce]); both reductions are parameters. *)
Class NumPy := {
  dot_accumulate : list float -> float;
  add_reduce : list float -> float
}.

(** Plain left-to-right accumulation. *)
Definition sequential_numpy : NumPy :=
  {| dot_accumulate := fun l => fold_left PrimFloat.add l 0%float;
     add_reduce := fun l => fold_left PrimFloat.add l 0%float |}.

Section Service.
Context {np : NumPy}.

(** [np.dot(a, b)] on two vectors of equal length. *)
Definition np_dot (a b : list float) : float :=
  dot_accumulate (zip_with PrimFloat.mul a b).

(** [np.linalg.norm(a)] on a real vector: [sqrt(a.dot(a))]. *)
Definition np_linalg_norm (a : list float) : float := PrimFloat.sqrt (np_dot a a).

(** [a / n] on an array and a scalar; a zero [n] gives NaN or an
    infinity in every component (a warning, not an exception). *)
Definition np_divide (a : list float) (n : float) : list float :=
  map (fun x => (x / n)%float) a.

(** [np.mean(l)]; NaN on the empty list. *)
Definition np_mean (l : list float) : float :=
  (add_reduce l / of_Z (Z.of_nat (length l)))%float.

(** [not embedding]: [None] and the empty list are falsy. *)
Definition py_not (embedding : option (list float)) : bool :=
  match embedding with
  | None | Some [] => true
  | Some (_ :: _) => false
  end.

Definition len (embedding : option (list float)) : nat :=
  length (default [] embedding).

(** The arithmetic on lists of floats below raises nothing, so the
    [except] branch of the source (which returns [0.0]) is never
    entered. *)
Definition compare_faces (embedding1 embedding2 : option (list float)) : float :=
  if py_not embedding1 || py_not embedding2
     || negb (Nat.eqb (len embedding1) (len embedding2))
  then 0%float
  else
    let emb1 := default [] embedding1 in
    let emb2 := default [] embedding2 in
    let emb1_norm := np_divide emb1 (np_linalg_norm emb1) in
    let emb2_norm := np_divide emb2 (np_linalg_norm emb2) in
    let similarity := np_dot emb1_norm emb2_norm in
    py_max 0 (py_min 1 similarity).

End Service.

End FaceService.

(** ** [app/services/liveness_service.py] *)

Module LivenessService.
Import PyFloat Exc FaceService.

Definition Path := string.

(** The dictionary returned by the detectors.  The normal path sets
    [indicators], the short-video path sets [reason], the handlers set
    [error]. *)
Record LivenessDetection := {
  liveness_detected : bool;
  liveness_score : float;
  confidence : float;
  method : string;
  indicators : option (gmap string float);
  reason : option string;
  error : option string
}.

(** OpenCV on videos.  [cv2_VideoCapture path] is [None] when the
    capture does not open, and otherwise the frames that successive
    [cap.read()] calls deliver before [ret] turns false.
    [mean_flow_magnitude a b] stands for
    [np.mean(cv2.cartToPolar(flow[..., 0], flow[..., 1])[0])] with
    [flow = cv2.calcOpticalFlowFarneback(a, b, ...)], and
    [laplacian_var g] for [cv2.Laplacian(g, cv2.CV_64F).var()]; both
    values are taken as binary64 numbers. *)
Class VideoCV := {
  frame : Type;
  gray : Type;
  cv2_VideoCapture : Path -> option (list frame);
  cv2_cvtColor_BGR2GRAY : frame -> exc gray;
  mean_flow_magnitude : gray -> gray -> exc float;
  laplacian_var : gray -> exc float
}.

Section Service.
Context {np : NumPy} {cv : VideoCV}.

(** The reading loop shared by the two detectors:
    [while frame_count < max_frames: ret, frame = cap.read(); if not ret:
    break; if frame_count % step == 0: frames.append(frame);
    frame_count += 1]. *)
Fixpoint read_frames (max_frames step : nat) (cap : list frame)
         (frame_count : nat) (frames : list frame) : list frame :=
  match cap with
  | [] => frames
  | frame :: cap' =>
      if (frame_count <? max_frames)%nat then
        read_frames max_frames step cap' (S frame_count)
          (if (frame_count mod step =? 0)%nat then frames ++ [frame] else frames)
      else frames
  end.

(** [(gray_frames[i], gray_frames[i+1]) for i in range(len(gray_frames) - 1)] *)
Definition consecutive {A} (l : list A) : list (A * A) := zip l (tail l).

Definition motion_band (avg_motion : float) : float :=
  if (0.1 <=? avg_motion)%float && (avg_motion <=? 0.8)%float then avg_motion
  else if (avg_motion <? 0.1)%float then (avg_motion * 2)%float
  else 0.5%float.

Definition _analyze_motion (frames : list frame) : float :=
  if (length frames <? 2)%nat then 0%float
  else
    match
      gray_frames ← for_each cv2_cvtColor_BGR2GRAY frames;
      motion_scores ← for_each (fun '(a, b) =>
                                  motion_score ← mean_flow_magnitude a b;
                                  Return (py_min (motion_score / 10) 1))
                               (consecutive gray_frames);
      Return (motion_band (np_mean motion_scores))
    with
    | Return score => score
    | Raise _ => 0.5%float
    end.

Definition _analyze_texture (frames : list frame) : float :=
  if (length frames <? 3)%nat then 0%float
  else
    match
      texture_scores ← for_each (fun frame =>
                                   gray ← cv2_cvtColor_BGR2GRAY frame;
                                   laplacian_var ← laplacian_var gray;
                                   Return (py_min (laplacian_var / 500) 1))
                                frames;
      Return (py_max (np_mean texture_scores) 0.3)
    with
    | Return score => score
    | Raise _ => 0.5%float
    end.

Definition blur_band (avg_blur : float) : float :=
  if (0.3 <=? avg_blur)%float && (avg_blur <=? 0.9)%float then avg_blur
  else if (avg_blur <? 0.3)%float then (avg_blur * 1.5)%float
  else 0.8%float.

Definition _analyze_blur (frames : list frame) : float :=
  if (length frames <? 1)%nat then 0%float
  else
    match
      blur_scores ← for_each (fun frame =>
                                gray ← cv2_cvtColor_BGR2GRAY frame;
                                blur_score ← laplacian_var gray;
                                Return (py_min (blur_score / 100) 1))
                             frames;
      Return (blur_band (np_mean blur_scores))
    with
    | Return score => score
    | Raise _ => 0.5%float
    end.

(** The frames kept by the passive detector: every other frame of the
    first fifty. *)
Definition passive_frames (cap : list frame) : list frame :=
  read_frames 50 2 cap 0 [].

Definition _passive_liveness_detection (video_path : Path) : exc LivenessDetection :=
  try_except
    (cap ← match cv2_VideoCapture video_path with
           | Some cap => Return cap
           | None => Raise ("Could not open video: " +:+ video_path)
           end;
     let frames := passive_frames cap in
     if (length frames <? 3)%nat then
       Return {| liveness_detected := false;
                 liveness_score := 0;
                 confidence := 0;
                 method := "passive";
                 indicators := None;
                 reason := Some "Insufficient frames";
                 error := None |}
     else
       let motion_score := _analyze_motion frames in
       let texture_score := _analyze_texture frames in
       let blur_score := _analyze_blur frames in
       let liveness_score :=
         (motion_score * 0.4 + texture_score * 0.4 + blur_score * 0.2)%float in
       let is_live := geb liveness_score 0.6 in
       let confidence :=
         if is_live then py_min (liveness_score * 1.2) 1
         else (liveness_score * 0.8)%float in
       Return {| liveness_detected := is_live;
                 liveness_score := liveness_score;
                 confidence := confidence;
                 method := "passive";
                 indicators := Some (<["motion" := motion_score]>
                                     (<["texture" := texture_score]>
                                      {["blur" := blur_score]}));
                 reason := None;
                 error := None |})
    (fun msg =>
       Return {| liveness_detected := false;
                 liveness_score := 0;
                 confidence := 0;
                 method := "passive";
                 indicators := None;
                 reason := None;
                 error := Some msg |}).

End Service.

(** A video library whose frames are numbers: the number is the
    Laplacian variance of the frame, and the flow between two frames is
    the distance of their numbers. *)
Definition numeric_cv (videos : gmap Path (list float)) : VideoCV :=
  {| frame := float;
     gray := float;
     cv2_VideoCapture := fun video_path => videos !! video_path;
     cv2_cvtColor_BGR2GRAY := Return;
     mean_flow_magnitude := fun a b => Return (PrimFloat.abs (b - a))%float;
     laplacian_var := Return |}.

End LivenessService.

(** ** [app/services/verification_service.py] *)

Module VerificationService.
Import PyFloat Exc.

Definition Path := string.

(** [settings.FACE_MODEL_THRESHOLD] and
    [settings.LIVENESS_CONFIDENCE_THRESHOLD] of [app/core/config.py]; both
    can be overridden from the environment. *)
Record Settings := {
  FACE_MODEL_THRESHOLD : float;
  LIVENESS_CONFIDENCE_THRESHOLD : float
}.

Definition default_settings : Settings :=
  {| FACE_MODEL_THRESHOLD := 0.6; LIVENESS_CONFIDENCE_THRESHOLD := 0.9 |}.

Inductive Status := completed | failed.
Inductive Decision := verified | rejected | manual_review.

#[export] Instance Status_eq_dec : EqDecision Status.
Proof. solve_decision. Defined.
#[export] Instance Decision_eq_dec : EqDecision Decision.
Proof. solve_decision. Defined.

(** The dictionary built by [_process_document]. *)
Module Doc.
Record t := {
  document_valid : bool;
  document_type : DocumentService.DocType;
  extracted_data : gmap string string;
  confidence : float;
  error : option string
}.
End Doc.

(** The dictionary built by [_process_face_verification]. *)
Module Face.
Record t := {
  face_detected : bool;
  face_match_score : float;
  confidence : float;
  document_face_confidence : option float;
  selfie_face_confidence : option float;
  error : option string
}.
End Face.

(** The dictionary built by [_process_liveness_detection]. *)
Module Live.
Record t := {
  liveness_detected : bool;
  liveness_score : float;
  method : string;
  confidence : float;
  indicators : option (gmap string float);
  error : option string
}.
End Live.

(** The dictionary returned by [process_verification]: the keys of the
    [completed] dictionary of [_aggregate_results] and those of the
    [failed] dictionary of the handler; an absent key is [None]. *)
Module Final.
Record t := {
  status : Status;
  decision : Decision;
  decision_reason : option string;
  document_valid : option bool;
  face_match_score : option float;
  liveness_score : option float;
  processing_time : option float;
  error : option string
}.
End Final.

(** An uploaded file ([fastapi.UploadFile]). *)
Record UploadFile := { filename : string; handle : nat }.

(** Computations of the orchestrator: state passing with exceptions.
    A call runs in a world that it may change, and may raise. *)
Definition St (W A : Type) : Type := W -> W * exc A.

#[export] Instance St_ret {W} : MRet (St W) := fun A a w => (w, Return a).
#[export] Instance St_bind {W} : MBind (St W) := fun A B f m w =>
  match m w with
  | (w', Return a) => f a w'
  | (w', Raise msg) => (w', Raise msg)
  end.

Definition raise {W A} (msg : string) : St W A := fun w => (w, Raise msg).

(** [try: body  except Exception as e: handler(str(e))]; the effects of
    the interrupted body stay. *)
Definition try_catch {W A} (body : St W A) (handler : string -> St W A) : St W A :=
  fun w =>
    match body w with
    | (w', Return a) => (w', Return a)
    | (w', Raise msg) => handler msg w'
    end.

(** [try: body  finally: cleanup] *)
Definition try_finally {W A} (body : St W A) (cleanup : St W unit) : St W A :=
  fun w =>
    match body w with
    | (w', Return a) => (_ ← cleanup; mret a) w'
    | (w', Raise msg) => (_ ← cleanup; raise msg) w'
    end.

(** What the orchestrator calls into: the file system, the upload
    streams and the three services. *)
Class Env := {
  World : Type;
  bytes : Type;
  file : Type;
  mkdir : Path -> St World unit;
  open_wb : Path -> St World file;
  file_write : file -> bytes -> St World unit;
  file_close : file -> St World unit;
  upload_read : UploadFile -> St World bytes;
  document_service_process_document :
    Path -> St World DocumentService.ProcessedDocument;
  face_service_extract_face_from_document :
    Path -> St World FaceService.FaceExtraction;
  face_service_extract_face_from_selfie :
    Path -> St World FaceService.FaceExtraction;
  face_service_compare_faces :
    option (list float) -> option (list float) -> St World float;
  liveness_service_detect_liveness :
    Path -> string -> St World LivenessService.LivenessDetection
}.

Abbreviation M := (St World).

(** A computation that returns in every world. *)
Definition total `{Env} {A} (m : M A) : Prop :=
  forall w, exists w' a, m w = (w', Return a).

(** [with open(path, "wb") as f: body(f)]: the file is closed on every
    way out of the block. *)
Definition with_open_wb `{Env} {A} (path : Path) (body : file -> M A) : M A :=
  f ← open_wb path; try_finally (body f) (file_close f).

(** [a / b] on paths. *)
Definition path_join (a b : Path) : Path := a +:+ "/" +:+ b.

Definition upload_dir : Path := "uploads/verifications".

Section Service.
Context {env : Env}.

Definition _save_uploaded_files (session_id : string)
           (id_document selfie_video : UploadFile) : M (Path * Path) :=
  let session_dir := path_join upload_dir session_id in
  _ ← mkdir session_dir;
  let id_path := path_join session_dir ("id_" +:+ filename id_document) in
  _ ← with_open_wb id_path (fun f =>
        content ← upload_read id_document; file_write f content);
  let selfie_path := path_join session_dir ("selfie_" +:+ filename selfie_video) in
  _ ← with_open_wb selfie_path (fun f =>
        content ← upload_read selfie_video; file_write f content);
  mret (id_path, selfie_path).

Definition _process_document (id_path : Path) : M Doc.t :=
  try_catch
    (result ← document_service_process_document id_path;
     mret {| Doc.document_valid := DocumentService.document_valid result;
             Doc.document_type := DocumentService.document_type result;
             Doc.extracted_data := DocumentService.extracted_data result;
             Doc.confidence := DocumentService.confidence result;
             Doc.error := DocumentService.error result |})
    (fun msg =>
     mret {| Doc.document_valid := false;
             Doc.document_type := DocumentService.unknown;
             Doc.extracted_data := ∅;
             Doc.confidence := 0;
             Doc.error := Some msg |}).

Definition _process_face_verification (id_path selfie_path : Path) : M Face.t :=
  try_catch
    (doc_face_result ← face_service_extract_face_from_document id_path;
     if negb (FaceService.face_detected doc_face_result) then
       mret {| Face.face_detected := false;
               Face.face_match_score := 0;
               Face.confidence := 0;
               Face.document_face_confidence := None;
               Face.selfie_face_confidence := None;
               Face.error := Some "No face detected in ID document" |}
     else
       selfie_face_result ← face_service_extract_face_from_selfie selfie_path;
       if negb (FaceService.face_detected selfie_face_result) then
         mret {| Face.face_detected := true;
                 Face.face_match_score := 0;
                 Face.confidence := FaceService.confidence doc_face_result;
                 Face.document_face_confidence := None;
                 Face.selfie_face_confidence := None;
                 Face.error := Some "No face detected in selfie" |}
       else
         similarity_score ← face_service_compare_faces
                              (FaceService.embedding doc_face_result)
                              (FaceService.embedding selfie_face_result);
         let overall_confidence :=
           (FaceService.confidence doc_face_result * 0.4
            + FaceService.confidence selfie_face_result * 0.4
            + similarity_score * 0.2)%float in
         mret {| Face.face_detected := true;
                 Face.face_match_score := similarity_score;
                 Face.confidence := overall_confidence;
                 Face.document_face_confidence :=
                   Some (FaceService.confidence doc_face_result);
                 Face.selfie_face_confidence :=
                   Some (FaceService.confidence selfie_face_result);
                 Face.error := None |})
    (fun msg =>
     mret {| Face.face_detected := false;
             Face.face_match_score := 0;
             Face.confidence := 0;
             Face.document_face_confidence := None;
             Face.selfie_face_confidence := None;
             Face.error := Some msg |}).

Definition _process_liveness_detection (selfie_path : Path) : M Live.t :=
  try_catch
    (result ← liveness_service_detect_liveness selfie_path "passive";
     mret {| Live.liveness_detected := LivenessService.liveness_detected result;
             Live.liveness_score := LivenessService.liveness_score result;
             Live.method := LivenessService.method result;
             Live.confidence := LivenessService.confidence result;
             Live.indicators :=
               Some (default ∅ (LivenessService.indicators result));
             Live.error := LivenessService.error result |})
    (fun msg =>
     mret {| Live.liveness_detected := false;
             Live.liveness_score := 0;
             Live.method := "unknown";
             Live.confidence := 0;
             Live.indicators := None;
             Live.error := Some msg |}).

(** The part of [_aggregate_results] under the comment [# Decision
    logic]: the two thresholds and the [if]/[elif] chain. *)
Definition decision_logic (settings : Settings)
           (doc_valid : bool) (doc_confidence : float)
           (face_detected : bool) (face_score : float)
           (liveness_passed : bool) (liveness_score : float)
  : Decision * string :=
  let face_threshold := FACE_MODEL_THRESHOLD settings in
  let liveness_threshold := LIVENESS_CONFIDENCE_THRESHOLD settings in
  if negb doc_valid then (rejected, "Invalid document")
  else if negb face_detected then (rejected, "No face detected")
  else if negb liveness_passed then (rejected, "Liveness detection failed")
  else if (face_score <? face_threshold)%float then (rejected, "Face match insufficient")
  else if geb face_score 0.8 && geb liveness_score liveness_threshold
          && geb doc_confidence 0.7
       then (verified, "All checks passed")
  else (manual_review, "Requires manual review").

(** Reading the three dictionaries and comparing floats raises nothing,
    so the [except] branch of the source is never entered. *)
Definition _aggregate_results (settings : Settings) (document_result : Doc.t)
           (face_result : Face.t) (liveness_result : Live.t) : Final.t :=
  let doc_valid := Doc.document_valid document_result in
  let doc_confidence := Doc.confidence document_result in
  let face_detected := Face.face_detected face_result in
  let face_score := Face.face_match_score face_result in
  let liveness_passed := Live.liveness_detected liveness_result in
  let liveness_score := Live.liveness_score liveness_result in
  let '(decision, reason) :=
    decision_logic settings doc_valid doc_confidence face_detected face_score
           liveness_passed liveness_score in
  {| Final.status := completed;
     Final.document_valid := Some doc_valid;
     Final.face_match_score := Some face_score;
     Final.liveness_score := Some liveness_score;
     Final.decision := decision;
     Final.decision_reason := Some reason;
     Final.processing_time := Some 2.5%float;
     Final.error := None |}.

(** The body of the [try] block of [process_verification]. *)
Definition process_verification_body (settings : Settings) (session_id : string)
           (id_document selfie_video : UploadFile) : M Final.t :=
  '(id_path, selfie_path) ← _save_uploaded_files session_id id_document selfie_video;
  document_result ← _process_document id_path;
  face_result ← _process_face_verification id_path selfie_path;
  liveness_result ← _process_liveness_detection selfie_path;
  mret (_aggregate_results settings document_result face_result liveness_result).

Definition process_verification (settings : Settings) (session_id : string)
           (id_document selfie_video : UploadFile) : M Final.t :=
  try_catch
    (process_verification_body settings session_id id_document selfie_video)
    (fun msg =>
     mret {| Final.status := failed;
             Final.error := Some msg;
             Final.decision := rejected;
             Final.decision_reason := None;
             Final.document_valid := None;
             Final.face_match_score := None;
             Final.liveness_score := None;
             Final.processing_time := None |}).

End Service.

(** *** The decision table, in the words of the specification *)

Inductive Branch := B1 | B2 | B3 | B4 | B5 | B6.

#[export] Instance Branch_eq_dec : EqDecision Branch.
Proof. solve_decision. Defined.

Definition rank (b : Branch) : nat :=
  match b with B1 => 1 | B2 => 2 | B3 => 3 | B4 => 4 | B5 => 5 | B6 => 6 end.

Definition outcome (b : Branch) : Decision * string :=
  match b with
  | B1 => (rejected, "Invalid document")
  | B2 => (rejected, "No face detected")
  | B3 => (rejected, "Liveness detection failed")
  | B4 => (rejected, "Face match insufficient")
  | B5 => (verified, "All checks passed")
  | B6 => (manual_review, "Requires manual review")
  end.

(** The condition of each branch, taken on its own. *)
Definition guard (settings : Settings) (d : Doc.t) (f : Face.t) (l : Live.t)
           (b : Branch) : bool :=
  match b with
  | B1 => negb (Doc.document_valid d)
  | B2 => negb (Face.face_detected f)
  | B3 => negb (Live.liveness_detected l)
  | B4 => (Face.face_match_score f <? FACE_MODEL_THRESHOLD settings)%float
  | B5 => (0.8 <=? Face.face_match_score f)%float
          && (LIVENESS_CONFIDENCE_THRESHOLD settings <=? Live.liveness_score l)%float
          && (0.7 <=? Doc.confidence d)%float
  | B6 => true
  end.

(** A branch is taken when its condition holds and no earlier one does. *)
Definition taken (settings : Settings) (d : Doc.t) (f : Face.t) (l : Live.t)
           (b : Branch) : Prop :=
  guard settings d f l b = true /\
  forall b', (rank b' < rank b)%nat -> guard settings d f l b' = false.

(** An environment without effects, in which every call returns what
    the table [answers] says. *)
Record Answers := {
  document_answer : exc DocumentService.ProcessedDocument;
  document_face_answer : exc FaceService.FaceExtraction;
  selfie_face_answer : exc FaceService.FaceExtraction;
  compare_answer : exc float;
  liveness_answer : exc LivenessService.LivenessDetection;
  open_answer : Path -> exc unit
}.

Definition scripted_env (answers : Answers) : Env :=
  {| World := list string;
     bytes := unit;
     file := Path;
     mkdir := fun p w => (w ++ ["mkdir " +:+ p], Return ());
     open_wb := fun p w =>
       (w ++ ["open " +:+ p],
        match open_answer answers p with
        | Return _ => Return p
        | Raise msg => Raise msg
        end);
     file_write := fun f _ w => (w ++ ["write " +:+ f], Return ());
     file_close := fun f w => (w ++ ["close " +:+ f], Return ());
     upload_read := fun u w => (w ++ ["read " +:+ filename u], Return ());
     document_service_process_document := fun _ w => (w, document_answer answers);
     face_service_extract_face_from_document := fun _ w =>
       (w, document_face_answer answers);
     face_service_extract_face_from_selfie := fun _ w =>
       (w, selfie_face_answer answers);
     face_service_compare_faces := fun _ _ w => (w, compare_answer answers);
     liveness_service_detect_liveness := fun _ _ w => (w, liveness_answer answers) |}.

(** Signals of a run in which the document is valid, a face was found
    and the liveness check passed. *)
Definition signals (doc_confidence face_score liveness_score : float)
  : Doc.t * Face.t * Live.t :=
  ({| Doc.document_valid := true;
      Doc.document_type := DocumentService.passport;
      Doc.extracted_data := ∅;
      Doc.confidence := doc_confidence;
      Doc.error := None |},
   {| Face.face_detected := true;
      Face.face_match_score := face_score;
      Face.confidence := 0.9;
      Face.document_face_confidence := Some 0.9%float;
      Face.selfie_face_confidence := Some 0.9%float;
      Face.error := None |},
   {| Live.liveness_detected := true;
      Live.liveness_score := liveness_score;
      Live.method := "passive";
      Live.confidence := 1;
      Live.indicators := Some ∅;
      Live.error := None |}).

(** Scripts: every service answers; the disk is full; the selfie shows
    no face. *)
Definition healthy : Answers :=
  {| document_answer :=
       Return {| DocumentService.document_type := DocumentService.passport;
                 DocumentService.document_valid := true;
                 DocumentService.confidence := 0.79;
                 DocumentService.extracted_data := ∅;
                 DocumentService.raw_text := Some DocumentService.sample_text;
                 DocumentService.region := None;
                 DocumentService.error := None |};
     document_face_answer :=
       Return {| FaceService.face_detected := true;
                 FaceService.confidence := 0.97;
                 FaceService.embedding := Some [0.6; 0.8]%float;
                 FaceService.error := None |};
     selfie_face_answer :=
       Return {| FaceService.face_detected := true;
                 FaceService.confidence := 0.95;
                 FaceService.embedding := Some [0.8; 0.6]%float;
                 FaceService.error := None |};
     compare_answer := Return 0.96%float;
     liveness_answer :=
       Return {| LivenessService.liveness_detected := true;
                 LivenessService.liveness_score := 0.93;
                 LivenessService.confidence := 1;
                 LivenessService.method := "passive";
                 LivenessService.indicators := None;
                 LivenessService.reason := None;
                 LivenessService.error := None |};
     open_answer := fun _ => Return () |}.

Definition full_disk : Answers :=
  {| document_answer := document_answer healthy;
     document_face_answer := document_face_answer healthy;
     selfie_face_answer := selfie_face_answer healthy;
     compare_answer := compare_answer healthy;
     liveness_answer := liveness_answer healthy;
     open_answer := fun _ => Raise "No space left on device" |}.

Definition faceless_selfie : Answers :=
  {| document_answer := document_answer healthy;
     document_face_answer := document_face_answer healthy;
     selfie_face_answer :=
       Return {| FaceService.face_detected := false;
                 FaceService.confidence := 0;
                 FaceService.embedding := None;
                 FaceService.error := Some "No faces detected in video" |};
     compare_answer := compare_answer healthy;
     liveness_answer := liveness_answer healthy;
     open_answer := open_answer healthy |}.

End VerificationService.

(** ** Frame sampling and [np.argmax] *)

Module Sampling.
Import PyFloat Exc.

(** The elements of [l] whose index, counted from [i], is a multiple of
    [step]. *)
Fixpoint every_nth_from {A} (step i : nat) (l : list A) : list A :=
  match l with
  | [] => []
  | x :: l' =>
      if (i mod step =? 0)%nat then x :: every_nth_from step (S i) l'
      else every_nth_from step (S i) l'
  end.

(** Every [step]-th frame of the first [max_frames] frames. *)
Definition sampled {A} (max_frames step : nat) (cap : list A) : list A :=
  every_nth_from step 0 (take max_frames cap).

(** [x == x] holds for every float but NaN. *)
Definition not_nan (x : float) : Prop := (x =? x)%float = true.

(** The scan of [np.argmax] on floating-point data: a later element
    replaces the running maximum unless it is [<=] to it, and the first
    NaN ends the scan. *)
Fixpoint argmax_from (l : list float) (i : nat) (mp : float) (max_ind : nat) : nat :=
  match l with
  | [] => max_ind
  | x :: l' =>
      if negb (x <=? mp)%float then
        if PrimFloat.is_nan x then i else argmax_from l' (S i) x i
      else argmax_from l' (S i) mp max_ind
  end.

Definition np_argmax (l : list float) : exc nat :=
  match l with
  | [] => Raise "attempt to get argmax of an empty sequence"
  | x :: l' => Return (if PrimFloat.is_nan x then 0%nat else argmax_from l' 1 x 0)
  end.

End Sampling.

(** ** [app/services/face_service.py]: detection and embedding *)

Module FaceExtraction.
Import PyFloat Exc FaceService Sampling.

Definition Path := string.

(** A row [x, y, w, h] of the array returned by [detectMultiScale]. *)
Record Box := { box_x : Z; box_y : Z; box_w : Z; box_h : Z }.

(** A box and its probability, as returned together by [mtcnn.detect]. *)
Definition Detection : Type := list float * float.

(** OpenCV, the FaceNet models and the Haar cascade.  [mtcnn_detect] is
    [None] when [boxes] is [None]; [mtcnn_extract_at m img boxes i]
    stands for [m.extract(img, boxes, save_path=None)[i]];
    [resnet_embed] for [resnet(torch.unsqueeze(face, 0)...).flatten()
    .tolist()]; [roi_embedding img box] for the normalised mean colour of
    the region [img[y:y+h, x:x+w]], computed in single precision. *)
Class FaceCV := {
  image : Type;
  tensor : Type;
  MTCNN : Type;
  InceptionResnetV1 : Type;
  CascadeClassifier : Type;
  cv2_imread : Path -> option image;
  cv2_VideoCapture : Path -> option (list image);
  cv2_cvtColor_BGR2RGB : image -> exc image;
  cv2_cvtColor_RGB2GRAY : image -> exc image;
  new_MTCNN : exc MTCNN;
  new_InceptionResnetV1 : exc InceptionResnetV1;
  new_CascadeClassifier : CascadeClassifier;
  mtcnn_detect : MTCNN -> image -> exc (option (list Detection));
  mtcnn_extract_at : MTCNN -> image -> list Detection -> nat -> exc (option tensor);
  resnet_embed : InceptionResnetV1 -> tensor -> exc (list float);
  detectMultiScale : CascadeClassifier -> image -> exc (list Box);
  roi_embedding : image -> Box -> exc (list float)
}.

(** Arithmetic on [np.int32] wraps around. *)
Definition wrap_int32 (z : Z) : Z := (z + 2 ^ 31) mod 2 ^ 32 - 2 ^ 31.

(** [lambda x: x[2] * x[3]] on a row of [np.int32]. *)
Definition area (b : Box) : Z := wrap_int32 (box_w b * box_h b).

(** [max(best :: l, key=key)]: a later item replaces the best one only
    when its key is strictly greater. *)
Fixpoint max_by {A} (key : A -> Z) (best : A) (l : list A) : A :=
  match l with
  | [] => best
  | x :: l' => if (key best <? key x)%Z then max_by key x l' else max_by key best l'
  end.

Definition no_face (error : option string) : FaceExtraction :=
  {| face_detected := false; confidence := 0; embedding := None; error := error |}.

Section Service.
Context {cv : FaceCV}.

(** The attributes of a [FaceService] object; [face_cascade] is only
    created by [__init__] when FaceNet could not be imported. *)
Record FaceServiceObject := {
  mtcnn : option MTCNN;
  resnet : option InceptionResnetV1;
  face_cascade : option CascadeClassifier
}.

(** [_load_models]: the two constructors run in a [try] block; a
    failure is logged and leaves the remaining attributes at [None].
    (The assignment [FACENET_AVAILABLE = False] of the handler binds a
    local name and does not change the module flag.) *)
Definition _load_models (self : FaceServiceObject) : FaceServiceObject :=
  match new_MTCNN with
  | Raise _ => self
  | Return m =>
      let self := {| mtcnn := Some m; resnet := resnet self;
                     face_cascade := face_cascade self |} in
      match new_InceptionResnetV1 with
      | Raise _ => self
      | Return r => {| mtcnn := mtcnn self; resnet := Some r;
                       face_cascade := face_cascade self |}
      end
  end.

(** [__init__], given the module flag [FACENET_AVAILABLE]. *)
Definition init (FACENET_AVAILABLE : bool) : FaceServiceObject :=
  let self := {| mtcnn := None; resnet := None; face_cascade := None |} in
  if FACENET_AVAILABLE then _load_models self
  else {| mtcnn := mtcnn self; resnet := resnet self;
          face_cascade := Some new_CascadeClassifier |}.

(** Reading an attribute that was never assigned. *)
Definition attribute {A} (name : string) (value : option A) : exc A :=
  match value with
  | Some a => Return a
  | None => Raise ("'FaceService' object has no attribute '" +:+ name +:+ "'")
  end.

(** Calling a method on an attribute that holds [None]. *)
Definition method_of {A} (name : string) (value : option A) : exc A :=
  match value with
  | Some a => Return a
  | None => Raise ("'NoneType' object has no attribute '" +:+ name +:+ "'")
  end.

Definition _extract_with_facenet (self : FaceServiceObject) (image_rgb : image)
  : FaceExtraction :=
  match
    m ← method_of "detect" (mtcnn self);
    detected ← mtcnn_detect m image_rgb;
    match detected with
    | None | Some [] => Return (no_face None)
    | Some boxes =>
        best_prob_idx ← np_argmax (boxes.*2);
        '(box, prob) ← match boxes !! best_prob_idx with
                       | Some d => Return d
                       | None => Raise "index out of bounds"
                       end;
        face ← mtcnn_extract_at m image_rgb boxes best_prob_idx;
        match face with
        | None => Return (no_face None)
        | Some face =>
            r ← match resnet self with
                | Some r => Return r
                | None => Raise "'NoneType' object is not callable"
                end;
            embedding ← resnet_embed r face;
            Return {| face_detected := true;
                      confidence := prob;
                      embedding := Some embedding;
                      error := None |}
        end
    end
  with
  | Return result => result
  | Raise msg => no_face (Some msg)
  end.

Definition _extract_with_opencv (self : FaceServiceObject) (image_rgb : image)
  : FaceExtraction :=
  match
    gray ← cv2_cvtColor_RGB2GRAY image_rgb;
    cascade ← attribute "face_cascade" (face_cascade self);
    faces ← detectMultiScale cascade gray;
    match faces with
    | [] => Return (no_face None)
    | first :: others =>
        let largest_face := max_by area first others in
        embedding ← roi_embedding image_rgb largest_face;
        Return {| face_detected := true;
                  confidence := 0.5;
                  embedding := Some embedding;
                  error := None |}
    end
  with
  | Return result => result
  | Raise msg => no_face (Some msg)
  end.

(** [if FACENET_AVAILABLE and self.mtcnn and self.resnet: ... else: ...] *)
Definition extract (FACENET_AVAILABLE : bool) (self : FaceServiceObject)
           (image_rgb : image) : FaceExtraction :=
  if FACENET_AVAILABLE && bool_decide (is_Some (mtcnn self))
     && bool_decide (is_Some (resnet self))
  then _extract_with_facenet self image_rgb
  else _extract_with_opencv self image_rgb.

Definition extract_face_from_document (FACENET_AVAILABLE : bool)
           (self : FaceServiceObject) (image_path : Path) : FaceExtraction :=
  match
    image ← match cv2_imread image_path with
            | Some image => Return image
            | None => Raise ("Could not read image: " +:+ image_path)
            end;
    image_rgb ← cv2_cvtColor_BGR2RGB image;
    Return (extract FACENET_AVAILABLE self image_rgb)
  with
  | Return result => result
  | Raise msg => no_face (Some msg)
  end.

(** The loop of [extract_face_from_selfie]; [found] holds the pairs of
    the lists [embeddings] and [confidences], which grow together. *)
Fixpoint selfie_loop (FACENET_AVAILABLE : bool) (self : FaceServiceObject)
         (cap : list image) (frame_count : nat)
         (found : list (option (list float) * float))
  : exc (list (option (list float) * float)) :=
  match cap with
  | [] => Return found
  | frame :: cap' =>
      if (frame_count <? 30)%nat then
        if (frame_count mod 3 =? 0)%nat then
          frame_rgb ← cv2_cvtColor_BGR2RGB frame;
          let result := extract FACENET_AVAILABLE self frame_rgb in
          selfie_loop FACENET_AVAILABLE self cap' (S frame_count)
            (if face_detected result
             then found ++ [(embedding result, confidence result)]
             else found)
        else selfie_loop FACENET_AVAILABLE self cap' (S frame_count) found
      else Return found
  end.

(** What a converted frame adds to the two lists. *)
Definition found_in (FACENET_AVAILABLE : bool) (self : FaceServiceObject)
           (frame_rgb : image) : option (option (list float) * float) :=
  let result := extract FACENET_AVAILABLE self frame_rgb in
  if face_detected result then Some (embedding result, confidence result) else None.

Definition extract_face_from_selfie (FACENET_AVAILABLE : bool)
           (self : FaceServiceObject) (video_path : Path) : FaceExtraction :=
  match
    cap ← match cv2_VideoCapture video_path with
          | Some cap => Return cap
          | None => Raise ("Could not open video: " +:+ video_path)
          end;
    found ← selfie_loop FACENET_AVAILABLE self cap 0 [];
    match found with
    | [] => Return (no_face (Some "No faces detected in video"))
    | _ :: _ =>
        best_idx ← np_argmax (found.*2);
        '(best_embedding, best_confidence) ←
          match found !! best_idx with
          | Some entry => Return entry
          | None => Raise "list index out of range"
          end;
        Return {| face_detected := true;
                  confidence := best_confidence;
                  embedding := best_embedding;
                  error := None |}
    end
  with
  | Return result => result
  | Raise msg => no_face (Some msg)
  end.

End Service.

(** An OpenCV whose images list the faces to be seen in them, each with
    the probability (in thousandths) that the detector gives it. *)
Definition toy_cv (models_load : bool) (images : gmap Path (list (Box * Z)))
           (videos : gmap Path (list (list (Box * Z)))) : FaceCV :=
  {| image := list (Box * Z);
     tensor := Box;
     MTCNN := unit;
     InceptionResnetV1 := unit;
     CascadeClassifier := unit;
     cv2_imread := fun p => images !! p;
     cv2_VideoCapture := fun p => videos !! p;
     cv2_cvtColor_BGR2RGB := Return;
     cv2_cvtColor_RGB2GRAY := Return;
     new_MTCNN := Return ();
     new_InceptionResnetV1 :=
       if models_load then Return () else Raise "could not download weights";
     new_CascadeClassifier := ();
     mtcnn_detect := fun _ img =>
       Return (match img with
               | [] => None
               | _ => Some (map (fun f => ([of_Z (box_x f.1); of_Z (box_y f.1)],
                                           (of_Z f.2 / 1000)%float)) img)
               end);
     mtcnn_extract_at := fun _ img _ i => Return (fst <$> img !! i);
     resnet_embed := fun _ b => Return [of_Z (box_w b); of_Z (box_h b)];
     detectMultiScale := fun _ img => Return (img.*1);
     roi_embedding := fun _ b => Return [of_Z (box_w b); of_Z (box_h b); 1%float] |}.

Definition toy_face (w h p : Z) : Box * Z :=
  ({| box_x := 1; box_y := 2; box_w := w; box_h := h |}, p).

(** A selfie with a face in its first and in its fourth frame. *)
Definition toy_selfie : list (list (Box * Z)) :=
  [[toy_face 30 40 700]; []; []; [toy_face 31 41 990]].

(** A document image with three faces. *)
Definition toy_document : list (Box * Z) :=
  [toy_face 30 40 0; toy_face 60 70 0; toy_face 70 60 0].

(** A world in which the models load, and one in which they do not. *)
Definition toy_world : FaceCV :=
  toy_cv true {["id.png" := toy_document]} {["selfie.mp4" := toy_selfie]}.

Definition broken_world : FaceCV :=
  toy_cv false {["id.png" := toy_document]} {["selfie.mp4" := toy_selfie]}.

End FaceExtraction.

(** ** [app/services/liveness_service.py]: active detection and dispatch *)

Module ActiveLiveness.
Import PyFloat Exc FaceService LivenessService.

(** The two Haar cascades of the service.  [eye_cascade_count g box]
    stands for [len(eye_cascade.detectMultiScale(g[y:y+h//2, x:x+w],
    1.1, 3))], the number of eyes found in the upper half of the box. *)
Class Cascades {cv : VideoCV} := {
  face_cascade_detect : gray -> exc (list FaceExtraction.Box);
  eye_cascade_count : gray -> FaceExtraction.Box -> exc nat
}.

(** [lst] without its [None] entries. *)
Definition appended {A} (l : list (option A)) : list A := omap id l.

Section Service.
Context {np : NumPy} {cv : VideoCV} {cascades : Cascades}.

(** [np.var(l)]: the mean of the squared deviations from the mean. *)
Definition np_var (l : list float) : float :=
  let n := of_Z (Z.of_nat (length l)) in
  let arrmean := (add_reduce l / n)%float in
  (add_reduce (map (fun x => ((x - arrmean) * (x - arrmean))%float) l) / n)%float.

(** [np.std(l)] *)
Definition np_std (l : list float) : float := PrimFloat.sqrt (np_var l).

(** The reading loop of [_active_liveness_detection]: every frame is
    kept, up to [max_frames]. *)
Fixpoint read_all_frames (max_frames : nat) (cap : list frame)
         (frame_count : nat) (frames : list frame) : list frame :=
  match cap with
  | [] => frames
  | frame :: cap' =>
      if (frame_count <? max_frames)%nat then
        read_all_frames max_frames cap' (S frame_count) (frames ++ [frame])
      else frames
  end.

(** One iteration of the loop of [_detect_blinking]: [None] when the
    frame shows no face ([continue]). *)
Definition blink_of_frame (frame : frame) : exc (option float) :=
  gray ← cv2_cvtColor_BGR2GRAY frame;
  faces ← face_cascade_detect gray;
  match faces with
  | [] => Return None
  | box :: _ =>
      eye_count ← eye_cascade_count gray box;
      let blink_score := (of_Z (Z.max 0 (3 - Z.of_nat eye_count)) / 3)%float in
      Return (Some blink_score)
  end.

Definition _detect_blinking (frames : list frame) : float :=
  match
    blink_patterns ← for_each blink_of_frame frames;
    match appended blink_patterns with
    | [] => Return 0%float
    | patterns =>
        let avg_blink := np_mean patterns in
        let variation := np_std patterns in
        Return (py_min ((avg_blink + variation) / 2) 1)
    end
  with
  | Return score => score
  | Raise _ => 0%float
  end.

(** One iteration of the loop of [_detect_head_movement]: the centre of
    the first face, computed on 32-bit integers. *)
Definition centre_of_frame (frame : frame) : exc (option (Z * Z)) :=
  gray ← cv2_cvtColor_BGR2GRAY frame;
  faces ← face_cascade_detect gray;
  match faces with
  | [] => Return None
  | box :: _ =>
      let center_x := FaceExtraction.wrap_int32
                        (FaceExtraction.box_x box + FaceExtraction.box_w box / 2) in
      let center_y := FaceExtraction.wrap_int32
                        (FaceExtraction.box_y box + FaceExtraction.box_h box / 2) in
      Return (Some (center_x, center_y))
  end.

Definition _detect_head_movement (frames : list frame) : float :=
  match
    centres ← for_each centre_of_frame frames;
    let face_positions := appended centres in
    if (length face_positions <? 5)%nat then Return 0%float
    else
      let position_variance :=
        [np_var (map (fun p => of_Z p.1) face_positions);
         np_var (map (fun p => of_Z p.2) face_positions)] in
      let movement_score := (np_mean position_variance / 1000)%float in
      Return (py_min (movement_score * 10) 1)
  with
  | Return score => score
  | Raise _ => 0%float
  end.

(** The frames kept by the active detector: the first hundred. *)
Definition active_frames (cap : list frame) : list frame :=
  read_all_frames 100 cap 0 [].

Definition _active_liveness_detection (video_path : Path) : exc LivenessDetection :=
  try_except
    (cap ← match cv2_VideoCapture video_path with
           | Some cap => Return cap
           | None => Raise ("Could not open video: " +:+ video_path)
           end;
     let frames := active_frames cap in
     if (length frames <? 10)%nat then
       Return {| liveness_detected := false;
                 liveness_score := 0;
                 confidence := 0;
                 method := "active";
                 indicators := None;
                 reason := Some "Insufficient frames for active analysis";
                 error := None |}
     else
       let blink_score := _detect_blinking frames in
       let head_movement_score := _detect_head_movement frames in
       let active_score := py_max blink_score head_movement_score in
       let is_live := geb active_score 0.7 in
       let confidence :=
         if is_live then (active_score * 1.1)%float else (active_score * 0.9)%float in
       Return {| liveness_detected := is_live;
                 liveness_score := active_score;
                 confidence := confidence;
                 method := "active";
                 indicators := Some (<["blinking" := blink_score]>
                                     {["head_movement" := head_movement_score]});
                 reason := None;
                 error := None |})
    (fun msg =>
       Return {| liveness_detected := false;
                 liveness_score := 0;
                 confidence := 0;
                 method := "active";
                 indicators := None;
                 reason := None;
                 error := Some msg |}).

Definition detect_liveness (video_path : Path) (liveness_type : string)
  : exc LivenessDetection :=
  try_except
    (if String.eqb liveness_type "active"
     then _active_liveness_detection video_path
     else _passive_liveness_detection video_path)
    (fun msg =>
       Return {| liveness_detected := false;
                 liveness_score := 0;
                 confidence := 0;
                 method := liveness_type;
                 indicators := None;
                 reason := None;
                 error := Some msg |}).

End Service.

(** Cascades on the numeric frames of [numeric_cv]: a frame above 1000
    cannot be analysed, a frame above 500 shows a face with two eyes,
    any other frame shows none. *)
Definition numeric_cascades (videos : gmap Path (list float))
  : @Cascades (numeric_cv videos) :=
  @Build_Cascades (numeric_cv videos)
    (fun g : float =>
       if (1000 <? g)%float then Raise "cv2.error"
       else if (500 <? g)%float
            then Return [ {| FaceExtraction.box_x := 10; FaceExtraction.box_y := 20;
                             FaceExtraction.box_w := 31; FaceExtraction.box_h := 41 |} ]
            else Return [])
    (fun _ _ => Return 2%nat).

(** A video library like [numeric_cv] in which a negative frame cannot
    be converted. *)
Definition fragile_cv (videos : gmap Path (list float)) : VideoCV :=
  {| frame := float;
     gray := float;
     cv2_VideoCapture := fun video_path => videos !! video_path;
     cv2_cvtColor_BGR2GRAY := fun f : float =>
       if (f <? 0)%float then Raise "cv2.error: empty frame" else Return f;
     mean_flow_magnitude := fun a b => Return (PrimFloat.abs (b - a))%float;
     laplacian_var := Return |}.

End ActiveLiveness.

(** ** [app/services/document_service.py]: counting fields *)

Module DocumentExtra.
Import PyFloat Exc DocumentService.

Section Service.
Context {txt : Text}.

(** How many of the required fields of a type are present and
    non-empty. *)
Definition present_count (data : gmap string string) (doc_type : DocType) : nat :=
  length (filter (fun f => present data f = true) (required_fields doc_type)).

(** Whether the primary identifier is there and passes its format
    check. *)
Definition identifier_ok (data : gmap string string) (doc_type : DocType) : bool :=
  match data !! primary_identifier doc_type with
  | Some v => identifier_format_ok doc_type v
  | None => false
  end.

End Service.

(** The identifier of the other family of documents. *)
Definition other_identifier (doc_type : DocType) : string :=
  match doc_type with
  | passport => "id_number"
  | _ => "passport_number"
  end.

Definition passport_keys : gset string :=
  {["passport_number"; "surname"; "given_names"; "date_of_birth";
    "expiration_date"; "full_name"]}.

Definition id_card_keys : gset string :=
  {["id_number"; "full_name"; "date_of_birth"]}.

End DocumentExtra.

(** ** [app/services/verification_service.py]: more scripts *)

Module VerificationExtra.
Import PyFloat Exc VerificationService.

(** Scripts in which one of the services raises, and one in which the
    document shows no face. *)
Definition document_crash : Answers :=
  {| document_answer := Raise "document service crashed";
     document_face_answer := document_face_answer healthy;
     selfie_face_answer := selfie_face_answer healthy;
     compare_answer := compare_answer healthy;
     liveness_answer := liveness_answer healthy;
     open_answer := open_answer healthy |}.

Definition face_crash : Answers :=
  {| document_answer := document_answer healthy;
     document_face_answer := Raise "face service crashed";
     selfie_face_answer := selfie_face_answer healthy;
     compare_answer := compare_answer healthy;
     liveness_answer := liveness_answer healthy;
     open_answer := open_answer healthy |}.

Definition liveness_crash : Answers :=
  {| document_answer := document_answer healthy;
     document_face_answer := document_face_answer healthy;
     selfie_face_answer := selfie_face_answer healthy;
     compare_answer := compare_answer healthy;
     liveness_answer := Raise "liveness service crashed";
     open_answer := open_answer healthy |}.

Definition faceless_document : Answers :=
  {| document_answer := document_answer healthy;
     document_face_answer :=
       Return {| FaceService.face_detected := false;
                 FaceService.confidence := 0;
                 FaceService.embedding := None;
                 FaceService.error := None |};
     selfie_face_answer := selfie_face_answer healthy;
     compare_answer := compare_answer healthy;
     liveness_answer := liveness_answer healthy;
     open_answer := open_answer healthy |}.

Definition id_upload : UploadFile := {| filename := "id.png"; handle := 0 |}.
Definition selfie_upload : UploadFile := {| filename := "selfie.mp4"; handle := 1 |}.

(** The log of a run of [scripted_env] that saves both uploads. *)
Definition saved_log : list string :=
  ["mkdir uploads/verifications/s1";
   "open uploads/verifications/s1/id_id.png";
   "read id.png";
   "write uploads/verifications/s1/id_id.png";
   "close uploads/verifications/s1/id_id.png";
   "open uploads/verifications/s1/selfie_selfie.mp4";
   "read selfie.mp4";
   "write uploads/verifications/s1/selfie_selfie.mp4";
   "close uploads/verifications/s1/selfie_selfie.mp4"].

(** An environment like [scripted_env healthy] in which reading an
    upload fails. *)
Definition unreadable_upload_env : Env :=
  {| World := list string;
     bytes := unit;
     file := Path;
     mkdir := fun p w => (w ++ ["mkdir " +:+ p], Return ());
     open_wb := fun p w => (w ++ ["open " +:+ p], Return p);
     file_write := fun f _ w => (w ++ ["write " +:+ f], Return ());
     file_close := fun f w => (w ++ ["close " +:+ f], Return ());
     upload_read := fun u w => (w ++ ["read " +:+ filename u], Raise "connection reset");
     document_service_process_document := fun _ w => (w, document_answer healthy);
     face_service_extract_face_from_document := fun _ w =>
       (w, document_face_answer healthy);
     face_service_extract_face_from_selfie := fun _ w =>
       (w, selfie_face_answer healthy);
     face_service_compare_faces := fun _ _ w => (w, compare_answer healthy);
     liveness_service_detect_liveness := fun _ _ w => (w, liveness_answer healthy) |}.

End VerificationExtra.

(** * Properties *)

Module ExcFacts.
Import Exc.

Lemma try_except_returns {A} (body : exc A) (handler : string -> exc A) :
  (forall msg, returns (handler msg)) -> returns (try_except body handler).
Proof.
  intros H. destruct body as [a|msg]; simpl; [now exists a | apply H].
Qed.

Lemma try_except_handled {A} (body : exc A) (handler : string -> exc A) msg :
  body = Raise msg -> try_except body handler = handler msg.
Proof. now intros ->. Qed.

Lemma for_each_length {A B} (f : A -> exc B) (l : list A) (bs : list B) :
  for_each f l = Return bs -> length bs = length l.
Proof.
  revert bs. induction l as [|a l IH]; intros bs; simpl.
  - now intros [= <-].
  - destruct (f a) as [b|]; simpl; [|discriminate].
    destruct (for_each f l) as [bs'|]; simpl; [|discriminate].
    intros [= <-]. simpl. f_equal. now apply IH.
Qed.

End ExcFacts.
Module PyFloatFacts.
Import PyFloat.

Lemma ltb_cmp x y : (x <? y)%float = match cmp x y with Some Lt => true | _ => false end.
Proof. apply FloatAxioms.ltb_spec. Qed.

Lemma leb_cmp x y :
  (x <=? y)%float = match cmp x y with Some (Lt | Eq) => true | _ => false end.
Proof. apply FloatAxioms.leb_spec. Qed.

Lemma eqb_cmp x y : (x =? y)%float = match cmp x y with Some Eq => true | _ => false end.
Proof. apply FloatAxioms.eqb_spec. Qed.

Lemma pos_cmp_cont_opp (p q : positive) :
  Pos.compare_cont Eq q p = CompOpp (Pos.compare_cont Eq p q).
Proof. apply (Pos.compare_antisym p q). Qed.

Lemma SFcompare_antisym (a b : spec_float) :
  SFcompare b a = CompOpp <$> SFcompare a b.
Proof.
  destruct a as [[]|[]| |[] ma ea], b as [[]|[]| |[] mb eb]; simpl;
    try reflexivity;
    rewrite (Z.compare_antisym ea eb), (pos_cmp_cont_opp ma mb);
    destruct (ea ?= eb)%Z; simpl; try reflexivity;
    destruct (Pos.compare_cont Eq ma mb); reflexivity.
Qed.

Lemma cmp_antisym x y : cmp y x = CompOpp <$> cmp x y.
Proof. apply SFcompare_antisym. Qed.

Lemma pos_cmp_cont_eq (p q : positive) : Pos.compare_cont Eq p q = Eq -> p = q.
Proof. apply Pos.compare_eq. Qed.

(** Two numbers that compare equal compare alike with any third one
    (this covers [+0.0 == -0.0]). *)
Lemma SFcompare_eq_l (a b c : spec_float) :
  SFcompare a b = Some Eq -> SFcompare a c = SFcompare b c.
Proof.
  destruct a as [[]|[]| |[] ma ea], b as [[]|[]| |[] mb eb]; simpl;
    try discriminate; try (intros _; destruct c as [[]|[]| |[] mc ec]; reflexivity).
  all: destruct (ea ?= eb)%Z eqn:He; try discriminate;
       destruct (Pos.compare_cont Eq ma mb) eqn:Hc; try discriminate; intros _;
       apply Z.compare_eq in He; apply pos_cmp_cont_eq in Hc; subst; reflexivity.
Qed.

Lemma SFcompare_trans_lt (a b c : spec_float) :
  SFcompare a b = Some Lt -> SFcompare b c = Some Lt -> SFcompare a c = Some Lt.
Proof.
  destruct a as [[]|[]| |[] ma ea], b as [[]|[]| |[] mb eb],
           c as [[]|[]| |[] mc ec]; simpl;
    try discriminate; try reflexivity; try (intros _ _; reflexivity).
  all: intros H1 H2; f_equal.
  all: destruct (Z.compare_spec ea eb) as [E1|E1|E1];
       destruct (Z.compare_spec eb ec) as [E2|E2|E2];
       try discriminate;
       destruct (Z.compare_spec ea ec) as [E3|E3|E3]; try lia; try reflexivity.
  all: subst; injection H1 as H1; injection H2 as H2.
  all: rewrite ?Pos.compare_cont_spec in *; simpl in *.
  all: destruct (Pos.compare_spec ma mb), (Pos.compare_spec mb mc);
       try discriminate; destruct (Pos.compare_spec ma mc);
       try lia; reflexivity.
Qed.

(** *** The comparison operators *)

Lemma ltb_leb x y : (x <? y)%float = true -> (x <=? y)%float = true.
Proof. rewrite ltb_cmp, leb_cmp. destruct (cmp x y) as [[]|]; congruence. Qed.

Lemma eqb_leb x y : (x =? y)%float = true -> (x <=? y)%float = true.
Proof. rewrite eqb_cmp, leb_cmp. destruct (cmp x y) as [[]|]; congruence. Qed.

Lemma eqb_sym x y : (x =? y)%float = (y =? x)%float.
Proof.
  rewrite !eqb_cmp, (cmp_antisym x y). destruct (cmp x y) as [[]|]; reflexivity.
Qed.

Lemma eqb_geb x y : (x =? y)%float = true -> geb x y = true.
Proof. unfold geb. rewrite eqb_sym. apply eqb_leb. Qed.

Lemma ltb_leb_false x y : (x <? y)%float = true -> (y <=? x)%float = false.
Proof.
  rewrite ltb_cmp, leb_cmp, (cmp_antisym x y).
  destruct (cmp x y) as [[]|]; simpl; congruence.
Qed.

Lemma leb_ltb_false x y : (x <=? y)%float = true -> (y <? x)%float = false.
Proof.
  rewrite ltb_cmp, leb_cmp, (cmp_antisym x y).
  destruct (cmp x y) as [[]|]; simpl; congruence.
Qed.

Lemma eqb_ltb_false x y : (x =? y)%float = true -> (x <? y)%float = false.
Proof. rewrite eqb_cmp, ltb_cmp. destruct (cmp x y) as [[]|]; congruence. Qed.

Lemma cmp_eq_l x y z : cmp x y = Some Eq -> cmp x z = cmp y z.
Proof. apply SFcompare_eq_l. Qed.

Lemma cmp_eq_r x y z : cmp x y = Some Eq -> cmp z x = cmp z y.
Proof.
  intros H. rewrite (cmp_antisym x z), (cmp_antisym y z).
  f_equal. now apply cmp_eq_l.
Qed.

Lemma eqb_ltb_l x y z : (x =? y)%float = true -> (x <? z)%float = (y <? z)%float.
Proof.
  rewrite eqb_cmp, !ltb_cmp. intros H.
  rewrite (cmp_eq_l x y z); [reflexivity|].
  destruct (cmp x y) as [[]|]; congruence.
Qed.

Lemma cmp_trans_lt x y z : cmp x y = Some Lt -> cmp y z = Some Lt -> cmp x z = Some Lt.
Proof. apply SFcompare_trans_lt. Qed.

Lemma leb_trans x y z :
  (x <=? y)%float = true -> (y <=? z)%float = true -> (x <=? z)%float = true.
Proof.
  rewrite !leb_cmp. intros Hxy Hyz.
  destruct (cmp x y) as [[]|] eqn:Exy; try discriminate.
  - now rewrite (cmp_eq_l x y z Exy).
  - destruct (cmp y z) as [[]|] eqn:Eyz; try discriminate.
    + now rewrite <- (cmp_eq_r y z x Eyz), Exy.
    + now rewrite (cmp_trans_lt x y z Exy Eyz).
Qed.

(** If [x <= c1] and [c1 < c2] then [c2 <= x] is false. *)
Lemma leb_below x c1 c2 :
  (x <=? c1)%float = true -> (c1 <? c2)%float = true -> (c2 <=? x)%float = false.
Proof.
  intros H1 H2. destruct (c2 <=? x)%float eqn:H3; [|reflexivity].
  pose proof (leb_trans _ _ _ H3 H1) as H4.
  now rewrite (ltb_leb_false _ _ H2) in H4.
Qed.

(** If [c2 <= x] and [c1 < c2] then [x <= c1] is false. *)
Lemma leb_above x c1 c2 :
  (c2 <=? x)%float = true -> (c1 <? c2)%float = true -> (x <=? c1)%float = false.
Proof.
  intros H1 H2. destruct (x <=? c1)%float eqn:H3; [|reflexivity].
  pose proof (leb_trans _ _ _ H1 H3) as H4.
  now rewrite (ltb_leb_false _ _ H2) in H4.
Qed.

Lemma SFcompare_refl (a b : spec_float) c :
  SFcompare a b = Some c -> SFcompare a a = Some Eq.
Proof.
  destruct a as [[]|[]| |[] ma ea], b as [[]|[]| |[] mb eb]; simpl;
    try discriminate; intros _; try reflexivity;
    now rewrite Z.compare_refl, Pos.compare_cont_refl.
Qed.

(** A number that compares with another one is not NaN, and equals
    itself. *)
Lemma leb_eqb_refl x y : (x <=? y)%float = true -> (x =? x)%float = true.
Proof.
  rewrite leb_cmp, eqb_cmp. unfold cmp.
  destruct (SFcompare (Prim2SF x) (Prim2SF y)) as [c|] eqn:E; [|discriminate].
  now rewrite (SFcompare_refl _ _ _ E).
Qed.

(** *** Multiplication commutes, bit for bit *)

Lemma SFmul_comm prec emax (a b : spec_float) :
  SFmul prec emax a b = SFmul prec emax b a.
Proof.
  destruct a as [sa|sa| |sa ma ea], b as [sb|sb| |sb mb eb]; simpl;
    rewrite ?(Bool.xorb_comm sa sb); try reflexivity.
  now rewrite (Pos.mul_comm ma mb), (Z.add_comm ea eb).
Qed.

Lemma mul_comm x y : (x * y)%float = (y * x)%float.
Proof.
  apply Prim2SF_inj. rewrite !FloatAxioms.mul_spec. apply SFmul_comm.
Qed.

Lemma clamp_range lo hi x :
  (lo <=? lo)%float = true -> (hi <=? hi)%float = true -> (lo <=? hi)%float = true ->
  (lo <=? clamp lo hi x)%float = true /\ (clamp lo hi x <=? hi)%float = true.
Proof.
  intros Hlo Hhi Hlh. unfold clamp, py_max, py_min.
  destruct (x <? hi)%float eqn:Hx.
  - destruct (lo <? x)%float eqn:Hl.
    + split; now apply ltb_leb.
    + split; assumption.
  - destruct (lo <? hi)%float eqn:Hl; split; assumption.
Qed.

End PyFloatFacts.

(** ** The document extractor *)

Module DocumentFacts.
Import PyFloat PyFloatFacts Exc ExcFacts DocumentService.

(** *** [process_document] never raises *)

(** C7. [process_document] returns for every path and never raises:
    whenever a step of its body fails (an unreadable image, an OpenCV
    error, a degenerate shape) the result is the failure-safe signal
    [document_type = unknown], [document_valid = False],
    [confidence = 0.0], [extracted_data = {}], with the text of the
    exception attached under [error]; an unreadable image is such a
    failure. *)
Theorem process_document_never_raises {cv : OpenCV} {txt : Text} (image_path : Path) :
  returns (process_document image_path) /\
  (forall msg,
      process_document_body image_path = Raise msg ->
      exists r, process_document image_path = Return r /\
                document_type r = unknown /\
                document_valid r = false /\
                confidence r = 0%float /\
                extracted_data r = ∅ /\
                error r = Some msg) /\
  (cv2_imread image_path = None ->
   process_document_body image_path = Raise ("Could not read image: " +:+ image_path)).
Proof.
  split; [|split].
  - apply try_except_returns. intros msg. eexists. reflexivity.
  - intros msg Hbody. unfold process_document. rewrite Hbody. simpl.
    eexists. split; [reflexivity|]. simpl. auto.
  - intros Hread. unfold process_document_body. rewrite Hread. reflexivity.
Qed.

Lemma process_document_never_raises_witness :
  exists r,
    @process_document (shape_cv {["id.png" := (1000, 1600)]}) ascii_text "missing.png"
      = Return r /\
    document_type r = unknown /\
    document_valid r = false /\
    confidence r = 0%float /\
    extracted_data r = ∅ /\
    error r = Some "Could not read image: missing.png".
Proof.
  apply (@process_document_never_raises
           (shape_cv {["id.png" := (1000, 1600)]}) ascii_text "missing.png").
  reflexivity.
Defined.

(** *** The validity formula *)

Lemma present_fields_from data fields n :
  fold_left (fun n field => if present data field then n + 1 else n) fields n
  = n + Z.of_nat (length (filter (fun f => present data f = true) fields)).
Proof.
  revert n. induction fields as [|f fields IH]; intros n; simpl.
  - lia.
  - rewrite IH, filter_cons.
    destruct (decide (present data f = true)) as [Hp|Hp].
    + rewrite Hp. simpl length. lia.
    + destruct (present data f); [now destruct Hp | lia].
Qed.

Lemma present_fields_count data fields :
  present_fields data fields
  = Z.of_nat (length (filter (fun f => present data f = true) fields)).
Proof. unfold present_fields. now rewrite present_fields_from. Qed.

Lemma field_completeness_fraction {txt : Text} data doc_type :
  recognized doc_type ->
  field_completeness data doc_type = required_fraction data doc_type.
Proof.
  intros Hty. unfold field_completeness, required_fraction.
  destruct doc_type; try (now destruct Hty);
    cbv beta iota delta [required_fields]; now rewrite present_fields_count.
Qed.

(** The keys a parser never writes. *)
Lemma fold_left_keeps {A} (step : gmap string string -> A -> gmap string string)
      (key : string) :
  (forall data a, data !! key = None -> step data a !! key = None) ->
  forall l data, data !! key = None -> fold_left step l data !! key = None.
Proof.
  intros Hstep l. induction l as [|a l IH]; intros data Hdata; simpl; auto.
Qed.

Section Parsers.
Context {txt : Text}.

Lemma parse_passport_line_no_id data line :
  data !! "id_number" = None -> parse_passport_line data line !! "id_number" = None.
Proof.
  intros Hdata. unfold parse_passport_line.
  repeat case_match; try assumption; now rewrite lookup_insert_ne.
Qed.

Lemma parse_passport_no_id text : _parse_passport_data text !! "id_number" = None.
Proof.
  unfold _parse_passport_data.
  assert (H : fold_left parse_passport_line
                        (str_split newline (str_strip text)) ∅ !! "id_number" = None).
  { apply fold_left_keeps; [apply parse_passport_line_no_id | apply lookup_empty]. }
  repeat case_match; try assumption. now rewrite lookup_insert_ne.
Qed.

Lemma parse_id_card_line_no_passport data line :
  data !! "passport_number" = None ->
  parse_id_card_line data line !! "passport_number" = None.
Proof.
  intros Hdata. unfold parse_id_card_line.
  repeat case_match; rewrite ?lookup_insert_ne by discriminate; assumption.
Qed.

Lemma parse_id_card_no_passport text :
  _parse_id_card_data text !! "passport_number" = None.
Proof.
  apply fold_left_keeps; [apply parse_id_card_line_no_passport | apply lookup_empty].
Qed.

(** On a field map without the identifier of the other family of
    documents, the accumulated [format_score] is the score of the
    primary identifier. *)
Lemma format_score_primary data doc_type :
  recognized doc_type ->
  data !! (match doc_type with
           | passport => "id_number"
           | _ => "passport_number"
           end) = None ->
  format_score data = identifier_format_score data doc_type.
Proof.
  intros Hty Hother. unfold format_score, identifier_format_score.
  destruct doc_type; try (now destruct Hty); simpl in *; rewrite Hother.
  - destruct (data !! "passport_number") as [v|]; [|reflexivity].
    destruct (re_match_passport_number v); reflexivity.
  - destruct (data !! "id_number") as [v|]; [|reflexivity].
    destruct (6 <=? Z.of_nat (String.length v))%Z; reflexivity.
  - destruct (data !! "id_number") as [v|]; [|reflexivity].
    destruct (6 <=? Z.of_nat (String.length v))%Z; reflexivity.
Qed.

Lemma parsed_has_no_other_identifier text doc_type :
  _parse_document_data text doc_type
    !! (match doc_type with
        | passport => "id_number"
        | _ => "passport_number"
        end) = None.
Proof.
  destruct doc_type; simpl.
  - apply parse_passport_no_id.
  - apply parse_id_card_no_passport.
  - apply parse_id_card_no_passport.
  - apply lookup_empty.
Qed.

End Parsers.

(** C8. For every recognized document type and every field map parsed
    from a text for that type (more generally, every field map that does
    not hold the identifier of the other family of documents), the
    confidence computed by [_validate_document_data] is [0.7 x (fraction
    of the required fields of the type that are present and non-empty) +
    0.3 x (score awarded for the format check of the primary identifier:
    the passport number or the ID number)], and the document is valid
    exactly when that confidence is [>= 0.5]. *)
Theorem validate_document_data_formula {txt : Text} (doc_type : DocType) :
  recognized doc_type ->
  (forall text,
      _validate_document_data (_parse_document_data text doc_type) doc_type
      = ((0.5 <=? spec_confidence (_parse_document_data text doc_type) doc_type)%float,
         spec_confidence (_parse_document_data text doc_type) doc_type)) /\
  (forall data,
      data !! (match doc_type with
               | passport => "id_number"
               | _ => "passport_number"
               end) = None ->
      _validate_document_data data doc_type
      = ((0.5 <=? spec_confidence data doc_type)%float, spec_confidence data doc_type)).
Proof.
  intros Hty.
  assert (Hgeneral : forall data,
             data !! (match doc_type with
                      | passport => "id_number"
                      | _ => "passport_number"
                      end) = None ->
             _validate_document_data data doc_type
             = ((0.5 <=? spec_confidence data doc_type)%float,
                spec_confidence data doc_type)).
  { intros data Hother. unfold _validate_document_data, spec_confidence, geb.
    rewrite (field_completeness_fraction _ _ Hty).
    rewrite (format_score_primary _ _ Hty Hother).
    rewrite (mul_comm (required_fraction _ _) 0.7).
    rewrite (mul_comm (identifier_format_score _ _) 0.3).
    reflexivity. }
  split; [|exact Hgeneral].
  intros text. apply Hgeneral, parsed_has_no_other_identifier.
Qed.

Lemma validate_document_data_formula_witness :
  @_validate_document_data ascii_text
     (@_parse_document_data ascii_text sample_text passport) passport
  = ((0.5 <=? @spec_confidence ascii_text
                (@_parse_document_data ascii_text sample_text passport) passport)%float,
     @spec_confidence ascii_text
       (@_parse_document_data ascii_text sample_text passport) passport).
Proof.
  destruct (@validate_document_data_formula ascii_text passport) as [Hparsed _].
  - unfold recognized. discriminate.
  - apply Hparsed.
Defined.

(** Outside the parsers a field map can hold both identifiers, and then
    both format checks score. *)
Example both_identifiers_score_twice :
  @format_score ascii_text
     (<["passport_number" := "P12345678"]> {["id_number" := "AB-123456"]})
  = (0.3 + 0.3)%float.
Proof. vm_compute. reflexivity. Qed.

(** The sample text read as a passport: all three required fields and a
    well-formed number, [1.0 * 0.7 + 0.3 * 0.3]. *)
Example sample_passport_is_valid :
  @_validate_document_data ascii_text
     (@_parse_document_data ascii_text sample_text passport) passport
  = (true, (0.7 + 0.09)%float).
Proof. vm_compute. reflexivity. Qed.

(** *** Classification by aspect ratio *)

(** C9, as stated, fails: a 1600 x 1000 image has ratio 1.6, which lies
    in [1.5, 1.8], and is classified as a passport, because the passport
    band [1.4, 1.7] is tested first. *)
Lemma drivers_license_band_counterexample :
  ~ (forall (cv : OpenCV) (image : ndarray) doc_type doc_region,
        _detect_document_type image = Return (doc_type, doc_region) ->
        in_band 1.5 1.8 (aspect_ratio doc_region) = true ->
        doc_type = drivers_license).
Proof.
  intros H.
  specialize (H (shape_cv ∅) (1000, 1600) passport
                {| region_width := 1600; region_height := 1000;
                   aspect_ratio := (1600 / 1000)%float |} eq_refl eq_refl).
  discriminate.
Qed.

(** C9 (amended). The document type is classified from the aspect ratio
    [width / height] of the image: a ratio in [1.4, 1.7] gives
    [passport]; a ratio in [0.6, 0.8] gives [national_id]; a ratio in
    [1.5, 1.8] that is not in [1.4, 1.7], that is, above 1.7 and at most
    1.8, gives [drivers_license]; every other ratio gives [unknown]. *)
Theorem detect_document_type_bands {cv : OpenCV} (image : ndarray) :
  (shape image).1 <> 0 ->
  exists doc_type doc_region,
    _detect_document_type image = Return (doc_type, doc_region) /\
    aspect_ratio doc_region = (of_Z (shape image).2 / of_Z (shape image).1)%float /\
    (in_band 1.4 1.7 (aspect_ratio doc_region) = true -> doc_type = passport) /\
    (in_band 0.6 0.8 (aspect_ratio doc_region) = true -> doc_type = national_id) /\
    (in_band 1.5 1.8 (aspect_ratio doc_region) = true ->
     in_band 1.4 1.7 (aspect_ratio doc_region) = false ->
     doc_type = drivers_license) /\
    ((1.7 <? aspect_ratio doc_region)%float = true ->
     (aspect_ratio doc_region <=? 1.8)%float = true ->
     doc_type = drivers_license) /\
    (in_band 1.4 1.7 (aspect_ratio doc_region) = false ->
     in_band 0.6 0.8 (aspect_ratio doc_region) = false ->
     in_band 1.5 1.8 (aspect_ratio doc_region) = false ->
     doc_type = unknown).
Proof.
  intros Hheight. unfold _detect_document_type, true_div.
  destruct (shape image) as [height width]. simpl in Hheight.
  destruct (Z.eqb_spec height 0) as [->|_]; [now destruct Hheight|].
  simpl. do 2 eexists. split; [reflexivity|]. simpl.
  set (ar := (of_Z width / of_Z height)%float).
  split; [reflexivity|]. unfold classify_ratio, in_band.
  repeat split.
  - now intros ->.
  - intros [Hlo Hhi]%andb_prop. rewrite Hlo, Hhi.
    now rewrite (leb_below ar 0.8 1.4 Hhi eq_refl).
  - intros [Hlo Hhi]%andb_prop ->.
    rewrite (leb_above ar 0.8 1.5 Hlo eq_refl), Bool.andb_false_r.
    now rewrite Hlo, Hhi.
  - intros Hlo Hhi.
    rewrite (ltb_leb_false _ _ Hlo), Bool.andb_false_r.
    apply ltb_leb in Hlo.
    rewrite (leb_above ar 0.8 1.7 Hlo eq_refl), Bool.andb_false_r.
    now rewrite (leb_trans 1.5 1.7 ar eq_refl Hlo), Hhi.
  - now intros -> -> ->.
Qed.

Lemma detect_document_type_bands_witness :
  exists doc_type doc_region,
    @_detect_document_type (shape_cv ∅) (1000, 1750) = Return (doc_type, doc_region) /\
    doc_type = drivers_license.
Proof.
  destruct (@detect_document_type_bands (shape_cv ∅) (1000, 1750))
    as (doc_type & doc_region & Hrun & Hratio & _ & _ & _ & Hlicense & _).
  - simpl. lia.
  - exists doc_type, doc_region. split; [exact Hrun|].
    apply Hlicense; rewrite Hratio; reflexivity.
Defined.

End DocumentFacts.

(** ** Face comparison *)

Module FaceFacts.
Import PyFloat PyFloatFacts FaceService.

Lemma zip_with_mul_comm (a b : list float) :
  zip_with PrimFloat.mul a b = zip_with PrimFloat.mul b a.
Proof.
  revert b. induction a as [|x a IH]; intros [|y b]; simpl; try reflexivity.
  now rewrite (mul_comm x y), IH.
Qed.

Lemma np_dot_comm {np : NumPy} (a b : list float) : np_dot a b = np_dot b a.
Proof. unfold np_dot. now rewrite zip_with_mul_comm. Qed.

Lemma py_not_spec (e : option (list float)) :
  py_not e = true <-> e = None \/ e = Some [].
Proof.
  destruct e as [[|x e]|]; simpl; (split; [intros H | intros [H|H]]);
    try discriminate; auto.
Qed.

Lemma compare_faces_comm {np : NumPy} (a b : option (list float)) :
  compare_faces a b = compare_faces b a.
Proof.
  unfold compare_faces.
  rewrite (Bool.orb_comm (py_not a) (py_not b)), (Nat.eqb_sym (len a) (len b)).
  now rewrite np_dot_comm.
Qed.

Lemma compare_faces_range {np : NumPy} (a b : option (list float)) :
  (0 <=? compare_faces a b)%float = true /\ (compare_faces a b <=? 1)%float = true.
Proof.
  unfold compare_faces.
  destruct (py_not a || py_not b || negb (len a =? len b)%nat).
  - split; reflexivity.
  - apply (clamp_range 0 1); reflexivity.
Qed.

(** C3. [compare_faces] is symmetric in its two embeddings, as a value
    and under Python's [==]; it returns [0.0] whenever an embedding is
    absent or empty or the two lengths differ; and its result always lies
    in the interval [0, 1]. *)
Theorem compare_faces_spec {np : NumPy} (a b : option (list float)) :
  (compare_faces a b = compare_faces b a /\
   (compare_faces a b =? compare_faces b a)%float = true) /\
  (a = None \/ a = Some [] \/ b = None \/ b = Some [] \/ len a <> len b ->
   compare_faces a b = 0%float) /\
  ((0 <=? compare_faces a b)%float = true /\
   (compare_faces a b <=? 1)%float = true).
Proof.
  split; [|split].
  - split; [apply compare_faces_comm|].
    rewrite <- (compare_faces_comm a b).
    apply (leb_eqb_refl _ 1), compare_faces_range.
  - intros H. unfold compare_faces.
    assert (Hguard : py_not a || py_not b || negb (len a =? len b)%nat = true).
    { destruct H as [H|[H|[H|[H|H]]]].
      - now rewrite (proj2 (py_not_spec a) (or_introl H)).
      - now rewrite (proj2 (py_not_spec a) (or_intror H)).
      - rewrite (proj2 (py_not_spec b) (or_introl H)).
        now rewrite Bool.orb_true_r.
      - rewrite (proj2 (py_not_spec b) (or_intror H)).
        now rewrite Bool.orb_true_r.
      - apply Nat.eqb_neq in H. rewrite H. now rewrite Bool.orb_true_r. }
    now rewrite Hguard.
  - apply compare_faces_range.
Qed.

(** Embeddings of 128 and of 256 components (scenario E). *)
Lemma compare_faces_spec_witness :
  @compare_faces sequential_numpy (Some (replicate 128 0.5%float))
                 (Some (replicate 256 0.5%float)) = 0%float.
Proof.
  apply (@compare_faces_spec sequential_numpy (Some (replicate 128 0.5%float))
           (Some (replicate 256 0.5%float))).
  do 4 right. vm_compute. lia.
Defined.

Example compare_faces_same_direction :
  @compare_faces sequential_numpy (Some [3; 4]%float) (Some [6; 8]%float) = 1%float.
Proof. reflexivity. Qed.

Example compare_faces_orthogonal :
  @compare_faces sequential_numpy (Some [1; 0]%float) (Some [0; 1]%float) = 0%float.
Proof. reflexivity. Qed.

Example compare_faces_opposite :
  @compare_faces sequential_numpy (Some [1; 0]%float) (Some [-1; 0]%float) = 0%float.
Proof. reflexivity. Qed.

(** A zero vector has norm zero; its normalisation is NaN in every
    component, and NaN is clamped to the upper bound. *)
Example compare_faces_zero_vector :
  @compare_faces sequential_numpy (Some [0; 0]%float) (Some [1; 0]%float) = 1%float.
Proof. reflexivity. Qed.

End FaceFacts.

(** ** Passive liveness *)

Module LivenessFacts.
Import PyFloat PyFloatFacts Exc ExcFacts FaceService LivenessService.

Section Passive.
Context {np : NumPy} {cv : VideoCV}.

(** Sampling appends to the frames already kept. *)
Lemma read_frames_app max_frames step cap frame_count frames :
  exists kept,
    read_frames max_frames step cap frame_count frames = frames ++ kept /\
    (length kept <= length cap)%nat.
Proof.
  revert frame_count frames.
  induction cap as [|frame cap IH]; intros frame_count frames; simpl.
  - exists []. split; [now rewrite app_nil_r | simpl; lia].
  - destruct (frame_count <? max_frames)%nat.
    + destruct (frame_count mod step =? 0)%nat.
      * destruct (IH (S frame_count) (frames ++ [frame])) as (kept & -> & Hlen).
        exists (frame :: kept). split; [now rewrite <- app_assoc | simpl; lia].
      * destruct (IH (S frame_count) frames) as (kept & -> & Hlen).
        exists kept. split; [reflexivity | lia].
    + exists []. split; [now rewrite app_nil_r | simpl; lia].
Qed.

(** A video of at most four frames yields fewer than three samples. *)
Lemma short_video_few_frames (cap : list frame) :
  (length cap <= 4)%nat -> (length (passive_frames cap) < 3)%nat.
Proof.
  intros Hlen. unfold passive_frames.
  do 5 (destruct cap as [|? cap]; [simpl; lia|]).
  simpl in Hlen. lia.
Qed.

(** A video of five frames or more yields at least three samples. *)
Lemma long_video_enough_frames (cap : list frame) :
  (5 <= length cap)%nat -> (3 <= length (passive_frames cap))%nat.
Proof.
  intros Hlen. unfold passive_frames.
  do 5 (destruct cap as [|? cap]; [simpl in Hlen; lia|]).
  simpl.
  destruct (read_frames_app 50 2 cap 5 [f; f1; f3]) as (kept & -> & _).
  rewrite length_app. simpl. lia.
Qed.

Lemma for_each_scores (post : float -> float) (pairs : list (gray * gray)) magnitudes :
  for_each (fun '(a, b) => mean_flow_magnitude a b) pairs = Return magnitudes ->
  for_each (fun '(a, b) => motion_score ← mean_flow_magnitude a b;
                          Return (post motion_score)) pairs
  = Return (map post magnitudes).
Proof.
  revert magnitudes. induction pairs as [|[a b] pairs IH]; intros magnitudes; simpl.
  - now intros [= <-].
  - destruct (mean_flow_magnitude a b) as [m|]; simpl; [|discriminate].
    destruct (for_each _ pairs) as [ms|] eqn:Hrest; simpl; [|discriminate].
    intros [= <-]. now rewrite (IH ms eq_refl).
Qed.

Lemma motion_band_cases (avg : float) :
  ((0.1 <=? avg)%float = true -> (avg <=? 0.8)%float = true -> motion_band avg = avg) /\
  ((avg <? 0.1)%float = true -> motion_band avg = (avg * 2)%float) /\
  ((0.8 <? avg)%float = true -> motion_band avg = 0.5%float).
Proof.
  unfold motion_band. repeat split.
  - now intros -> ->.
  - intros Hlow. now rewrite (ltb_leb_false _ _ Hlow), Hlow.
  - intros Hhigh. rewrite (ltb_leb_false _ _ Hhigh), Bool.andb_false_r.
    destruct (avg <? 0.1)%float eqn:Hlow; [|reflexivity].
    apply ltb_leb in Hlow, Hhigh.
    now rewrite (leb_above avg 0.1 0.8 Hhigh eq_refl) in Hlow.
Qed.

(** When the frames convert to grey and every optical flow is computed,
    the motion score is the band-limited mean of the capped, normalised
    magnitudes. *)
Lemma analyze_motion_formula (frames : list frame) gray_frames magnitudes :
  (2 <= length frames)%nat ->
  for_each cv2_cvtColor_BGR2GRAY frames = Return gray_frames ->
  for_each (fun '(a, b) => mean_flow_magnitude a b) (consecutive gray_frames)
    = Return magnitudes ->
  _analyze_motion frames
  = motion_band (np_mean (map (fun m => py_min (m / 10) 1) magnitudes)).
Proof.
  intros Hlen Hgray Hflow. unfold _analyze_motion.
  destruct (Nat.ltb_spec (length frames) 2) as [Hshort|_]; [lia|].
  rewrite Hgray. simpl.
  now rewrite (for_each_scores (fun m => py_min (m / 10) 1) _ _ Hflow).
Qed.

End Passive.

(** C5, as stated, fails: for a two-frame video the result is
    [passed = False] with score [0.0], but its reason is the text
    ["Insufficient frames"], not ["insufficient_frames"]. *)
Lemma insufficient_frames_reason_counterexample :
  ~ (forall (np : NumPy) (cv : VideoCV) video_path cap,
        cv2_VideoCapture video_path = Some cap ->
        length cap = 2%nat ->
        exists r, _passive_liveness_detection video_path = Return r /\
                  liveness_detected r = false /\
                  liveness_score r = 0%float /\
                  reason r = Some "insufficient_frames").
Proof.
  intros H.
  destruct (H sequential_numpy (numeric_cv {["selfie.mp4" := [600; 604]%float]})
              "selfie.mp4" [600; 604]%float)
    as (r & Hrun & _ & _ & Hreason); [reflexivity | reflexivity |].
  vm_compute in Hrun. injection Hrun as <-. discriminate.
Qed.

(** C5 (amended). For every passive-liveness video that opens and
    yields fewer than three sampled frames, in particular every two-frame
    video, [_passive_liveness_detection] does not raise and returns
    [liveness_detected = False], [liveness_score = 0.0],
    [confidence = 0.0] and the reason ["Insufficient frames"]. *)
Theorem passive_liveness_insufficient_frames
        {np : NumPy} {cv : VideoCV} (video_path : Path) (cap : list frame) :
  cv2_VideoCapture video_path = Some cap ->
  (length (passive_frames cap) < 3)%nat \/ length cap = 2%nat ->
  _passive_liveness_detection video_path
  = Return {| liveness_detected := false;
              liveness_score := 0;
              confidence := 0;
              method := "passive";
              indicators := None;
              reason := Some "Insufficient frames";
              error := None |}.
Proof.
  intros Hopen Hfew.
  assert (Hlen : (length (passive_frames cap) < 3)%nat).
  { destruct Hfew as [Hfew|Htwo]; [exact Hfew|].
    apply short_video_few_frames. lia. }
  unfold _passive_liveness_detection. rewrite Hopen. simpl.
  apply Nat.ltb_lt in Hlen. now rewrite Hlen.
Qed.

Lemma passive_liveness_insufficient_frames_witness :
  @_passive_liveness_detection sequential_numpy
     (numeric_cv {["selfie.mp4" := [600; 604]%float]}) "selfie.mp4"
  = Return {| liveness_detected := false;
              liveness_score := 0;
              confidence := 0;
              method := "passive";
              indicators := None;
              reason := Some "Insufficient frames";
              error := None |}.
Proof.
  apply (@passive_liveness_insufficient_frames sequential_numpy
           (numeric_cv {["selfie.mp4" := [600; 604]%float]})
           "selfie.mp4" [600; 604]%float);
    [reflexivity | right; reflexivity].
Defined.

(** C6. For every passive-liveness run with at least three sampled
    frames, the liveness score is [0.4 x motion + 0.4 x texture + 0.2 x
    blur] and the check passes exactly when the score is [>= 0.6]; when
    the optical flow of every pair of consecutive frames is computed, the
    motion score is obtained from the mean of the per-pair magnitudes,
    each divided by 10 and capped at 1.0: a mean in [0.1, 0.8] is kept, a
    mean below 0.1 is doubled, a mean above 0.8 is replaced by 0.5. *)
Theorem passive_liveness_score
        {np : NumPy} {cv : VideoCV} (video_path : Path) (cap : list frame) :
  cv2_VideoCapture video_path = Some cap ->
  (3 <= length (passive_frames cap))%nat ->
  exists r,
    _passive_liveness_detection video_path = Return r /\
    liveness_score r
    = (0.4 * _analyze_motion (passive_frames cap)
       + 0.4 * _analyze_texture (passive_frames cap)
       + 0.2 * _analyze_blur (passive_frames cap))%float /\
    (liveness_detected r = true <-> (0.6 <=? liveness_score r)%float = true) /\
    forall gray_frames magnitudes,
      for_each cv2_cvtColor_BGR2GRAY (passive_frames cap) = Return gray_frames ->
      for_each (fun '(a, b) => mean_flow_magnitude a b) (consecutive gray_frames)
        = Return magnitudes ->
      let avg_motion := np_mean (map (fun m => py_min (m / 10) 1) magnitudes) in
      ((0.1 <=? avg_motion)%float = true -> (avg_motion <=? 0.8)%float = true ->
       _analyze_motion (passive_frames cap) = avg_motion) /\
      ((avg_motion <? 0.1)%float = true ->
       _analyze_motion (passive_frames cap) = (avg_motion * 2)%float) /\
      ((0.8 <? avg_motion)%float = true ->
       _analyze_motion (passive_frames cap) = 0.5%float).
Proof.
  intros Hopen Hlen.
  unfold _passive_liveness_detection. rewrite Hopen. simpl.
  destruct (Nat.ltb_spec (length (passive_frames cap)) 3) as [Hshort|_]; [lia|].
  eexists. split; [reflexivity|]. simpl.
  rewrite (mul_comm (_analyze_motion _) 0.4), (mul_comm (_analyze_texture _) 0.4),
          (mul_comm (_analyze_blur _) 0.2).
  split; [reflexivity|]. split; [unfold geb; tauto|].
  intros gray_frames magnitudes Hgray Hflow.
  assert (Htwo : (2 <= length (passive_frames cap))%nat) by lia.
  rewrite (analyze_motion_formula _ _ _ Htwo Hgray Hflow).
  apply motion_band_cases.
Qed.

Lemma passive_liveness_score_witness :
  exists r,
    @_passive_liveness_detection sequential_numpy
      (numeric_cv {["selfie.mp4" := [600; 0; 604; 0; 609]%float]}) "selfie.mp4"
    = Return r /\
    liveness_score r = (0.4 * 0.45 + 0.4 * 1 + 0.2 * 0.8)%float /\
    liveness_detected r = true.
Proof.
  destruct (@passive_liveness_score sequential_numpy
              (numeric_cv {["selfie.mp4" := [600; 0; 604; 0; 609]%float]})
              "selfie.mp4" [600; 0; 604; 0; 609]%float)
    as (r & Hrun & Hscore & Hpass & _).
  - reflexivity.
  - simpl. lia.
  - exists r. split; [exact Hrun|]. split.
    + rewrite Hscore. vm_compute. reflexivity.
    + apply Hpass. rewrite Hscore. vm_compute. reflexivity.
Defined.

End LivenessFacts.

(** ** The orchestrator and its decision table *)

Module VerificationFacts.
Import PyFloat PyFloatFacts Exc VerificationService.

(** *** The wrappers around the three services never raise *)

Section Wrappers.
Context {env : Env}.

Lemma try_catch_total {A} (body : M A) (handler : string -> M A) :
  (forall msg, total (handler msg)) -> total (try_catch body handler).
Proof.
  intros H w. unfold try_catch.
  destruct (body w) as [w' [a|msg]]; [now exists w', a | apply H].
Qed.

Lemma mret_total {A} (a : A) : total (mret a : M A).
Proof. intros w. now exists w, a. Qed.

Lemma process_document_total id_path : total (_process_document id_path).
Proof. apply try_catch_total. intros msg. apply mret_total. Qed.

Lemma process_face_verification_total id_path selfie_path :
  total (_process_face_verification id_path selfie_path).
Proof. apply try_catch_total. intros msg. apply mret_total. Qed.

Lemma process_liveness_detection_total selfie_path :
  total (_process_liveness_detection selfie_path).
Proof. apply try_catch_total. intros msg. apply mret_total. Qed.

(** The body of [process_verification] can only be interrupted while
    the uploads are being saved. *)
Lemma body_raises_in_save settings session_id id_document selfie_video w w' msg :
  process_verification_body settings session_id id_document selfie_video w
    = (w', Raise msg) ->
  _save_uploaded_files session_id id_document selfie_video w = (w', Raise msg).
Proof.
  unfold process_verification_body, mbind, St_bind.
  destruct (_save_uploaded_files session_id id_document selfie_video w)
    as [w1 [[id_path selfie_path]|msg1]]; simpl; [|now intros [= -> ->]].
  destruct (process_document_total id_path w1) as (w2 & d & ->).
  destruct (process_face_verification_total id_path selfie_path w2) as (w3 & f & ->).
  destruct (process_liveness_detection_total selfie_path w3) as (w4 & l & ->).
  unfold mret, St_ret. discriminate.
Qed.

End Wrappers.

(** *** The decision table *)

Lemma taken_unique settings d f l b1 b2 :
  taken settings d f l b1 -> taken settings d f l b2 -> b1 = b2.
Proof.
  intros [G1 L1] [G2 L2].
  destruct (lt_eq_lt_dec (rank b1) (rank b2)) as [[Hlt|Heq]|Hgt].
  - rewrite (L2 b1 Hlt) in G1. discriminate.
  - destruct b1, b2; simpl in Heq; congruence.
  - rewrite (L1 b2 Hgt) in G2. discriminate.
Qed.

Lemma outcome_inj b1 b2 : outcome b1 = outcome b2 -> b1 = b2.
Proof. destruct b1, b2; simpl; congruence. Qed.

Ltac earlier_guards :=
  let b := fresh "b" in
  let H := fresh "H" in
  intros b H; destruct b; simpl in H; try lia; simpl; auto with bool.

(** C1. For every document, face and liveness signal and every pair of
    thresholds, [_aggregate_results] produces exactly one of the six
    outcomes of the table, the one of the first branch, in the fixed order
    document, face-detected, liveness, face-match, verified, manual
    review, whose condition holds: some branch is taken and the decision
    and its reason are the outcome of that branch; no two branches are
    taken together; and the six outcomes are pairwise distinct. *)
Theorem aggregate_results_decision_table
        (settings : Settings) (d : Doc.t) (f : Face.t) (l : Live.t) :
  (exists b, taken settings d f l b /\
             Final.status (_aggregate_results settings d f l) = completed /\
             Final.decision (_aggregate_results settings d f l) = (outcome b).1 /\
             Final.decision_reason (_aggregate_results settings d f l)
               = Some (outcome b).2) /\
  (forall b1 b2, taken settings d f l b1 -> taken settings d f l b2 -> b1 = b2) /\
  (forall b1 b2, outcome b1 = outcome b2 -> b1 = b2).
Proof.
  split; [|split; [apply taken_unique | apply outcome_inj]].
  unfold _aggregate_results, decision_logic, taken, geb.
  destruct (Doc.document_valid d) eqn:Hd; simpl.
  2: { exists B1. simpl. rewrite Hd. repeat split. earlier_guards. }
  destruct (Face.face_detected f) eqn:Hf; simpl.
  2: { exists B2. simpl. rewrite Hf. repeat split. earlier_guards.
       now rewrite Hd. }
  destruct (Live.liveness_detected l) eqn:Hl; simpl.
  2: { exists B3. simpl. rewrite Hl. repeat split. earlier_guards.
       - now rewrite Hd.
       - now rewrite Hf. }
  destruct (Face.face_match_score f <? FACE_MODEL_THRESHOLD settings)%float eqn:H4.
  { exists B4. simpl. rewrite H4. repeat split. earlier_guards.
    - now rewrite Hd.
    - now rewrite Hf.
    - now rewrite Hl. }
  destruct ((0.8 <=? Face.face_match_score f)%float
            && (LIVENESS_CONFIDENCE_THRESHOLD settings <=? Live.liveness_score l)%float
            && (0.7 <=? Doc.confidence d)%float) eqn:H5.
  { exists B5. simpl. rewrite H5. repeat split. earlier_guards.
    - now rewrite Hd.
    - now rewrite Hf.
    - now rewrite Hl. }
  exists B6. simpl. repeat split. earlier_guards.
  - now rewrite Hd.
  - now rewrite Hf.
  - now rewrite Hl.
Qed.

(** The three scenarios of the specification. *)
Example scenario_A :
  decision_logic default_settings false 0.99 true 0.99 true 0.99
  = (rejected, "Invalid document").
Proof. reflexivity. Qed.

Example scenario_B :
  decision_logic default_settings true 0.9 true 0.75 true 0.95
  = (manual_review, "Requires manual review").
Proof. reflexivity. Qed.

Example scenario_C :
  decision_logic default_settings true 0.75 true 0.85 true 0.92
  = (verified, "All checks passed").
Proof. reflexivity. Qed.

(** A run in which every service answers ends [verified]. *)
Example healthy_run_is_verified :
  exists w r,
    @process_verification (scripted_env healthy) default_settings "s1"
      {| filename := "id.png"; handle := 0 |}
      {| filename := "selfie.mp4"; handle := 1 |} []
    = (w, Return r) /\
    Final.status r = completed /\
    Final.decision r = verified /\
    Final.decision_reason r = Some "All checks passed".
Proof. do 2 eexists. split; [vm_compute; reflexivity|]. auto. Qed.

(** *** Boundaries of the table *)

(** C2, as stated, fails: with a face threshold of 0.9 the scores
    [0.8], [livenessConfidence] and [0.7] pass the first three checks
    and are rejected by the fourth, so the fifth branch is not reached. *)
Lemma boundary_verified_counterexample :
  ~ (forall settings d f l,
        Doc.document_valid d = true ->
        Face.face_detected f = true ->
        Live.liveness_detected l = true ->
        (Face.face_match_score f =? 0.8)%float = true ->
        (Live.liveness_score l =? LIVENESS_CONFIDENCE_THRESHOLD settings)%float = true ->
        (Doc.confidence d =? 0.7)%float = true ->
        Final.decision (_aggregate_results settings d f l) = verified).
Proof.
  intros H.
  specialize (H {| FACE_MODEL_THRESHOLD := 0.9; LIVENESS_CONFIDENCE_THRESHOLD := 0.9 |}
                (signals 0.7 0.8 0.9).1.1 (signals 0.7 0.8 0.9).1.2
                (signals 0.7 0.8 0.9).2).
  vm_compute in H. specialize (H eq_refl eq_refl eq_refl eq_refl eq_refl eq_refl).
  discriminate.
Qed.

(** C2 (amended). With a valid document, a detected face and a passed
    liveness check: a face score equal to the face threshold is not
    rejected (the fourth branch compares with a strict [<]); and a face
    score equal to [0.8], a liveness score equal to the liveness
    threshold and a document confidence equal to [0.7] are verified with
    the reason ["All checks passed"], provided the face threshold is not
    above [0.8]. *)
Theorem decision_boundaries (settings : Settings) (d : Doc.t) (f : Face.t) (l : Live.t) :
  Doc.document_valid d = true ->
  Face.face_detected f = true ->
  Live.liveness_detected l = true ->
  ((Face.face_match_score f =? FACE_MODEL_THRESHOLD settings)%float = true ->
   Final.decision (_aggregate_results settings d f l) <> rejected /\
   Final.decision_reason (_aggregate_results settings d f l)
     <> Some "Face match insufficient") /\
  ((Face.face_match_score f =? 0.8)%float = true ->
   (Live.liveness_score l =? LIVENESS_CONFIDENCE_THRESHOLD settings)%float = true ->
   (Doc.confidence d =? 0.7)%float = true ->
   (0.8 <? FACE_MODEL_THRESHOLD settings)%float = false ->
   Final.decision (_aggregate_results settings d f l) = verified /\
   Final.decision_reason (_aggregate_results settings d f l)
     = Some "All checks passed").
Proof.
  intros Hd Hf Hl. unfold _aggregate_results, decision_logic. rewrite Hd, Hf, Hl. simpl.
  split.
  - intros Heq. rewrite (eqb_ltb_false _ _ Heq).
    destruct (geb _ _ && geb _ _ && geb _ _); simpl; split; congruence.
  - intros Hs Hv Hc Hthr.
    rewrite (eqb_ltb_l _ _ _ Hs), Hthr.
    rewrite (eqb_geb _ _ Hs), (eqb_geb _ _ Hv), (eqb_geb _ _ Hc). simpl.
    split; reflexivity.
Qed.

Lemma decision_boundaries_witness :
  Final.decision
    (_aggregate_results default_settings (signals 0.7 0.8 0.9).1.1
                        (signals 0.7 0.8 0.9).1.2 (signals 0.7 0.8 0.9).2)
  = verified /\
  Final.decision
    (_aggregate_results default_settings (signals 0.9 0.6 0.95).1.1
                        (signals 0.9 0.6 0.95).1.2 (signals 0.9 0.6 0.95).2)
  <> rejected.
Proof.
  split.
  - apply (decision_boundaries default_settings (signals 0.7 0.8 0.9).1.1
             (signals 0.7 0.8 0.9).1.2 (signals 0.7 0.8 0.9).2);
      reflexivity.
  - apply (decision_boundaries default_settings (signals 0.9 0.6 0.95).1.1
             (signals 0.9 0.6 0.95).1.2 (signals 0.9 0.6 0.95).2);
      reflexivity.
Defined.

(** *** Faults while the uploads are saved *)

(** C4, as stated, fails: when the disk is full the result is
    [failed] and [rejected], but it has no [decision_reason], and its
    [error] is the bare text of the exception, without a
    ["processing_error: "] prefix. *)
Lemma processing_error_reason_counterexample :
  ~ (forall (env : Env) settings session_id id_document selfie_video w w' msg,
        process_verification_body settings session_id id_document selfie_video w
          = (w', Raise msg) ->
        exists w'' r detail,
          process_verification settings session_id id_document selfie_video w
            = (w'', Return r) /\
          Final.status r = failed /\ Final.decision r = rejected /\
          (Final.decision_reason r = Some ("processing_error: " +:+ detail) \/
           Final.error r = Some ("processing_error: " +:+ detail))).
Proof.
  intros H.
  destruct (H (scripted_env full_disk) default_settings "s1"
              {| filename := "id.png"; handle := 0 |}
              {| filename := "selfie.mp4"; handle := 1 |}
              [] ["mkdir uploads/verifications/s1";
                  "open uploads/verifications/s1/id_id.png"]
              "No space left on device" eq_refl)
    as (w'' & r & detail & Hrun & _ & _ & Hreason).
  vm_compute in Hrun. injection Hrun as _ <-. simpl in Hreason.
  destruct Hreason as [Hreason|Hreason]; discriminate.
Qed.

(** C4 (amended). [process_verification] never propagates an
    exception.  Its body can only be interrupted while the uploads are
    being saved (the three extraction steps catch their own faults), and
    then the result has status [failed], decision [rejected], the text
    of the exception under [error], and no [decision_reason]. *)
Theorem process_verification_reports_failure
        {env : Env} (settings : Settings) (session_id : string)
        (id_document selfie_video : UploadFile) (w : World) :
  (exists w' r,
      process_verification settings session_id id_document selfie_video w
        = (w', Return r)) /\
  (forall w' msg,
      process_verification_body settings session_id id_document selfie_video w
        = (w', Raise msg) ->
      _save_uploaded_files session_id id_document selfie_video w = (w', Raise msg) /\
      exists r,
        process_verification settings session_id id_document selfie_video w
          = (w', Return r) /\
        Final.status r = failed /\ Final.decision r = rejected /\
        Final.error r = Some msg /\ Final.decision_reason r = None).
Proof.
  split.
  - apply try_catch_total. intros msg. apply mret_total.
  - intros w' msg Hbody. split; [now apply body_raises_in_save in Hbody|].
    unfold process_verification, try_catch. rewrite Hbody.
    eexists. split; [reflexivity|]. simpl. auto.
Qed.

Lemma process_verification_reports_failure_witness :
  exists r,
    @process_verification (scripted_env full_disk) default_settings "s1"
      {| filename := "id.png"; handle := 0 |}
      {| filename := "selfie.mp4"; handle := 1 |} []
    = (["mkdir uploads/verifications/s1";
        "open uploads/verifications/s1/id_id.png"], Return r) /\
    Final.status r = failed /\ Final.decision r = rejected /\
    Final.error r = Some "No space left on device" /\
    Final.decision_reason r = None.
Proof.
  apply (@process_verification_reports_failure (scripted_env full_disk)
           default_settings "s1" {| filename := "id.png"; handle := 0 |}
           {| filename := "selfie.mp4"; handle := 1 |} []).
  reflexivity.
Defined.

(** *** A document face without a selfie face *)

(** C10. When a face is found in the document image and none in the
    selfie video, the face step reports [face_detected = True] with a
    match score of [0.0] and the confidence of the document face; so
    with a valid document, a passed liveness check and a face threshold
    above zero the decision is [rejected] for ["Face match insufficient"],
    not for ["No face detected"]. *)
Theorem selfie_without_face_is_insufficient_match
        {env : Env} (settings : Settings) (id_path selfie_path : Path)
        (w w1 w2 : World) (doc_face selfie_face : FaceService.FaceExtraction) :
  face_service_extract_face_from_document id_path w = (w1, Return doc_face) ->
  FaceService.face_detected doc_face = true ->
  face_service_extract_face_from_selfie selfie_path w1 = (w2, Return selfie_face) ->
  FaceService.face_detected selfie_face = false ->
  exists face_result,
    _process_face_verification id_path selfie_path w = (w2, Return face_result) /\
    Face.face_detected face_result = true /\
    Face.face_match_score face_result = 0%float /\
    Face.confidence face_result = FaceService.confidence doc_face /\
    forall d l,
      Doc.document_valid d = true ->
      Live.liveness_detected l = true ->
      (0 <? FACE_MODEL_THRESHOLD settings)%float = true ->
      Final.decision (_aggregate_results settings d face_result l) = rejected /\
      Final.decision_reason (_aggregate_results settings d face_result l)
        = Some "Face match insufficient" /\
      Final.decision_reason (_aggregate_results settings d face_result l)
        <> Some "No face detected".
Proof.
  intros Hdoc Hdet Hselfie Hnone.
  unfold _process_face_verification, try_catch, mbind, St_bind.
  rewrite Hdoc, Hdet. simpl. rewrite Hselfie, Hnone. simpl.
  eexists. split; [reflexivity|]. simpl.
  do 3 (split; [reflexivity|]).
  intros d l Hvalid Hlive Hthreshold.
  unfold _aggregate_results, decision_logic. simpl.
  rewrite Hvalid, Hlive, Hthreshold. simpl.
  repeat split; congruence.
Qed.

Lemma selfie_without_face_is_insufficient_match_witness :
  exists face_result,
    @_process_face_verification (scripted_env faceless_selfie) "id.png" "selfie.mp4" []
      = ([], Return face_result) /\
    Final.decision
      (_aggregate_results default_settings (signals 0.9 0.9 0.95).1.1 face_result
                          (signals 0.9 0.9 0.95).2)
    = rejected.
Proof.
  destruct (@selfie_without_face_is_insufficient_match (scripted_env faceless_selfie)
              default_settings "id.png" "selfie.mp4" [] [] []
              {| FaceService.face_detected := true;
                 FaceService.confidence := 0.97;
                 FaceService.embedding := Some [0.6; 0.8]%float;
                 FaceService.error := None |}
              {| FaceService.face_detected := false;
                 FaceService.confidence := 0;
                 FaceService.embedding := None;
                 FaceService.error := Some "No faces detected in video" |}
              eq_refl eq_refl eq_refl eq_refl)
    as (face_result & Hrun & _ & _ & _ & Hdecide).
  exists face_result. split; [exact Hrun|].
  apply (Hdecide (signals 0.9 0.9 0.95).1.1 (signals 0.9 0.9 0.95).2);
    reflexivity.
Defined.

End VerificationFacts.

(** ** Frame sampling and [np.argmax] *)

Module SamplingFacts.
Import PyFloat PyFloatFacts Exc Sampling.

Lemma mod_shift (r q step : nat) :
  (r < step)%nat -> ((r + q * step) mod step = r)%nat.
Proof. intros Hr. rewrite Nat.Div0.mod_add. now apply Nat.mod_small. Qed.

Lemma every_nth_from_length {A} (step i : nat) (l : list A) :
  (0 < step)%nat ->
  (step * length (every_nth_from step i l) <= length l + (i + step - 1) mod step)%nat.
Proof.
  intros Hstep. revert i. induction l as [|x l IH]; intros i; simpl.
  - lia.
  - specialize (IH (S i)).
    pose proof (Nat.mod_upper_bound i step ltac:(lia)) as Hi.
    assert (Ei : (i = i mod step + i / step * step)%nat).
    { rewrite (Nat.div_mod_eq i step) at 1. lia. }
    remember (i / step)%nat as q. remember (i mod step)%nat as r.
    assert (Eq : ((q + 1) * step = q * step + step)%nat) by lia.
    destruct (Nat.eqb_spec r 0) as [Hz|Hnz]; simpl.
    + assert (E1 : ((S i + step - 1) mod step = 0)%nat).
      { replace (S i + step - 1)%nat with (0 + (q + 1) * step)%nat by lia.
        apply mod_shift. lia. }
      assert (E2 : ((i + step - 1) mod step = step - 1)%nat).
      { replace (i + step - 1)%nat with ((step - 1) + q * step)%nat by lia.
        apply mod_shift. lia. }
      rewrite E1 in IH. rewrite E2. lia.
    + assert (E1 : ((S i + step - 1) mod step = r)%nat).
      { replace (S i + step - 1)%nat with (r + (q + 1) * step)%nat by lia.
        apply mod_shift. lia. }
      assert (E2 : ((i + step - 1) mod step = r - 1)%nat).
      { replace (i + step - 1)%nat with ((r - 1) + (q + 1) * step)%nat by lia.
        apply mod_shift. lia. }
      rewrite E1 in IH. rewrite E2. lia.
Qed.

Lemma sampled_length {A} (max_frames step : nat) (cap : list A) :
  (0 < step)%nat ->
  (step * length (sampled max_frames step cap) <= max_frames + step - 1)%nat.
Proof.
  intros Hstep. unfold sampled.
  pose proof (every_nth_from_length step 0 (take max_frames cap) Hstep) as H.
  rewrite length_take in H.
  replace (0 + step - 1)%nat with (step - 1)%nat in H by lia.
  rewrite Nat.mod_small in H by lia. lia.
Qed.

Lemma every_nth_from_subset {A} (step i : nat) (l : list A) (x : A) :
  x ∈ every_nth_from step i l -> x ∈ l.
Proof.
  revert i. induction l as [|y l IH]; intros i; simpl; [trivial|].
  destruct (i mod step =? 0)%nat.
  - intros [->|H]%elem_of_cons; [left | right; eauto].
  - intros H. right. eauto.
Qed.

(** *** Floats that are not NaN are totally ordered *)

Lemma is_nan_false x : not_nan x -> PrimFloat.is_nan x = false.
Proof. unfold not_nan, PrimFloat.is_nan. now intros ->. Qed.

Lemma SFcompare_total (a b : spec_float) :
  SFcompare a a = Some Eq -> SFcompare b b = Some Eq ->
  exists c, SFcompare a b = Some c.
Proof.
  destruct a as [[]|[]| |[] ma ea], b as [[]|[]| |[] mb eb]; simpl;
    try discriminate; eauto.
Qed.

Lemma not_leb_leb x y : not_nan x -> not_nan y -> (x <=? y)%float = false -> (y <=? x)%float = true.
Proof.
  unfold not_nan. rewrite !eqb_cmp, !leb_cmp. intros Hx Hy.
  destruct (cmp x x) as [[]|] eqn:Ex; try discriminate.
  destruct (cmp y y) as [[]|] eqn:Ey; try discriminate.
  destruct (SFcompare_total _ _ Ex Ey) as [c Hc]. fold (cmp x y) in Hc.
  rewrite (cmp_antisym x y), Hc. destruct c; simpl; congruence.
Qed.

Lemma leb_refl x : not_nan x -> (x <=? x)%float = true.
Proof. apply eqb_leb. Qed.

(** *** [np.argmax] returns the position of a greatest element *)

Lemma argmax_from_greatest (pre l : list float) (mp : float) (max_ind : nat) :
  Forall not_nan (pre ++ l) ->
  (pre ++ l) !! max_ind = Some mp ->
  Forall (fun x => (x <=? mp)%float = true) pre ->
  exists m, (pre ++ l) !! argmax_from l (length pre) mp max_ind = Some m /\
            Forall (fun x => (x <=? m)%float = true) (pre ++ l).
Proof.
  revert pre mp max_ind. induction l as [|x l IH]; intros pre mp max_ind Hnan Hmp Hpre.
  - simpl. exists mp. split; [exact Hmp|]. now rewrite app_nil_r.
  - simpl.
    assert (Hx : not_nan x).
    { rewrite Forall_app, Forall_cons in Hnan. tauto. }
    assert (Hmpn : not_nan mp).
    { rewrite Forall_forall in Hnan. apply Hnan.
      eapply list_elem_of_lookup_2, Hmp. }
    specialize (IH (pre ++ [x])).
    rewrite <- !app_assoc in IH. simpl in IH.
    rewrite length_app in IH. simpl in IH.
    replace (length pre + 1)%nat with (S (length pre)) in IH by lia.
    destruct (x <=? mp)%float eqn:Hle; simpl.
    + apply IH; [exact Hnan | exact Hmp|].
      rewrite Forall_app, Forall_singleton. tauto.
    + rewrite (is_nan_false x Hx).
      apply IH; [exact Hnan | |].
      * rewrite lookup_app_r by lia. now rewrite Nat.sub_diag.
      * pose proof (not_leb_leb x mp Hx Hmpn Hle) as Hge.
        rewrite Forall_app, Forall_singleton. split; [|now apply leb_refl].
        eapply Forall_impl; [exact Hpre|]. simpl. intros y Hy.
        now apply (leb_trans y mp x).
Qed.

Lemma np_argmax_greatest (l : list float) :
  l <> [] -> Forall not_nan l ->
  exists i m, np_argmax l = Return i /\ l !! i = Some m /\
              Forall (fun x => (x <=? m)%float = true) l.
Proof.
  destruct l as [|x l]; [congruence|]. intros _ Hnan. simpl.
  assert (Hx : not_nan x) by (now inversion Hnan).
  rewrite (is_nan_false x Hx).
  destruct (argmax_from_greatest [x] l x 0 Hnan eq_refl) as (m & Hm & Hall).
  { apply Forall_singleton. now apply leb_refl. }
  exists (argmax_from l 1 x 0), m. auto.
Qed.

End SamplingFacts.

(** ** Face detection and embedding *)

Module FaceExtractionFacts.
Import PyFloat PyFloatFacts Exc ExcFacts FaceService Sampling SamplingFacts FaceExtraction.

Section Extraction.
Context {cv : FaceCV}.

(** The loop converts and examines the frames at positions 0, 3, 6, ...
    below 30, in order, and nothing else. *)
Lemma selfie_loop_sampled FACENET_AVAILABLE self cap frame_count found :
  selfie_loop FACENET_AVAILABLE self cap frame_count found
  = (rgbs ← for_each cv2_cvtColor_BGR2RGB
              (every_nth_from 3 frame_count (take (30 - frame_count) cap));
     Return (found ++ omap (found_in FACENET_AVAILABLE self) rgbs)).
Proof.
  revert frame_count found.
  induction cap as [|frame cap IH]; intros frame_count found.
  - simpl. rewrite take_nil. simpl. now rewrite app_nil_r.
  - cbn [selfie_loop].
    destruct (Nat.ltb_spec frame_count 30) as [Hlt|Hge].
    + assert (E : (30 - frame_count = S (30 - S frame_count))%nat)
        by (clear IH; lia).
      rewrite E.
      rewrite firstn_cons. cbn [every_nth_from].
      destruct (frame_count mod 3 =? 0)%nat.
      * cbn [for_each].
        destruct (cv2_cvtColor_BGR2RGB frame) as [frame_rgb|msg];
          [|reflexivity].
        cbn [mbind exc_bind]. rewrite IH. unfold found_in at 2.
        destruct (for_each _ _) as [rgbs|msg]; [|reflexivity].
        cbn [mbind exc_bind omap list_omap].
        destruct (face_detected (extract FACENET_AVAILABLE self frame_rgb));
          [now rewrite <- app_assoc | reflexivity].
      * apply IH.
    + assert (E : (30 - frame_count = 0)%nat) by (clear IH; lia).
      rewrite E.
      simpl. now rewrite app_nil_r.
Qed.

Lemma omap_length_le {A B} (f : A -> option B) (l : list A) :
  (length (omap f l) <= length l)%nat.
Proof.
  induction l as [|a l IH]; csimpl; [lia|]. destruct (f a); csimpl; lia.
Qed.

Lemma selfie_loop_found FACENET_AVAILABLE self cap found :
  selfie_loop FACENET_AVAILABLE self cap 0 [] = Return found ->
  exists rgbs,
    for_each cv2_cvtColor_BGR2RGB (sampled 30 3 cap) = Return rgbs /\
    found = omap (found_in FACENET_AVAILABLE self) rgbs.
Proof.
  rewrite selfie_loop_sampled. unfold sampled. simpl.
  destruct (for_each _ _) as [rgbs|msg]; simpl; [|discriminate].
  intros [= <-]. now exists rgbs.
Qed.

Lemma max_by_greatest {A} (key : A -> Z) (best : A) (l : list A) :
  max_by key best l ∈ best :: l /\
  forall x, x ∈ best :: l -> (key x <= key (max_by key best l))%Z.
Proof.
  revert best. induction l as [|y l IH]; intros best; simpl.
  - split; [left|]. intros x ->%list_elem_of_singleton. lia.
  - destruct (Z.ltb_spec (key best) (key y)) as [Hlt|Hge].
    + destruct (IH y) as [Hin Hmax]. split; [now right|].
      intros x [->|Hx]%elem_of_cons; [|now apply Hmax].
      specialize (Hmax y ltac:(left)). lia.
    + destruct (IH best) as [Hin Hmax]. split.
      * apply elem_of_cons in Hin as [->|Hin]; [left | right; now right].
      * intros x [->|[->|Hx]%elem_of_cons]%elem_of_cons.
        -- apply Hmax. left.
        -- specialize (Hmax best ltac:(left)). lia.
        -- apply Hmax. now right.
Qed.

(** With a model missing, every frame goes to the Haar cascade, which
    [__init__] did not create. *)
Lemma extract_without_models (self : FaceServiceObject) (image_rgb : image) :
  mtcnn self = None \/ resnet self = None ->
  face_cascade self = None ->
  face_detected (extract true self image_rgb) = false /\
  forall gray, cv2_cvtColor_RGB2GRAY image_rgb = Return gray ->
               extract true self image_rgb
               = no_face (Some "'FaceService' object has no attribute 'face_cascade'").
Proof.
  intros Hmodel Hcascade. unfold extract.
  assert (Hdispatch : true && bool_decide (is_Some (mtcnn self))
                      && bool_decide (is_Some (resnet self)) = false).
  { destruct Hmodel as [-> | ->]; simpl.
    - reflexivity.
    - now rewrite Bool.andb_false_r. }
  rewrite Hdispatch. unfold _extract_with_opencv. rewrite Hcascade.
  destruct (cv2_cvtColor_RGB2GRAY image_rgb) as [gray|msg]; simpl.
  - split; [reflexivity|]. intros g _. reflexivity.
  - split; [reflexivity|]. discriminate.
Qed.

Lemma init_without_models :
  (exists msg, new_MTCNN = Raise msg) \/ (exists msg, new_InceptionResnetV1 = Raise msg) ->
  (mtcnn (init true) = None \/ resnet (init true) = None) /\
  face_cascade (init true) = None.
Proof.
  unfold init, _load_models. intros [[msg Hm]|[msg Hr]].
  - rewrite Hm. simpl. auto.
  - rewrite Hr. destruct new_MTCNN; simpl; auto.
Qed.

Lemma omap_none {A B} (f : A -> option B) (l : list A) :
  (forall a, f a = None) -> omap f l = [].
Proof.
  intros Hf. induction l as [|a l IH]; csimpl; [reflexivity|]. now rewrite Hf.
Qed.

End Extraction.

(** X1. The selfie extractor looks at the frames 0, 3, 6, ..., 27 of
    the video and at no other: the faces it collects are those found, in
    order, in the converted frames of that sample, so at most ten frames
    are examined and at most ten faces collected, however long the video
    is. *)
Theorem selfie_examines_ten_frames
        {cv : FaceCV} (FACENET_AVAILABLE : bool) (self : FaceServiceObject)
        (cap : list image) (found : list (option (list float) * float)) :
  selfie_loop FACENET_AVAILABLE self cap 0 [] = Return found ->
  exists rgbs,
    for_each cv2_cvtColor_BGR2RGB (sampled 30 3 cap) = Return rgbs /\
    found = omap (found_in FACENET_AVAILABLE self) rgbs /\
    (length rgbs <= 10)%nat /\ (length found <= 10)%nat.
Proof.
  intros Hloop.
  destruct (selfie_loop_found _ _ _ _ Hloop) as (rgbs & Hrgbs & ->).
  exists rgbs. split; [exact Hrgbs|]. split; [reflexivity|].
  assert (Hlen : (length rgbs <= 10)%nat).
  { rewrite (for_each_length _ _ _ Hrgbs).
    pose proof (sampled_length 30 3 cap ltac:(lia)). lia. }
  split; [exact Hlen|].
  pose proof (omap_length_le (found_in FACENET_AVAILABLE self) rgbs). lia.
Qed.

Lemma selfie_examines_ten_frames_witness :
  exists rgbs,
    length rgbs = 10%nat /\
    @selfie_loop toy_world false (@init toy_world false)
                 (replicate 40 [toy_face 30 40 900]) 0 []
    = Return (omap (@found_in toy_world false (@init toy_world false)) rgbs).
Proof.
  destruct (@selfie_examines_ten_frames toy_world false (@init toy_world false)
              (replicate 40 [toy_face 30 40 900])
              (replicate 10 (Some [30; 40; 1]%float, 0.5%float)))
    as (rgbs & Hrgbs & Hfound & _).
  - vm_compute. reflexivity.
  - exists rgbs. split.
    + vm_compute in Hrgbs. injection Hrgbs as <-. reflexivity.
    + rewrite <- Hfound. vm_compute. reflexivity.
Defined.

(** X2. When the selfie video opens and its sampled frames convert, the
    extractor reports a face exactly when one was found in a sampled
    frame; without any it returns the note ["No faces detected in video"];
    otherwise the embedding and confidence it reports belong to one and
    the same sampled frame, and no face found has a higher confidence. *)
Theorem selfie_reports_best_face
        {cv : FaceCV} (FACENET_AVAILABLE : bool) (self : FaceServiceObject)
        (video_path : Path) (cap : list image)
        (found : list (option (list float) * float)) :
  cv2_VideoCapture video_path = Some cap ->
  selfie_loop FACENET_AVAILABLE self cap 0 [] = Return found ->
  Forall not_nan (found.*2) ->
  (found = [] ->
   extract_face_from_selfie FACENET_AVAILABLE self video_path
   = no_face (Some "No faces detected in video")) /\
  (found <> [] ->
   face_detected (extract_face_from_selfie FACENET_AVAILABLE self video_path) = true /\
   (embedding (extract_face_from_selfie FACENET_AVAILABLE self video_path),
    confidence (extract_face_from_selfie FACENET_AVAILABLE self video_path)) ∈ found /\
   Forall (fun entry =>
             (entry.2 <=? confidence
                (extract_face_from_selfie FACENET_AVAILABLE self video_path))%float
             = true) found).
Proof.
  intros Hopen Hloop Hnan. unfold extract_face_from_selfie.
  rewrite Hopen. cbn [mbind exc_bind]. rewrite Hloop. cbn [mbind exc_bind].
  split.
  - now intros ->.
  - intros Hne.
    destruct (np_argmax_greatest (found.*2)) as (i & m & Harg & Hlook & Hall).
    { destruct found; [congruence | discriminate]. }
    { exact Hnan. }
    destruct found as [|entry found']; [congruence|].
    rewrite Harg. cbn [mbind exc_bind].
    rewrite list_lookup_fmap in Hlook.
    destruct ((entry :: found') !! i) as [[e c]|] eqn:Hi; [|discriminate].
    simpl in Hlook. injection Hlook as ->. simpl.
    split; [reflexivity|]. split.
    + eapply list_elem_of_lookup_2, Hi.
    + now rewrite Forall_fmap in Hall.
Qed.

Lemma selfie_reports_best_face_witness :
  Forall (fun entry =>
            (entry.2 <=? confidence
               (@extract_face_from_selfie toy_world true (@init toy_world true)
                  "selfie.mp4"))%float = true)
         [(Some [30; 40]%float, (700 / 1000)%float);
          (Some [31; 41]%float, (990 / 1000)%float)].
Proof.
  destruct (@selfie_reports_best_face toy_world true (@init toy_world true)
              "selfie.mp4" toy_selfie
              [(Some [30; 40]%float, (700 / 1000)%float);
               (Some [31; 41]%float, (990 / 1000)%float)])
    as [_ Hbest].
  - reflexivity.
  - vm_compute. reflexivity.
  - repeat constructor.
  - destruct Hbest as (_ & _ & Hmax); [discriminate|]. exact Hmax.
Defined.

(** X3. When FaceNet can be imported but one of its two models fails to
    load, [__init__] leaves the service without models and without the
    Haar cascade: from then on no document image and no selfie video
    yields a face, and a frame that converts to grey is answered with the
    note that the object has no attribute [face_cascade]. *)
Theorem models_failing_to_load_disable_detection {cv : FaceCV} :
  (exists msg, new_MTCNN = Raise msg) \/ (exists msg, new_InceptionResnetV1 = Raise msg) ->
  (forall image_path,
      face_detected (extract_face_from_document true (init true) image_path) = false) /\
  (forall video_path,
      face_detected (extract_face_from_selfie true (init true) video_path) = false) /\
  (forall image_rgb gray,
      cv2_cvtColor_RGB2GRAY image_rgb = Return gray ->
      extract true (init true) image_rgb
      = no_face (Some "'FaceService' object has no attribute 'face_cascade'")).
Proof.
  intros Hload. destruct (init_without_models Hload) as [Hmodel Hcascade].
  split; [|split].
  - intros image_path. unfold extract_face_from_document.
    destruct (cv2_imread image_path) as [img|]; [|reflexivity].
    cbn [mbind exc_bind].
    destruct (cv2_cvtColor_BGR2RGB img) as [rgb|]; [|reflexivity].
    cbn [mbind exc_bind]. now apply extract_without_models.
  - intros video_path. unfold extract_face_from_selfie.
    destruct (cv2_VideoCapture video_path) as [cap|]; [|reflexivity].
    cbn [mbind exc_bind]. rewrite selfie_loop_sampled.
    destruct (for_each _ _) as [rgbs|]; [|reflexivity].
    cbn [mbind exc_bind]. rewrite omap_none; [reflexivity|].
    intros rgb. unfold found_in.
    now rewrite (proj1 (extract_without_models _ rgb Hmodel Hcascade)).
  - intros image_rgb gray Hgray.
    exact (proj2 (extract_without_models _ image_rgb Hmodel Hcascade) gray Hgray).
Qed.

Lemma models_failing_to_load_disable_detection_witness :
  @extract_face_from_document broken_world true (@init broken_world true) "id.png"
  = no_face (Some "'FaceService' object has no attribute 'face_cascade'").
Proof.
  destruct (@models_failing_to_load_disable_detection broken_world)
    as (_ & _ & Hnote).
  - right. eexists. reflexivity.
  - exact (Hnote toy_document toy_document eq_refl).
Defined.

(** X4. In the OpenCV fallback, when the cascade finds faces, the
    embedding is computed from one of the boxes found, and no box found
    has a greater area [w * h] (computed on 32-bit integers) than the one
    chosen; the confidence reported is the constant [0.5]. *)
Theorem opencv_picks_largest_face
        {cv : FaceCV} (self : FaceServiceObject) (image_rgb gray : image)
        (cascade : CascadeClassifier) (faces : list Box) :
  cv2_cvtColor_RGB2GRAY image_rgb = Return gray ->
  face_cascade self = Some cascade ->
  detectMultiScale cascade gray = Return faces ->
  faces <> [] ->
  exists largest,
    largest ∈ faces /\
    (forall b, b ∈ faces -> (area b <= area largest)%Z) /\
    _extract_with_opencv self image_rgb
    = match roi_embedding image_rgb largest with
      | Return embedding =>
          {| face_detected := true; confidence := 0.5;
             embedding := Some embedding; error := None |}
      | Raise msg => no_face (Some msg)
      end.
Proof.
  intros Hgray Hcascade Hfaces Hne. unfold _extract_with_opencv.
  rewrite Hgray, Hcascade. cbn [mbind exc_bind attribute]. rewrite Hfaces.
  cbn [mbind exc_bind].
  destruct faces as [|first others]; [congruence|].
  destruct (max_by_greatest area first others) as [Hin Hmax].
  exists (max_by area first others). split; [exact Hin|]. split; [exact Hmax|].
  destruct (roi_embedding image_rgb (max_by area first others)); reflexivity.
Qed.

Lemma opencv_picks_largest_face_witness :
  exists largest,
    (area (toy_face 60 70 0).1 <= area largest)%Z /\
    @_extract_with_opencv toy_world (@init toy_world false) toy_document
    = {| face_detected := true; confidence := 0.5;
         embedding := Some [of_Z (box_w largest); of_Z (box_h largest); 1%float];
         error := None |}.
Proof.
  destruct (@opencv_picks_largest_face toy_world (@init toy_world false)
              toy_document toy_document () (toy_document.*1))
    as (largest & _ & Hmax & Hrun).
  - reflexivity.
  - reflexivity.
  - reflexivity.
  - discriminate.
  - exists largest. split.
    + apply Hmax. right. left.
    + exact Hrun.
Defined.

Lemma argmax_from_ties (l : list float) (i : nat) (mp : float) (max_ind : nat) :
  Forall (fun x => (x <=? mp)%float = true) l -> argmax_from l i mp max_ind = max_ind.
Proof.
  intros Hall. revert i. induction Hall as [|x l Hx _ IH]; intros i; simpl.
  - reflexivity.
  - rewrite Hx. simpl. apply IH.
Qed.

Lemma opencv_confidence {cv : FaceCV} (self : FaceServiceObject) (image_rgb : image) :
  face_detected (_extract_with_opencv self image_rgb) = true ->
  confidence (_extract_with_opencv self image_rgb) = 0.5%float.
Proof.
  unfold _extract_with_opencv.
  destruct (cv2_cvtColor_RGB2GRAY image_rgb) as [gray|]; cbn [mbind exc_bind];
    [|discriminate].
  destruct (attribute "face_cascade" (face_cascade self)) as [cascade|];
    cbn [mbind exc_bind]; [|discriminate].
  destruct (detectMultiScale cascade gray) as [[|first others]|];
    cbn [mbind exc_bind]; try discriminate.
  destruct (roi_embedding _ _); cbn [mbind exc_bind]; [reflexivity | discriminate].
Qed.

(** X25. Without FaceNet every face found by the cascade carries the
    same confidence 0.5, so the choice of the best selfie face is decided
    by position: the extractor returns the embedding of the first sampled
    frame in which a face was found. *)
Theorem fallback_selfie_keeps_first_face
        {cv : FaceCV} (self : FaceServiceObject) (video_path : Path)
        (cap : list image) (first : option (list float) * float)
        (others : list (option (list float) * float)) :
  cv2_VideoCapture video_path = Some cap ->
  selfie_loop false self cap 0 [] = Return (first :: others) ->
  Forall (fun entry => entry.2 = 0.5%float) (first :: others) /\
  extract_face_from_selfie false self video_path
  = {| face_detected := true; confidence := 0.5;
       embedding := first.1; error := None |}.
Proof.
  intros Hopen Hloop.
  assert (Hhalf : Forall (fun entry : option (list float) * float => entry.2 = 0.5%float)
                         (first :: others)).
  { destruct (selfie_loop_found _ _ _ _ Hloop) as (rgbs & _ & Hfrom).
    rewrite Hfrom. apply Forall_forall. intros entry Hin.
    apply list_elem_of_omap in Hin as (rgb & _ & Hfound).
    unfold found_in, extract in Hfound. simpl in Hfound.
    revert Hfound.
    destruct (face_detected (_extract_with_opencv self rgb)) eqn:Hdet; [|discriminate].
    intros [= <-]. simpl. now apply opencv_confidence. }
  split; [exact Hhalf|].
  unfold extract_face_from_selfie. rewrite Hopen. cbn [mbind exc_bind].
  rewrite Hloop. cbn [mbind exc_bind].
  inversion Hhalf as [|? ? Hfirst Hothers]; subst.
  destruct first as [e c]. simpl in Hfirst. subst c. simpl.
  rewrite argmax_from_ties; [reflexivity|].
  rewrite Forall_fmap. eapply Forall_impl; [exact Hothers|].
  intros entry Hentry. simpl. now rewrite Hentry.
Qed.

Lemma fallback_selfie_keeps_first_face_witness :
  @extract_face_from_selfie toy_world false (@init toy_world false) "selfie.mp4"
  = {| face_detected := true; confidence := 0.5;
       embedding := Some [30; 40; 1]%float; error := None |}.
Proof.
  apply (@fallback_selfie_keeps_first_face toy_world (@init toy_world false)
           "selfie.mp4" toy_selfie (Some [30; 40; 1]%float, 0.5%float)
           [(Some [31; 41; 1]%float, 0.5%float)]).
  - reflexivity.
  - vm_compute. reflexivity.
Defined.



End FaceExtractionFacts.

(** ** Liveness: sampling, faults and the active path *)

Module LivenessExtraFacts.
Import PyFloat PyFloatFacts Exc ExcFacts FaceService LivenessService.
Import Sampling SamplingFacts ActiveLiveness.

Lemma for_each_raises {A B} (f : A -> exc B) (l : list A) (a : A) (msg : string) :
  a ∈ l -> f a = Raise msg -> exists msg', for_each f l = Raise msg'.
Proof.
  intros Hin Hraise. induction l as [|x l IH]; [now apply elem_of_nil in Hin|].
  apply elem_of_cons in Hin as [<-|Hin]; simpl.
  - rewrite Hraise. eauto.
  - destruct (f x) as [b|m]; simpl; [|eauto].
    destruct (IH Hin) as [m' ->]. eauto.
Qed.

Lemma for_each_constant {A B} (f : A -> exc B) (l : list A) (b : B) :
  Forall (fun a => f a = Return b) l -> for_each f l = Return (replicate (length l) b).
Proof.
  induction 1 as [|a l Ha _ IH]; simpl; [reflexivity|]. now rewrite Ha, IH.
Qed.

Lemma not_ltb_leb x y : not_nan x -> not_nan y -> (x <? y)%float = false -> (y <=? x)%float = true.
Proof.
  intros Hx Hy Hlt. destruct (y <=? x)%float eqn:Hle; [reflexivity|].
  pose proof (not_leb_leb y x Hy Hx Hle) as Hxy.
  rewrite ltb_cmp in Hlt. rewrite !leb_cmp in *.
  destruct (cmp x y) as [[]|] eqn:E; try discriminate.
  rewrite (cmp_antisym x y), E in Hle. discriminate.
Qed.

Section Passive.
Context {np : NumPy} {cv : VideoCV}.

Lemma read_frames_sampled max_frames step (cap : list frame) frame_count frames :
  read_frames max_frames step cap frame_count frames
  = frames ++ every_nth_from step frame_count (take (max_frames - frame_count) cap).
Proof.
  revert frame_count frames.
  induction cap as [|frame cap IH]; intros frame_count frames.
  - simpl. rewrite take_nil. simpl. now rewrite app_nil_r.
  - cbn [read_frames].
    destruct (Nat.ltb_spec frame_count max_frames) as [Hlt|Hge].
    + assert (E : (max_frames - frame_count = S (max_frames - S frame_count))%nat)
        by (clear IH; lia).
      rewrite E, firstn_cons. cbn [every_nth_from]. rewrite IH.
      destruct (frame_count mod step =? 0)%nat; [now rewrite <- app_assoc | reflexivity].
    + assert (E : (max_frames - frame_count = 0)%nat) by (clear IH; lia).
      rewrite E. simpl. now rewrite app_nil_r.
Qed.

End Passive.

(** X5. The passive detector keeps the frames 0, 2, 4, ... of the first
    fifty frames of the video, in order, and nothing else; it never
    analyses more than 25 frames, whatever the length of the video. *)
Theorem passive_sampling {np : NumPy} {cv : VideoCV} (cap : list frame) :
  passive_frames cap = sampled 50 2 cap /\
  (length (passive_frames cap) <= 25)%nat /\
  (forall frame, frame ∈ passive_frames cap -> frame ∈ cap).
Proof.
  assert (E : passive_frames cap = sampled 50 2 cap).
  { unfold passive_frames. now rewrite read_frames_sampled. }
  rewrite E. split; [reflexivity|]. split.
  - pose proof (sampled_length 50 2 cap ltac:(lia)). lia.
  - intros frame Hin. unfold sampled in Hin.
    apply every_nth_from_subset in Hin.
    now apply (subseteq_take 50 cap).
Qed.

(** X6. When a sampled frame of a passive run cannot be converted to
    grey, the three analyses fall back to their neutral score 0.5, so the
    run returns a liveness score of exactly 0.5 and does not pass; it does
    not raise. *)
Theorem corrupt_frame_gives_neutral_score
        {np : NumPy} {cv : VideoCV} (video_path : Path) (cap : list frame)
        (bad : frame) (msg : string) :
  cv2_VideoCapture video_path = Some cap ->
  (3 <= length (passive_frames cap))%nat ->
  bad ∈ passive_frames cap ->
  cv2_cvtColor_BGR2GRAY bad = Raise msg ->
  _passive_liveness_detection video_path
  = Return {| liveness_detected := false;
              liveness_score := 0.5;
              confidence := (0.5 * 0.8)%float;
              method := "passive";
              indicators := Some (<["motion" := 0.5%float]>
                                  (<["texture" := 0.5%float]>
                                   {["blur" := 0.5%float]}));
              reason := None;
              error := None |}.
Proof.
  intros Hopen Hlen Hbad Hraise.
  assert (Hmotion : _analyze_motion (passive_frames cap) = 0.5%float).
  { unfold _analyze_motion.
    destruct (Nat.ltb_spec (length (passive_frames cap)) 2); [lia|].
    destruct (for_each_raises _ _ _ _ Hbad Hraise) as [m ->]. reflexivity. }
  assert (Htexture : _analyze_texture (passive_frames cap) = 0.5%float).
  { unfold _analyze_texture.
    destruct (Nat.ltb_spec (length (passive_frames cap)) 3); [lia|].
    destruct (for_each_raises
                (fun frame => gray ← cv2_cvtColor_BGR2GRAY frame;
                              laplacian_var ← laplacian_var gray;
                              Return (py_min (laplacian_var / 500) 1))
                _ bad msg Hbad) as [m ->]; [now rewrite Hraise | reflexivity]. }
  assert (Hblur : _analyze_blur (passive_frames cap) = 0.5%float).
  { unfold _analyze_blur.
    destruct (Nat.ltb_spec (length (passive_frames cap)) 1); [lia|].
    destruct (for_each_raises
                (fun frame => gray ← cv2_cvtColor_BGR2GRAY frame;
                              blur_score ← laplacian_var gray;
                              Return (py_min (blur_score / 100) 1))
                _ bad msg Hbad) as [m ->]; [now rewrite Hraise | reflexivity]. }
  unfold _passive_liveness_detection. rewrite Hopen. cbn [mbind exc_bind].
  destruct (Nat.ltb_spec (length (passive_frames cap)) 3); [lia|].
  rewrite Hmotion, Htexture, Hblur. reflexivity.
Qed.

Lemma corrupt_frame_gives_neutral_score_witness :
  exists r,
    @_passive_liveness_detection sequential_numpy
      (fragile_cv {["selfie.mp4" := [600; 0; -1; 0; 609]%float]}) "selfie.mp4"
    = Return r /\ liveness_score r = 0.5%float /\ liveness_detected r = false.
Proof.
  eexists. split.
  - apply (@corrupt_frame_gives_neutral_score sequential_numpy
             (fragile_cv {["selfie.mp4" := [600; 0; -1; 0; 609]%float]})
             "selfie.mp4" [600; 0; -1; 0; 609]%float (-1)%float
             "cv2.error: empty frame").
    + reflexivity.
    + simpl. lia.
    + vm_compute. right. left.
    + reflexivity.
  - split; reflexivity.
Defined.

(** X7. On three frames or more the texture score is floored: unless it
    is NaN, it is at least 0.3. *)
Theorem texture_score_floor {np : NumPy} {cv : VideoCV} (frames : list frame) :
  (3 <= length frames)%nat ->
  not_nan (_analyze_texture frames) ->
  (0.3 <=? _analyze_texture frames)%float = true.
Proof.
  intros Hlen. unfold _analyze_texture.
  destruct (Nat.ltb_spec (length frames) 3); [lia|].
  destruct (for_each _ frames) as [scores|msg]; cbn [mbind exc_bind]; [|reflexivity].
  unfold py_max. destruct (np_mean scores <? 0.3)%float eqn:Hlow; [reflexivity|].
  intros Hnan. now apply not_ltb_leb.
Qed.

Lemma texture_score_floor_witness :
  (0.3 <=? @_analyze_texture sequential_numpy (numeric_cv ∅) [10; 20; 30]%float)%float
  = true.
Proof.
  apply (@texture_score_floor sequential_numpy (numeric_cv ∅) [10; 20; 30]%float).
  - simpl. lia.
  - reflexivity.
Defined.

Section Active.
Context {np : NumPy} {cv : VideoCV} {cascades : Cascades}.

Lemma read_all_frames_take max_frames (cap : list frame) frame_count frames :
  read_all_frames max_frames cap frame_count frames
  = frames ++ take (max_frames - frame_count) cap.
Proof.
  revert frame_count frames.
  induction cap as [|frame cap IH]; intros frame_count frames.
  - simpl. rewrite take_nil. now rewrite app_nil_r.
  - cbn [read_all_frames].
    destruct (Nat.ltb_spec frame_count max_frames) as [Hlt|Hge].
    + assert (E : (max_frames - frame_count = S (max_frames - S frame_count))%nat)
        by (clear IH; lia).
      rewrite E, firstn_cons, IH. now rewrite <- app_assoc.
    + assert (E : (max_frames - frame_count = 0)%nat) by (clear IH; lia).
      rewrite E. simpl. now rewrite app_nil_r.
Qed.

Lemma active_frames_take (cap : list frame) : active_frames cap = take 100 cap.
Proof. unfold active_frames. now rewrite read_all_frames_take. Qed.

Lemma appended_none {A} (n : nat) : appended (replicate n (@None A)) = [].
Proof. induction n as [|n IH]; [reflexivity|]. exact IH. Qed.

End Active.



(** X9. When the face cascade finds no face in any of the frames read
    (ten or more), blinking and head movement both score 0.0, and the
    active detector returns a score of 0.0 and does not pass. *)
Theorem active_liveness_without_face
        {np : NumPy} {cv : VideoCV} {cascades : Cascades}
        (video_path : Path) (cap : list frame) :
  cv2_VideoCapture video_path = Some cap ->
  (10 <= length cap)%nat ->
  Forall (fun frame => exists g, cv2_cvtColor_BGR2GRAY frame = Return g /\
                                 face_cascade_detect g = Return [])
         (take 100 cap) ->
  _detect_blinking (active_frames cap) = 0%float /\
  _detect_head_movement (active_frames cap) = 0%float /\
  exists r, _active_liveness_detection video_path = Return r /\
            liveness_detected r = false /\
            liveness_score r = 0%float /\
            confidence r = 0%float.
Proof.
  intros Hopen Hlen Hnone. rewrite active_frames_take.
  assert (Hblink : for_each blink_of_frame (take 100 cap)
                   = Return (replicate (length (take 100 cap)) None)).
  { apply for_each_constant. eapply Forall_impl; [exact Hnone|].
    intros frame (g & Hg & Hfaces). unfold blink_of_frame.
    rewrite Hg. cbn [mbind exc_bind]. now rewrite Hfaces. }
  assert (Hcentre : for_each centre_of_frame (take 100 cap)
                    = Return (replicate (length (take 100 cap)) None)).
  { apply for_each_constant. eapply Forall_impl; [exact Hnone|].
    intros frame (g & Hg & Hfaces). unfold centre_of_frame.
    rewrite Hg. cbn [mbind exc_bind]. now rewrite Hfaces. }
  assert (B : _detect_blinking (take 100 cap) = 0%float).
  { unfold _detect_blinking. rewrite Hblink. cbn [mbind exc_bind].
    now rewrite appended_none. }
  assert (H : _detect_head_movement (take 100 cap) = 0%float).
  { unfold _detect_head_movement. rewrite Hcentre. cbn [mbind exc_bind].
    now rewrite appended_none. }
  split; [exact B|]. split; [exact H|].
  unfold _active_liveness_detection. rewrite Hopen. cbn [mbind exc_bind].
  rewrite active_frames_take.
  destruct (Nat.ltb_spec (length (take 100 cap)) 10) as [Hshort|_].
  { rewrite length_take in Hshort. lia. }
  rewrite B, H. eexists. split; [reflexivity|]. simpl. auto.
Qed.

Lemma active_liveness_without_face_witness :
  exists r,
    @_active_liveness_detection sequential_numpy
      (numeric_cv {["selfie.mp4" := replicate 12 100%float]})
      (numeric_cascades _) "selfie.mp4" = Return r /\
    liveness_detected r = false /\ liveness_score r = 0%float.
Proof.
  destruct (@active_liveness_without_face sequential_numpy
              (numeric_cv {["selfie.mp4" := replicate 12 100%float]})
              (numeric_cascades _) "selfie.mp4" (replicate 12 100%float))
    as (_ & _ & r & Hrun & Hlive & Hscore & _).
  - reflexivity.
  - simpl. lia.
  - repeat constructor; exists 100%float; split; reflexivity.
  - exists r. auto.
Defined.

(** X10. [detect_liveness] runs the active detector for the type
    ["active"] and the passive detector for every other type string; in
    both cases it returns what the detector returns, so an unknown type
    is answered with [method = "passive"]. *)
Theorem detect_liveness_dispatch
        {np : NumPy} {cv : VideoCV} {cascades : Cascades}
        (video_path : Path) (liveness_type : string) :
  detect_liveness video_path "active" = _active_liveness_detection video_path /\
  (liveness_type <> "active" ->
   detect_liveness video_path liveness_type = _passive_liveness_detection video_path /\
   exists r, detect_liveness video_path liveness_type = Return r /\
             method r = "passive").
Proof.
  assert (Hkeep : forall (body : exc LivenessDetection) handler,
             returns body -> try_except body handler = body).
  { intros body handler [r ->]. reflexivity. }
  assert (Hactive : returns (_active_liveness_detection video_path)).
  { apply try_except_returns. intros msg. eexists. reflexivity. }
  assert (Hpassive : exists r, _passive_liveness_detection video_path = Return r /\
                               method r = "passive").
  { unfold _passive_liveness_detection.
    destruct (cv2_VideoCapture video_path) as [cap|]; cbn [mbind exc_bind];
      [|eexists; split; reflexivity].
    destruct (length (passive_frames cap) <? 3)%nat; eexists; split; reflexivity. }
  split.
  - unfold detect_liveness. simpl. now apply Hkeep.
  - intros Hne. unfold detect_liveness.
    apply String.eqb_neq in Hne. rewrite Hne.
    destruct Hpassive as (r & Hr & Hm).
    rewrite Hkeep by (now exists r). split; [reflexivity|]. now exists r.
Qed.

Lemma detect_liveness_dispatch_witness :
  exists r,
    @detect_liveness sequential_numpy
      (numeric_cv {["selfie.mp4" := replicate 12 100%float]})
      (numeric_cascades _) "selfie.mp4" "pasive" = Return r /\
    method r = "passive".
Proof.
  destruct (@detect_liveness_dispatch sequential_numpy
              (numeric_cv {["selfie.mp4" := replicate 12 100%float]})
              (numeric_cascades _) "selfie.mp4" "pasive") as [_ Hother].
  destruct Hother as [_ Hr]; [discriminate | exact Hr].
Defined.

End LivenessExtraFacts.

(** ** The document extractor: parsers and thresholds *)

Module DocumentExtraFacts.
Import PyFloat PyFloatFacts Exc ExcFacts DocumentService DocumentFacts DocumentExtra.

Ltac known_key := refine (bool_decide_unpack _ _); vm_compute; reflexivity.

Section Parsers.
Context {txt : Text}.

Lemma present_count_le data doc_type : (present_count data doc_type <= 3)%nat.
Proof.
  unfold present_count.
  etransitivity; [apply length_filter|]. destruct doc_type; simpl; lia.
Qed.

Lemma identifier_score_ok data doc_type :
  identifier_format_score data doc_type
  = if identifier_ok data doc_type then 0.3%float else 0%float.
Proof.
  unfold identifier_format_score, identifier_ok.
  destruct (data !! primary_identifier doc_type); reflexivity.
Qed.

Lemma insert_dom_subseteq (keys : gset string) (k v : string)
      (data : gmap string string) :
  k ∈ keys -> dom data ⊆ keys -> dom (<[k := v]> data) ⊆ keys.
Proof.
  intros Hk Hdom. rewrite dom_insert_L.
  apply union_least; [now apply singleton_subseteq_l | exact Hdom].
Qed.

Lemma parse_passport_line_dom data line :
  dom data ⊆ passport_keys -> dom (parse_passport_line data line) ⊆ passport_keys.
Proof.
  intros Hdom. unfold parse_passport_line.
  repeat case_match; try assumption;
    (apply insert_dom_subseteq; [known_key | assumption]).
Qed.

Lemma parse_id_card_line_dom data line :
  dom data ⊆ id_card_keys -> dom (parse_id_card_line data line) ⊆ id_card_keys.
Proof.
  intros Hdom. unfold parse_id_card_line.
  repeat case_match;
    repeat (apply insert_dom_subseteq; [known_key|]); assumption.
Qed.

Lemma fold_left_dom {A} (step : gmap string string -> A -> gmap string string)
      (keys : gset string) :
  (forall data a, dom data ⊆ keys -> dom (step data a) ⊆ keys) ->
  forall l data, dom data ⊆ keys -> dom (fold_left step l data) ⊆ keys.
Proof.
  intros Hstep l. induction l as [|a l IH]; intros data Hdata; simpl; auto.
Qed.

(** A line leaves an identifier that is already there. *)
Lemma parse_id_card_line_keeps_id data line v :
  data !! "id_number" = Some v ->
  parse_id_card_line data line !! "id_number" = Some v.
Proof.
  intros Hid. unfold parse_id_card_line. rewrite Hid.
  repeat case_match; rewrite ?lookup_insert_ne by discriminate; assumption.
Qed.

Lemma fold_id_card_keeps_id lines data v :
  data !! "id_number" = Some v ->
  fold_left parse_id_card_line lines data !! "id_number" = Some v.
Proof.
  revert data. induction lines as [|line lines IH]; intros data Hid; simpl; auto.
  apply IH. now apply parse_id_card_line_keeps_id.
Qed.

Lemma parse_id_card_line_no_id data line :
  data !! "id_number" = None ->
  re_search IdNumber (str_strip line) = None ->
  parse_id_card_line data line !! "id_number" = None.
Proof.
  intros Hid Hno. unfold parse_id_card_line. rewrite Hno.
  repeat case_match; rewrite ?lookup_insert_ne by discriminate; assumption.
Qed.

Lemma parse_id_card_line_sets_id data line g :
  data !! "id_number" = None ->
  re_search IdNumber (str_strip line) = Some g ->
  parse_id_card_line data line !! "id_number" = Some g.
Proof.
  intros Hid Hfound. unfold parse_id_card_line. rewrite Hfound, Hid.
  repeat case_match; rewrite ?lookup_insert_ne by discriminate;
    apply lookup_insert_eq.
Qed.

Lemma parse_id_card_line_keeps_name data line v :
  data !! "full_name" = Some v ->
  re_search Name (str_strip line) = None ->
  parse_id_card_line data line !! "full_name" = Some v.
Proof.
  intros Hname Hno. unfold parse_id_card_line. rewrite Hno.
  repeat case_match; rewrite ?lookup_insert_ne by discriminate; assumption.
Qed.

Lemma parse_id_card_line_sets_name data line g :
  re_search Name (str_strip line) = Some g ->
  parse_id_card_line data line !! "full_name" = Some (str_strip g).
Proof.
  intros Hfound. unfold parse_id_card_line. rewrite Hfound.
  repeat case_match; rewrite ?lookup_insert_ne by discriminate;
    apply lookup_insert_eq.
Qed.

Lemma fold_id_card_no_id lines data :
  data !! "id_number" = None ->
  Forall (fun l => re_search IdNumber (str_strip l) = None) lines ->
  fold_left parse_id_card_line lines data !! "id_number" = None.
Proof.
  intros Hid Hno. revert data Hid.
  induction Hno as [|line lines Hline _ IH]; intros data Hid; simpl; auto.
  apply IH. now apply parse_id_card_line_no_id.
Qed.

Lemma fold_id_card_keeps_name lines data v :
  data !! "full_name" = Some v ->
  Forall (fun l => re_search Name (str_strip l) = None) lines ->
  fold_left parse_id_card_line lines data !! "full_name" = Some v.
Proof.
  intros Hname Hno. revert data Hname.
  induction Hno as [|line lines Hline _ IH]; intros data Hname; simpl; auto.
  apply IH. now apply parse_id_card_line_keeps_name.
Qed.

Lemma parse_passport_line_no_full_name data line :
  data !! "full_name" = None -> parse_passport_line data line !! "full_name" = None.
Proof.
  intros Hdata. unfold parse_passport_line.
  repeat case_match; try assumption; now rewrite lookup_insert_ne.
Qed.

End Parsers.

(** X11. On a field map of a recognized document type that does not
    hold the identifier of the other family (every parsed map is one),
    the outcome of [_validate_document_data] is decided by two counts: the
    document is valid exactly when all three required fields are present,
    or two of them are and the identifier passes its format check; and its
    confidence reaches 0.7 exactly when all three required fields are
    present. *)
Theorem validity_by_field_count {txt : Text}
        (data : gmap string string) (doc_type : DocType) :
  recognized doc_type ->
  data !! other_identifier doc_type = None ->
  (_validate_document_data data doc_type).1
  = (present_count data doc_type =? 3)%nat
    || (present_count data doc_type =? 2)%nat && identifier_ok data doc_type /\
  geb (_validate_document_data data doc_type).2 0.7
  = (present_count data doc_type =? 3)%nat.
Proof.
  intros Hty Hother. unfold _validate_document_data. cbn [fst snd].
  rewrite (field_completeness_fraction _ _ Hty).
  rewrite (format_score_primary _ _ Hty); [|destruct doc_type; exact Hother].
  rewrite identifier_score_ok. unfold required_fraction.
  fold (present_count data doc_type).
  pose proof (present_count_le data doc_type) as Hle.
  assert (Hlen : length (required_fields doc_type) = 3%nat).
  { destruct doc_type; try reflexivity. now destruct Hty. }
  rewrite Hlen.
  destruct (identifier_ok data doc_type);
    destruct (present_count data doc_type) as [|[|[|[|n]]]];
    try (split; reflexivity); lia.
Qed.

Lemma validity_by_field_count_witness :
  (@_validate_document_data ascii_text
     (<["id_number" := "AB-123456"]> {["full_name" := "JANE ROE"]}) national_id).1
  = true.
Proof.
  destruct (@validity_by_field_count ascii_text
              (<["id_number" := "AB-123456"]> {["full_name" := "JANE ROE"]}) national_id)
    as [-> _].
  - discriminate.
  - reflexivity.
  - reflexivity.
Defined.

(** X12. The passport parser writes only the keys [passport_number],
    [surname], [given_names], [date_of_birth], [expiration_date] and
    [full_name], and the ID-card parser only [id_number], [full_name] and
    [date_of_birth], whatever the text. *)
Theorem parsers_write_known_keys {txt : Text} (text : string) :
  dom (_parse_passport_data text) ⊆ passport_keys /\
  dom (_parse_id_card_data text) ⊆ id_card_keys.
Proof.
  split.
  - unfold _parse_passport_data.
    assert (H : dom (fold_left parse_passport_line
                               (str_split newline (str_strip text)) ∅)
                ⊆ passport_keys).
    { apply fold_left_dom; [apply parse_passport_line_dom|].
      rewrite dom_empty_L. apply empty_subseteq. }
    repeat case_match; try assumption.
    apply insert_dom_subseteq; [known_key | assumption].
  - apply fold_left_dom; [apply parse_id_card_line_dom|].
    rewrite dom_empty_L. apply empty_subseteq.
Qed.

(** X13. The ID-card parser keeps the first ID number and the last
    name: the [id_number] is taken from the first line in which the ID
    pattern matches and later matches do not replace it, whereas
    [full_name] is taken from the last line in which the name pattern
    matches. *)
Theorem id_card_first_number_last_name {txt : Text}
        (text : string) (before after : list string) (line g : string) :
  str_split newline (str_strip text) = before ++ line :: after ->
  (Forall (fun l => re_search IdNumber (str_strip l) = None) before ->
   re_search IdNumber (str_strip line) = Some g ->
   _parse_id_card_data text !! "id_number" = Some g) /\
  (Forall (fun l => re_search Name (str_strip l) = None) after ->
   re_search Name (str_strip line) = Some g ->
   _parse_id_card_data text !! "full_name" = Some (str_strip g)).
Proof.
  intros Hlines. unfold _parse_id_card_data. rewrite Hlines, fold_left_app.
  cbn [fold_left]. split.
  - intros Hbefore Hline. apply fold_id_card_keeps_id.
    apply parse_id_card_line_sets_id; [|exact Hline].
    apply fold_id_card_no_id; [apply lookup_empty | exact Hbefore].
  - intros Hafter Hline. apply fold_id_card_keeps_name; [|exact Hafter].
    now apply parse_id_card_line_sets_name.
Qed.

Lemma id_card_first_number_last_name_witness :
  @_parse_id_card_data ascii_text "ID: AB-123456
ID: ZZ-999999" !! "id_number" = Some "AB-123456".
Proof.
  destruct (@id_card_first_number_last_name ascii_text "ID: AB-123456
ID: ZZ-999999" [] ["ID: ZZ-999999"] "ID: AB-123456" "AB-123456") as [Hid _].
  - reflexivity.
  - apply Hid; [constructor | reflexivity].
Defined.

(** X14. The passport parser sets [full_name] exactly when it found
    both a surname and given names, and then to the given names, a space
    and the surname; a text with only one of the two has no [full_name]. *)
Theorem passport_full_name {txt : Text} (text : string) :
  _parse_passport_data text !! "full_name"
  = match _parse_passport_data text !! "surname",
          _parse_passport_data text !! "given_names" with
    | Some surname, Some given_names => Some (given_names +:+ " " +:+ surname)
    | _, _ => None
    end.
Proof.
  unfold _parse_passport_data.
  assert (H : fold_left parse_passport_line
                        (str_split newline (str_strip text)) ∅ !! "full_name" = None).
  { apply fold_left_keeps; [apply parse_passport_line_no_full_name | apply lookup_empty]. }
  destruct (fold_left _ _ _ !! "surname") as [s|] eqn:Hs;
    destruct (fold_left _ _ _ !! "given_names") as [g|] eqn:Hg;
    rewrite ?lookup_insert_eq, ?lookup_insert_ne by discriminate;
    rewrite ?Hs, ?Hg; try exact H; reflexivity.
Qed.

(** X15. An image that can be read and filtered, and whose aspect ratio
    lies in none of the three bands, is reported as an [unknown] document
    that is not valid, with confidence [0.0] and no extracted field;
    this is a normal result, without an error note. *)
Theorem unknown_shape_is_invalid {cv : OpenCV} {txt : Text}
        (image_path : Path) (image processed : ndarray) :
  cv2_imread image_path = Some image ->
  _preprocess_image image = Return processed ->
  (shape processed).1 <> 0 ->
  classify_ratio (of_Z (shape processed).2 / of_Z (shape processed).1) = unknown ->
  exists r, process_document image_path = Return r /\
            document_type r = unknown /\
            document_valid r = false /\
            confidence r = 0%float /\
            extracted_data r = ∅ /\
            error r = None.
Proof.
  intros Hread Hpre Hheight Hclass.
  unfold process_document, process_document_body.
  rewrite Hread. cbn [mbind exc_bind]. rewrite Hpre. cbn [mbind exc_bind].
  unfold _detect_document_type, true_div.
  destruct (shape processed) as [height width]. simpl in Hheight, Hclass.
  destruct (Z.eqb_spec height 0) as [->|_]; [now destruct Hheight|].
  cbn [mbind exc_bind]. rewrite Hclass.
  eexists. split; [reflexivity|]. simpl. auto.
Qed.

Lemma unknown_shape_is_invalid_witness :
  exists r,
    @process_document (shape_cv {["square.png" := (1000, 1000)]}) ascii_text "square.png"
    = Return r /\
    document_type r = unknown /\ document_valid r = false.
Proof.
  destruct (@unknown_shape_is_invalid (shape_cv {["square.png" := (1000, 1000)]})
              ascii_text "square.png" (1000, 1000) (1000, 1000))
    as (r & Hrun & Hty & Hvalid & _).
  - reflexivity.
  - reflexivity.
  - simpl. lia.
  - reflexivity.
  - exists r. auto.
Defined.

Lemma sample_text_by_type :
  @_validate_document_data ascii_text
     (@_parse_document_data ascii_text sample_text passport) passport
  = (true, (1 * 0.7 + 0.3 * 0.3)%float) /\
  (@_validate_document_data ascii_text
     (@_parse_document_data ascii_text sample_text national_id) national_id).1 = false /\
  (@_validate_document_data ascii_text
     (@_parse_document_data ascii_text sample_text drivers_license) drivers_license).1
  = false /\
  (@_validate_document_data ascii_text
     (@_parse_document_data ascii_text sample_text unknown) unknown).1 = false.
Proof. repeat split; vm_compute; reflexivity. Qed.

(** X24. The OCR step is a placeholder that returns the same passport
    text for every image.  With the text library on ASCII text, the
    result of [process_document] is therefore valid exactly when the
    aspect ratio classifies the image as a passport (and then its
    confidence is [1.0 * 0.7 + 0.3 * 0.3]); an image classified as a
    national ID or a driving licence is never valid. *)
Theorem placeholder_ocr_validates_passports_only
        {cv : OpenCV} (image_path : Path) (r : ProcessedDocument) :
  @process_document cv ascii_text image_path = Return r ->
  (document_valid r = true <-> document_type r = passport) /\
  (document_type r = passport -> confidence r = (1 * 0.7 + 0.3 * 0.3)%float).
Proof.
  destruct sample_text_by_type as (Hp & Hn & Hd & Hu).
  unfold process_document, process_document_body.
  destruct (cv2_imread image_path) as [image|]; cbn [mbind exc_bind try_except].
  2: { intros [= <-]. simpl. split; [split|]; discriminate. }
  destruct (_preprocess_image image) as [processed|]; cbn [mbind exc_bind try_except].
  2: { intros [= <-]. simpl. split; [split|]; discriminate. }
  unfold _detect_document_type, true_div.
  destruct (shape processed) as [height width].
  destruct (height =? 0)%Z; cbn [mbind exc_bind try_except].
  { intros [= <-]. simpl. split; [split|]; discriminate. }
  unfold _extract_text_with_ocr.
  destruct (classify_ratio (of_Z width / of_Z height)).
  - rewrite Hp. intros [= <-]. simpl. split; [split|]; reflexivity.
  - destruct (_validate_document_data _ national_id) as [valid c].
    simpl in Hn. subst valid. intros [= <-]. simpl. split; [split|]; discriminate.
  - destruct (_validate_document_data _ drivers_license) as [valid c].
    simpl in Hd. subst valid. intros [= <-]. simpl. split; [split|]; discriminate.
  - destruct (_validate_document_data _ unknown) as [valid c].
    simpl in Hu. subst valid. intros [= <-]. simpl. split; [split|]; discriminate.
Qed.

Lemma placeholder_ocr_validates_passports_only_witness :
  match @process_document (shape_cv {["card.png" := (1000, 700)]}) ascii_text
          "card.png" with
  | Return r => document_valid r = true <-> document_type r = passport
  | Raise _ => False
  end.
Proof.
  destruct (@process_document (shape_cv {["card.png" := (1000, 700)]}) ascii_text
              "card.png") as [r|msg] eqn:Hrun.
  - apply (@placeholder_ocr_validates_passports_only
             (shape_cv {["card.png" := (1000, 700)]}) "card.png" r Hrun).
  - vm_compute in Hrun. discriminate.
Defined.

End DocumentExtraFacts.

(** ** The orchestrator: faults of the services *)

Module VerificationExtraFacts.
Import PyFloat PyFloatFacts Exc VerificationService VerificationFacts VerificationExtra.

Section Orchestrator.
Context {env : Env}.

(** The run of [process_verification] once the uploads are saved. *)
Lemma process_verification_steps settings session_id id_document selfie_video
      w w1 w2 w3 w4 id_path selfie_path d f l :
  _save_uploaded_files session_id id_document selfie_video w
    = (w1, Return (id_path, selfie_path)) ->
  _process_document id_path w1 = (w2, Return d) ->
  _process_face_verification id_path selfie_path w2 = (w3, Return f) ->
  _process_liveness_detection selfie_path w3 = (w4, Return l) ->
  process_verification settings session_id id_document selfie_video w
  = (w4, Return (_aggregate_results settings d f l)).
Proof.
  intros Hsave Hdoc Hface Hlive.
  unfold process_verification, try_catch, process_verification_body, mbind, St_bind.
  now rewrite Hsave, Hdoc, Hface, Hlive.
Qed.

Lemma process_document_fault id_path w w' :
  (exists msg, document_service_process_document id_path w = (w', Raise msg)) \/
  (exists r, document_service_process_document id_path w = (w', Return r) /\
             DocumentService.document_valid r = false) ->
  exists d, _process_document id_path w = (w', Return d) /\
            Doc.document_valid d = false.
Proof.
  unfold _process_document, try_catch, mbind, St_bind.
  intros [[msg ->]|(r & -> & Hr)]; eexists; (split; [reflexivity|]); simpl; auto.
Qed.

Lemma process_liveness_fault selfie_path w w' msg :
  liveness_service_detect_liveness selfie_path "passive" w = (w', Raise msg) ->
  exists l, _process_liveness_detection selfie_path w = (w', Return l) /\
            Live.liveness_detected l = false /\ Live.error l = Some msg.
Proof.
  unfold _process_liveness_detection, try_catch, mbind, St_bind.
  intros ->. eexists. split; [reflexivity|]. simpl. auto.
Qed.

End Orchestrator.

(** X16. Once the uploads are saved, an attempt always completes: for
    every behaviour of the three services, including any of them
    raising, [process_verification] returns a result with status
    [completed], a decision reason and no error. *)
Theorem saved_uploads_always_complete
        {env : Env} (settings : Settings) (session_id : string)
        (id_document selfie_video : UploadFile) (w w1 : World)
        (id_path selfie_path : Path) :
  _save_uploaded_files session_id id_document selfie_video w
    = (w1, Return (id_path, selfie_path)) ->
  exists w' r,
    process_verification settings session_id id_document selfie_video w
      = (w', Return r) /\
    Final.status r = completed /\
    is_Some (Final.decision_reason r) /\
    Final.error r = None.
Proof.
  intros Hsave.
  destruct (process_document_total id_path w1) as (w2 & d & Hdoc).
  destruct (process_face_verification_total id_path selfie_path w2) as (w3 & f & Hface).
  destruct (process_liveness_detection_total selfie_path w3) as (w4 & l & Hlive).
  exists w4, (_aggregate_results settings d f l).
  split; [now apply (process_verification_steps _ _ _ _ _ _ _ _ _ _ _ _ _ _
                       Hsave Hdoc Hface Hlive)|].
  unfold _aggregate_results.
  destruct (decision_logic _ _ _ _ _ _ _) as [decision reason]. simpl. eauto.
Qed.

Lemma saved_uploads_always_complete_witness :
  exists w' r,
    @process_verification (scripted_env liveness_crash) default_settings "s1"
      id_upload selfie_upload [] = (w', Return r) /\
    Final.status r = completed.
Proof.
  destruct (@saved_uploads_always_complete (scripted_env liveness_crash)
              default_settings "s1" id_upload selfie_upload [] saved_log
              "uploads/verifications/s1/id_id.png"
              "uploads/verifications/s1/selfie_selfie.mp4")
    as (w' & r & Hrun & Hstatus & _).
  - reflexivity.
  - exists w', r. auto.
Defined.

(** X17. When the document service raises, or reports a document that
    is not valid, the attempt is rejected for ["Invalid document"],
    whatever the face and liveness services answer. *)
Theorem document_fault_rejects
        {env : Env} (settings : Settings) (session_id : string)
        (id_document selfie_video : UploadFile) (w w1 w2 : World)
        (id_path selfie_path : Path) :
  _save_uploaded_files session_id id_document selfie_video w
    = (w1, Return (id_path, selfie_path)) ->
  (exists msg, document_service_process_document id_path w1 = (w2, Raise msg)) \/
  (exists r, document_service_process_document id_path w1 = (w2, Return r) /\
             DocumentService.document_valid r = false) ->
  exists w' r,
    process_verification settings session_id id_document selfie_video w
      = (w', Return r) /\
    Final.status r = completed /\
    Final.decision r = rejected /\
    Final.decision_reason r = Some "Invalid document".
Proof.
  intros Hsave Hfault.
  destruct (process_document_fault id_path w1 w2 Hfault) as (d & Hdoc & Hinvalid).
  destruct (process_face_verification_total id_path selfie_path w2) as (w3 & f & Hface).
  destruct (process_liveness_detection_total selfie_path w3) as (w4 & l & Hlive).
  exists w4, (_aggregate_results settings d f l).
  split; [now apply (process_verification_steps _ _ _ _ _ _ _ _ _ _ _ _ _ _
                       Hsave Hdoc Hface Hlive)|].
  unfold _aggregate_results, decision_logic. rewrite Hinvalid. simpl. auto.
Qed.

Lemma document_fault_rejects_witness :
  exists w' r,
    @process_verification (scripted_env document_crash) default_settings "s1"
      id_upload selfie_upload [] = (w', Return r) /\
    Final.decision_reason r = Some "Invalid document".
Proof.
  destruct (@document_fault_rejects (scripted_env document_crash)
              default_settings "s1" id_upload selfie_upload [] saved_log saved_log
              "uploads/verifications/s1/id_id.png"
              "uploads/verifications/s1/selfie_selfie.mp4")
    as (w' & r & Hrun & _ & _ & Hreason).
  - reflexivity.
  - left. eexists. reflexivity.
  - exists w', r. auto.
Defined.

(** X18. A fault of the face service is reported as a missing face:
    when extracting the document face raises, or the document shows a
    face and extracting the selfie face raises, or both faces are found
    and the comparison raises, the face step returns [face_detected =
    False] with the text of the exception, and an attempt with a valid
    document is rejected for ["No face detected"]. *)
Theorem face_fault_reads_as_no_face
        {env : Env} (settings : Settings) (id_path selfie_path : Path)
        (w w' : World) (msg : string) :
  face_service_extract_face_from_document id_path w = (w', Raise msg) \/
  (exists w1 doc_face,
      face_service_extract_face_from_document id_path w = (w1, Return doc_face) /\
      FaceService.face_detected doc_face = true /\
      (face_service_extract_face_from_selfie selfie_path w1 = (w', Raise msg) \/
       exists w2 selfie_face,
         face_service_extract_face_from_selfie selfie_path w1
           = (w2, Return selfie_face) /\
         FaceService.face_detected selfie_face = true /\
         face_service_compare_faces (FaceService.embedding doc_face)
                                    (FaceService.embedding selfie_face) w2
           = (w', Raise msg))) ->
  exists f,
    _process_face_verification id_path selfie_path w = (w', Return f) /\
    Face.face_detected f = false /\
    Face.error f = Some msg /\
    forall d l,
      Doc.document_valid d = true ->
      Final.decision (_aggregate_results settings d f l) = rejected /\
      Final.decision_reason (_aggregate_results settings d f l)
        = Some "No face detected".
Proof.
  intros Hfault.
  assert (Hrun : _process_face_verification id_path selfie_path w
                 = (w', Return {| Face.face_detected := false;
                                  Face.face_match_score := 0;
                                  Face.confidence := 0;
                                  Face.document_face_confidence := None;
                                  Face.selfie_face_confidence := None;
                                  Face.error := Some msg |})).
  { unfold _process_face_verification, try_catch, mbind, St_bind.
    destruct Hfault as [-> | (w1 & doc_face & -> & Hdet & Hrest)]; [reflexivity|].
    rewrite Hdet. simpl.
    destruct Hrest as [-> | (w2 & selfie_face & -> & Hdet' & Hcompare)];
      [reflexivity|].
    rewrite Hdet'. simpl. now rewrite Hcompare. }
  eexists. split; [exact Hrun|]. simpl. do 2 (split; [reflexivity|]).
  intros d l Hvalid. unfold _aggregate_results, decision_logic. simpl.
  rewrite Hvalid. simpl. auto.
Qed.

Lemma face_fault_reads_as_no_face_witness :
  exists f,
    @_process_face_verification (scripted_env face_crash) "id.png" "selfie.mp4" []
      = ([], Return f) /\
    Face.face_detected f = false /\ Face.error f = Some "face service crashed".
Proof.
  destruct (@face_fault_reads_as_no_face (scripted_env face_crash) default_settings
              "id.png" "selfie.mp4" [] [] "face service crashed")
    as (f & Hrun & Hdet & Herr & _).
  - left. reflexivity.
  - exists f. auto.
Defined.

(** X19. When the document shows no face, the selfie is not examined:
    the face step returns in the world left by the document extraction,
    with [face_detected = False], a match score of [0.0] and the note ["No
    face detected in ID document"]; an attempt with a valid document is
    then rejected for ["No face detected"]. *)
Theorem document_without_face_skips_selfie
        {env : Env} (settings : Settings) (id_path selfie_path : Path)
        (w w1 : World) (doc_face : FaceService.FaceExtraction) :
  face_service_extract_face_from_document id_path w = (w1, Return doc_face) ->
  FaceService.face_detected doc_face = false ->
  exists f,
    _process_face_verification id_path selfie_path w = (w1, Return f) /\
    Face.face_detected f = false /\
    Face.face_match_score f = 0%float /\
    Face.error f = Some "No face detected in ID document" /\
    forall d l,
      Doc.document_valid d = true ->
      Final.decision (_aggregate_results settings d f l) = rejected /\
      Final.decision_reason (_aggregate_results settings d f l)
        = Some "No face detected".
Proof.
  intros Hdoc Hnone.
  unfold _process_face_verification, try_catch, mbind, St_bind.
  rewrite Hdoc, Hnone. simpl.
  eexists. split; [reflexivity|]. simpl. do 3 (split; [reflexivity|]).
  intros d l Hvalid. unfold _aggregate_results, decision_logic. simpl.
  rewrite Hvalid. simpl. auto.
Qed.

Lemma document_without_face_skips_selfie_witness :
  exists f,
    @_process_face_verification (scripted_env faceless_document) "id.png" "selfie.mp4" []
      = ([], Return f) /\
    Face.error f = Some "No face detected in ID document".
Proof.
  destruct (@document_without_face_skips_selfie (scripted_env faceless_document)
              default_settings "id.png" "selfie.mp4" [] []
              {| FaceService.face_detected := false;
                 FaceService.confidence := 0;
                 FaceService.embedding := None;
                 FaceService.error := None |})
    as (f & Hrun & _ & _ & Herr & _).
  - reflexivity.
  - reflexivity.
  - exists f. auto.
Defined.

(** X20. When the liveness service raises, the liveness step reports
    [liveness_detected = False] with the text of the exception, and an
    attempt with a valid document and a detected face is rejected for
    ["Liveness detection failed"]. *)
Theorem liveness_fault_rejects
        {env : Env} (settings : Settings) (selfie_path : Path)
        (w w' : World) (msg : string) :
  liveness_service_detect_liveness selfie_path "passive" w = (w', Raise msg) ->
  exists l,
    _process_liveness_detection selfie_path w = (w', Return l) /\
    Live.liveness_detected l = false /\
    Live.error l = Some msg /\
    forall d f,
      Doc.document_valid d = true ->
      Face.face_detected f = true ->
      Final.decision (_aggregate_results settings d f l) = rejected /\
      Final.decision_reason (_aggregate_results settings d f l)
        = Some "Liveness detection failed".
Proof.
  intros Hfault.
  destruct (process_liveness_fault selfie_path w w' msg Hfault)
    as (l & Hrun & Hlive & Herr).
  exists l. split; [exact Hrun|]. do 2 (split; [assumption|]).
  intros d f Hvalid Hface. unfold _aggregate_results, decision_logic.
  rewrite Hvalid, Hface, Hlive. simpl. auto.
Qed.

Lemma liveness_fault_rejects_witness :
  exists l,
    @_process_liveness_detection (scripted_env liveness_crash) "selfie.mp4" []
      = ([], Return l) /\
    Live.error l = Some "liveness service crashed".
Proof.
  destruct (@liveness_fault_rejects (scripted_env liveness_crash) default_settings
              "selfie.mp4" [] [] "liveness service crashed")
    as (l & Hrun & _ & Herr & _).
  - reflexivity.
  - exists l. auto.
Defined.

(** X21. A decision is [verified] exactly when the document is valid, a
    face was detected, liveness passed, the face score is not below the
    face threshold and is at least 0.8, the liveness score is at least the
    liveness threshold and the document confidence is at least 0.7: no
    attempt is verified with any of these checks failing. *)
Theorem verified_exactly_when_all_checks_pass
        (settings : Settings) (d : Doc.t) (f : Face.t) (l : Live.t) :
  Final.decision (_aggregate_results settings d f l) = verified <->
  Doc.document_valid d = true /\
  Face.face_detected f = true /\
  Live.liveness_detected l = true /\
  (Face.face_match_score f <? FACE_MODEL_THRESHOLD settings)%float = false /\
  (0.8 <=? Face.face_match_score f)%float = true /\
  (LIVENESS_CONFIDENCE_THRESHOLD settings <=? Live.liveness_score l)%float = true /\
  (0.7 <=? Doc.confidence d)%float = true.
Proof.
  unfold _aggregate_results, decision_logic, geb.
  destruct (Doc.document_valid d), (Face.face_detected f), (Live.liveness_detected l),
    (Face.face_match_score f <? FACE_MODEL_THRESHOLD settings)%float,
    (0.8 <=? Face.face_match_score f)%float,
    (LIVENESS_CONFIDENCE_THRESHOLD settings <=? Live.liveness_score l)%float,
    (0.7 <=? Doc.confidence d)%float; simpl; split;
    try discriminate; try tauto; intros (? & ? & ? & ? & ? & ? & ?); discriminate.
Qed.

(** X22. A face score that is NaN is never below the face threshold and
    never at least 0.8: with a valid document, a detected face and passed
    liveness, such an attempt is neither rejected nor verified but sent to
    manual review. *)
Theorem nan_face_score_goes_to_manual_review
        (settings : Settings) (d : Doc.t) (f : Face.t) (l : Live.t) :
  Doc.document_valid d = true ->
  Face.face_detected f = true ->
  Live.liveness_detected l = true ->
  PrimFloat.is_nan (Face.face_match_score f) = true ->
  Final.decision (_aggregate_results settings d f l) = manual_review /\
  Final.decision_reason (_aggregate_results settings d f l)
    = Some "Requires manual review".
Proof.
  intros Hd Hf Hl Hnan.
  assert (Hcmp : forall y, cmp (Face.face_match_score f) y = None /\
                           cmp y (Face.face_match_score f) = None).
  { intros y. unfold PrimFloat.is_nan in Hnan. apply Bool.negb_true_iff in Hnan.
    rewrite eqb_cmp in Hnan. unfold cmp in *.
    destruct (Prim2SF (Face.face_match_score f)) as [[]|[]| |[] m e];
      simpl in Hnan; try discriminate.
    - split; [reflexivity|]. destruct (Prim2SF y) as [[]|[]| |[] m e]; reflexivity.
    - now rewrite Z.compare_refl, Pos.compare_cont_refl in Hnan.
    - now rewrite Z.compare_refl, Pos.compare_cont_refl in Hnan. }
  unfold _aggregate_results, decision_logic, geb. rewrite Hd, Hf, Hl. simpl.
  rewrite ltb_cmp, (leb_cmp 0.8).
  rewrite (proj1 (Hcmp _)), (proj2 (Hcmp _)). simpl. auto.
Qed.

Lemma nan_face_score_goes_to_manual_review_witness :
  Final.decision
    (_aggregate_results default_settings (signals 0.9 PrimFloat.nan 0.95).1.1
                        (signals 0.9 PrimFloat.nan 0.95).1.2
                        (signals 0.9 PrimFloat.nan 0.95).2)
  = manual_review.
Proof.
  apply (nan_face_score_goes_to_manual_review default_settings
           (signals 0.9 PrimFloat.nan 0.95).1.1 (signals 0.9 PrimFloat.nan 0.95).1.2
           (signals 0.9 PrimFloat.nan 0.95).2); reflexivity.
Defined.

(** X23. A file opened for an upload is closed before a failure
    propagates: when the session directory is made and the ID file is
    opened, and reading the upload then raises, [_save_uploaded_files]
    closes the file and raises the same exception, in the world left by
    the close; the selfie is not touched. *)
Theorem failed_upload_closes_file
        {env : Env} (session_id : string) (id_document selfie_video : UploadFile)
        (w w1 w2 w3 w4 : World) (f : file) (msg : string) :
  mkdir (path_join upload_dir session_id) w = (w1, Return ()) ->
  open_wb (path_join (path_join upload_dir session_id)
                     ("id_" +:+ filename id_document)) w1 = (w2, Return f) ->
  upload_read id_document w2 = (w3, Raise msg) ->
  file_close f w3 = (w4, Return ()) ->
  _save_uploaded_files session_id id_document selfie_video w = (w4, Raise msg).
Proof.
  intros Hmkdir Hopen Hread Hclose.
  unfold _save_uploaded_files, with_open_wb, try_finally, mbind, St_bind, raise.
  rewrite Hmkdir, Hopen, Hread, Hclose. reflexivity.
Qed.

Lemma failed_upload_closes_file_witness :
  @_save_uploaded_files unreadable_upload_env "s1" id_upload selfie_upload []
  = (["mkdir uploads/verifications/s1";
      "open uploads/verifications/s1/id_id.png";
      "read id.png";
      "close uploads/verifications/s1/id_id.png"], Raise "connection reset").
Proof.
  apply (@failed_upload_closes_file unreadable_upload_env "s1" id_upload selfie_upload
           [] ["mkdir uploads/verifications/s1"]
           ["mkdir uploads/verifications/s1";
            "open uploads/verifications/s1/id_id.png"]
           ["mkdir uploads/verifications/s1";
            "open uploads/verifications/s1/id_id.png";
            "read id.png"]
           _ "uploads/verifications/s1/id_id.png" "connection reset");
    reflexivity.
Defined.

End VerificationExtraFacts.
